(** * BeeLine reader overlay (src/modules/beelineReader.ts)

    A shallow embedding of [BeeLineReaderService]: the colour gradient
    ([sampleColor], [interpolate]), the per-span colorizer ([getSourceText],
    [restoreSpan], the colorization loop of [refreshReader]), the mutation
    watcher with its debounce timer ([observeReaderTextLayer]) and the
    lifecycle entry points ([toolbarHandler], the click handler, [stop],
    [clearReader]).

    JavaScript strings are sequences of UTF-16 code units; [Array.from] on a
    string iterates by code point.  Mutable objects shared between closures
    (the [ReaderState] objects) live in a heap and are referred to by
    location. *)

From Stdlib Require Import ZArith QArith Qround Qabs Lia Lqa.
From Stdlib Require Import Uint63 PrimFloat FloatOps SpecFloat.
From stdpp Require Import gmap strings list pretty.

Set Default Proof Using "Type".
Local Open Scope Z_scope.

(** ** JavaScript strings *)

(** A JS string: its UTF-16 code units. *)
Abbreviation jsstring := (list N).

(** An ASCII literal as a JS string. *)
Definition js (s : string) : jsstring :=
  (fun c => Ascii.N_of_ascii c) <$> String.list_ascii_of_string s.

Definition isHighSurrogate (c : N) : bool := ((0xD800 <=? c) && (c <=? 0xDBFF))%N.
Definition isLowSurrogate (c : N) : bool := ((0xDC00 <=? c) && (c <=? 0xDFFF))%N.

(** [Array.from(s)] for a string [s]: the string iterator yields one element
    per code point, a well-formed surrogate pair staying together and a lone
    surrogate standing alone. *)
Fixpoint Array_from (s : jsstring) : list jsstring :=
  match s with
  | [] => []
  | h :: tl =>
      match tl with
      | l :: tl' =>
          if isHighSurrogate h && isLowSurrogate l
          then [h; l] :: Array_from tl'
          else [h] :: Array_from tl
      | [] => [[h]]
      end
  end.

(** JS truthiness of a string: every string but the empty one. *)
Definition truthy (s : jsstring) : bool :=
  match s with [] => false | _ :: _ => true end.

(** ** JavaScript numbers

    The arithmetic [sampleColor] and [interpolate] use, as an interface; the
    program runs on its IEEE 754 binary64 instance, [float_number]. *)

Class JSNumber (num : Type) := {
  num_of_Z : Z -> num;
  num_half : num;
  num_add : num -> num -> num;
  num_sub : num -> num -> num;
  num_mul : num -> num -> num;
  num_div : num -> num -> num;
  num_lt : num -> num -> bool;
  Math_round : num -> Z
}.

(** [Math.round] on a binary64 value, computed exactly from its mantissa and
    exponent; the values without an integer (NaN, the infinities) are sent
    to 0 and are not reached by the colorizer. *)
Definition float_round (x : float) : Z :=
  match Prim2SF x with
  | S754_finite s m e =>
      let v := if s then Z.neg m else Z.pos m in
      if 0 <=? e then v * 2 ^ e
      else (2 * v + 2 ^ (- e)) / 2 ^ (1 - e)
  | _ => 0
  end.

(** An integer literal as a binary64 value (exact below 2^53). *)
Definition float_of_Z (z : Z) : float :=
  if z <? 0 then PrimFloat.opp (PrimFloat.of_uint63 (Uint63.of_Z (- z)))
  else PrimFloat.of_uint63 (Uint63.of_Z z).

#[export] Instance float_number : JSNumber float := {|
  num_of_Z := float_of_Z;
  num_half := 0.5%float;
  num_add := PrimFloat.add;
  num_sub := PrimFloat.sub;
  num_mul := PrimFloat.mul;
  num_div := PrimFloat.div;
  num_lt := PrimFloat.ltb;
  Math_round := float_round
|}.

(** The rational number a binary64 value stands for; NaN and the infinities,
    which the colorizer does not reach, are sent to 0. *)
Definition float_value (x : float) : Q :=
  match Prim2SF x with
  | S754_finite s m e =>
      let v := if s then Z.neg m else Z.pos m in
      if 0 <=? e then inject_Z (v * 2 ^ e) else Qmake v (Z.to_pos (2 ^ (- e)))
  | _ => inject_Z 0
  end.

(** ** The colour gradient *)

Definition CHARACTERS_PER_CYCLE : Z := 48.

(** A [[number, number, number]] triple; the four constants of the source
    hold integers. *)
Definition Color : Type := Z * Z * Z.

Definition BLUE : Color := (26, 115, 232).
Definition RED : Color := (220, 38, 38).
Definition BLACK : Color := (17, 24, 39).
Definition WHITE : Color := (241, 245, 249).

(** [c[i]] for [i] in 0, 1, 2. *)
Definition at_index (c : Color) (i : nat) : Z :=
  match c, i with
  | (r, _, _), O => r
  | (_, g, _), S O => g
  | (_, _, b), _ => b
  end.

Section Gradient.
Context {num : Type} `{JSNumber num}.

(** The [channel] closure of [interpolate]. *)
Definition channel (from to : Color) (t : num) (i : nat) : Z :=
  Math_round
    (num_add (num_of_Z (at_index from i))
       (num_mul (num_sub (num_of_Z (at_index to i)) (num_of_Z (at_index from i))) t)).

(** The template literal [`rgb(${r}, ${g}, ${b})`]. *)
Definition rgb_string (r g b : Z) : string :=
  "rgb(" +:+ pretty r +:+ ", " +:+ pretty g +:+ ", " +:+ pretty b +:+ ")".

Definition interpolate (from to : Color) (t : num) : string :=
  rgb_string (channel from to t 0) (channel from to t 1) (channel from to t 2).

Definition sampleColor (t : num) (endColor : Color) : string :=
  if num_lt t num_half
  then interpolate BLUE RED (num_mul t (num_of_Z 2))
  else interpolate RED endColor (num_mul (num_sub t num_half) (num_of_Z 2)).

(** The cycle position of the character at running offset [pos]:
    [((charOffset + i) % CHARACTERS_PER_CYCLE) / CHARACTERS_PER_CYCLE]. *)
Definition cyclePosition (pos : Z) : num :=
  num_div (num_of_Z (Z.rem pos CHARACTERS_PER_CYCLE)) (num_of_Z CHARACTERS_PER_CYCLE).

End Gradient.

(** ** Text-layer spans *)

(** A child of a text-layer span: a text node, or one of the generated
    [<span style="color: ...">] character nodes. *)
Inductive Node :=
| TextNode (data : jsstring)
| CharNode (color : string) (text : jsstring).

Definition nodeText (n : Node) : jsstring :=
  match n with
  | TextNode data => data
  | CharNode _ text => text
  end.

(** A [.textLayer > span] element with the two [dataset] entries the service
    uses ([undefined] is [None]). *)
Record Span := {
  children : list Node;
  beelineOriginal : option jsstring;
  beelineApplied : option jsstring
}.

(** The [textContent] getter: the text of the descendants, concatenated. *)
Definition textContent (span : Span) : jsstring :=
  concat (nodeText <$> children span).

(** The [textContent] setter: the children become one text node, or none for
    the empty string. *)
Definition set_textContent (text : jsstring) (span : Span) : Span :=
  {| children := if truthy text then [TextNode text] else [];
     beelineOriginal := beelineOriginal span;
     beelineApplied := beelineApplied span |}.

(** [a || b] on strings. *)
Definition js_or (a b : jsstring) : jsstring := if truthy a then a else b.

Definition getSourceText (span : Span) : Span * jsstring :=
  let capture :=
    let text := js_or (textContent span) [] in
    ({| children := children span;
        beelineOriginal := Some text;
        beelineApplied := beelineApplied span |}, text) in
  match beelineOriginal span with
  | Some original => if truthy original then (span, original) else capture
  | None => capture
  end.

Definition restoreSpan (span : Span) : Span :=
  if bool_decide (beelineApplied span = Some (js "1")) then
    let text :=
      match beelineOriginal span with
      | Some original => js_or original (textContent span)
      | None => textContent span
      end in
    {| children := children (set_textContent text span);
       beelineOriginal := beelineOriginal span;
       beelineApplied := None |}
  else span.

(** The [isColorized] marker of the specification. *)
Definition isColorized (span : Span) : Prop := beelineApplied span = Some (js "1").

Section Colorizer.
Context {num : Type} `{JSNumber num}.

(** The inner loop of [refreshReader]: one character node per element of
    [chars], the one at index [i] coloured by the cycle position of
    [charOffset + i]. *)
Definition charNodes (endColor : Color) (charOffset : Z) (chars : list jsstring) : list Node :=
  imap (fun i c => CharNode (sampleColor (cyclePosition (charOffset + Z.of_nat i)) endColor) c) chars.

(** One iteration of the loop over [textSpans]: the span as it is left, and
    the running offset after it. *)
Definition colorizeSpan (endColor : Color) (charOffset : Z) (span : Span) : Span * Z :=
  let '(el, sourceText) := getSourceText span in
  if truthy sourceText then
    let chars := Array_from sourceText in
    ({| children := charNodes endColor charOffset chars;
        beelineOriginal := beelineOriginal el;
        beelineApplied := Some (js "1") |},
     charOffset + Z.of_nat (length chars))
  else (el, charOffset).

Fixpoint colorizeSpans (endColor : Color) (charOffset : Z) (textSpans : list Span)
  : list Span * Z :=
  match textSpans with
  | [] => ([], charOffset)
  | span :: rest =>
      let '(span', charOffset') := colorizeSpan endColor charOffset span in
      let '(rest', final) := colorizeSpans endColor charOffset' rest in
      (span' :: rest', final)
  end.

End Colorizer.

(** ** Viewer instances, windows and the service state *)

Abbreviation loc := positive.

(** A host reader instance ([_ZoteroTypes.ReaderInstance]); its
    [_iframeWindow] is looked up in the world under [_instanceID]. *)
Record Reader := {
  _instanceID : string;
  type : string
}.

(** A [MutationObserver] created by [observeReaderTextLayer]: its identity
    and what its callback closes over. *)
Record Observer := {
  obs_id : positive;
  obs_state : loc;
  obs_reader : Reader
}.

(** A pending timer set by the observer callback: its handle, the time it is
    due and what its callback closes over. *)
Record Timer := {
  timer_id : positive;
  timer_due : Z;
  timer_state : loc;
  timer_reader : Reader
}.

Record ReaderState := {
  enabled : bool;
  observer : option Observer;
  refreshTimer : option positive
}.

(** The iframe document: whether it has a [body], the class list of its
    [documentElement] if any, and the elements [.textLayer > span] in
    document order. *)
Record Document := {
  body : bool;
  documentElement : option (list string);
  textSpans : list Span
}.

(** The iframe window: its document, what
    [matchMedia("(prefers-color-scheme: dark)")] answers ([None] for no
    result), the pending timers, the connected observers and the next
    handle the window hands out (handles are positive, hence truthy). *)
Record Window := {
  document : Document;
  prefersDark : option bool;
  timers : list Timer;
  observing : list Observer;
  nextHandle : positive
}.

(** The toolbar button with the attributes [updateButtonState] sets and what
    its click listener closes over. *)
Record Button := {
  aria_pressed : string;
  fontWeight : string;
  opacity : string;
  click_state : loc;
  click_reader : Reader
}.

(** The service and its surroundings: the registry [stateByReader], the
    heap of [ReaderState] objects, each reader's iframe window, the toolbar
    button of each reader's toolbar document, the clock, and whether the
    [renderToolbar] listener is registered. *)
Record World := {
  stateByReader : gmap string loc;
  heap : gmap loc ReaderState;
  windows : gmap string Window;
  buttons : gmap string Button;
  now : Z;
  listening : bool
}.

Definition initialWorld : World :=
  {| stateByReader := ∅; heap := ∅; windows := ∅; buttons := ∅;
     now := 0; listening := false |}.

Definition setState (l : loc) (st : ReaderState) (w : World) : World :=
  {| stateByReader := stateByReader w; heap := <[l := st]> (heap w);
     windows := windows w; buttons := buttons w;
     now := now w; listening := listening w |}.

Definition setWindow (rid : string) (win : Window) (w : World) : World :=
  {| stateByReader := stateByReader w; heap := heap w;
     windows := <[rid := win]> (windows w); buttons := buttons w;
     now := now w; listening := listening w |}.

Definition setButton (rid : string) (b : Button) (w : World) : World :=
  {| stateByReader := stateByReader w; heap := heap w;
     windows := windows w; buttons := <[rid := b]> (buttons w);
     now := now w; listening := listening w |}.

Definition setSpans (spans : list Span) (win : Window) : Window :=
  {| document := {| body := body (document win);
                    documentElement := documentElement (document win);
                    textSpans := spans |};
     prefersDark := prefersDark win; timers := timers win;
     observing := observing win; nextHandle := nextHandle win |}.

Definition setTimers (ts : list Timer) (win : Window) : Window :=
  {| document := document win; prefersDark := prefersDark win; timers := ts;
     observing := observing win; nextHandle := nextHandle win |}.

Definition setObserving (os : list Observer) (win : Window) : Window :=
  {| document := document win; prefersDark := prefersDark win;
     timers := timers win; observing := os; nextHandle := nextHandle win |}.

(** [win.setTimeout(callback, delay)] at time [t]: a fresh handle. *)
Definition setTimeout (st : loc) (reader : Reader) (delay t : Z) (win : Window)
  : Window * positive :=
  let id := nextHandle win in
  ({| document := document win; prefersDark := prefersDark win;
      timers := timers win ++
        [{| timer_id := id; timer_due := t + delay;
            timer_state := st; timer_reader := reader |}];
      observing := observing win; nextHandle := Pos.succ id |}, id).

Definition clearTimeout (id : positive) (win : Window) : Window :=
  setTimers (filter (fun tm => timer_id tm ≠ id) (timers win)) win.

(** [observer.disconnect()]: the observer leaves the window it observes. *)
Definition disconnect (o : Observer) (w : World) : World :=
  match windows w !! _instanceID (obs_reader o) with
  | Some win =>
      setWindow (_instanceID (obs_reader o))
        (setObserving (filter (fun o' => obs_id o' ≠ obs_id o) (observing win)) win) w
  | None => w
  end.

Definition ensureReaderState (reader : Reader) (w : World) : World * loc :=
  let key := _instanceID reader in
  match stateByReader w !! key with
  | Some l => (w, l)
  | None =>
      let l := fresh (dom (heap w)) in
      ({| stateByReader := <[key := l]> (stateByReader w);
          heap := <[l := {| enabled := true; observer := None; refreshTimer := None |}]> (heap w);
          windows := windows w; buttons := buttons w;
          now := now w; listening := listening w |}, l)
  end.

Definition isDarkTheme (doc : Document) (win : Window) : bool :=
  match documentElement doc with
  | Some classList => bool_decide ("theme-dark" ∈ classList)
  | None => false
  end
  || default false (prefersDark win).

(** The [endColor] constant of [refreshReader]. *)
Definition endColor (doc : Document) (win : Window) : Color :=
  if isDarkTheme doc win then WHITE else BLACK.

Section Service.
Context {num : Type} `{JSNumber num}.

Definition refreshReader (reader : Reader) (w : World) : World :=
  match windows w !! _instanceID reader with
  | None => w
  | Some iframeWindow =>
      let doc := document iframeWindow in
      let '(w1, l) := ensureReaderState reader w in
      match heap w1 !! l with
      | None => w1
      | Some state =>
          if negb (enabled state) then
            setWindow (_instanceID reader)
              (setSpans (restoreSpan <$> textSpans doc) iframeWindow) w1
          else
            setWindow (_instanceID reader)
              (setSpans (colorizeSpans (endColor doc iframeWindow) 0 (textSpans doc)).1
                 iframeWindow) w1
      end
  end.

(** A mutation record, as far as the observer callback looks at it: for each
    added node, whether it is an [HTMLElement], whether it matches
    [.textLayer] and whether it contains an element that does. *)
Record AddedNode := {
  isHTMLElement : bool;
  matchesTextLayer : bool;
  containsTextLayer : bool
}.

Record MutationRecord := { addedNodes : list AddedNode }.

Definition qualifying (mutations : list MutationRecord) : bool :=
  existsb (fun mutation =>
    existsb (fun node =>
      if negb (isHTMLElement node) then false
      else matchesTextLayer node || containsTextLayer node)
    (addedNodes mutation)) mutations.

(** The callback of the timer set by the observer callback. *)
Definition timerCallback (tm : Timer) (w : World) : World :=
  let w1 :=
    match heap w !! timer_state tm with
    | Some state =>
        setState (timer_state tm)
          {| enabled := enabled state; observer := observer state; refreshTimer := None |} w
    | None => w
    end in
  refreshReader (timer_reader tm) w1.

(** The callback given to [new MutationObserver]. *)
Definition observerCallback (o : Observer) (mutations : list MutationRecord) (w : World)
  : World :=
  if negb (qualifying mutations) then w
  else
    let rid := _instanceID (obs_reader o) in
    match windows w !! rid, heap w !! obs_state o with
    | Some iframeWindow, Some state =>
        let win1 :=
          match refreshTimer state with
          | Some id => clearTimeout id iframeWindow
          | None => iframeWindow
          end in
        let '(win2, id) := setTimeout (obs_state o) (obs_reader o) 120 (now w) win1 in
        setState (obs_state o)
          {| enabled := enabled state; observer := observer state; refreshTimer := Some id |}
          (setWindow rid win2 w)
    | _, _ => w
    end.

Definition observeReaderTextLayer (reader : Reader) (w : World) : World :=
  match windows w !! _instanceID reader with
  | None => w
  | Some iframeWindow =>
      let '(w1, l) := ensureReaderState reader w in
      match heap w1 !! l with
      | None => w1
      | Some state =>
          match observer state with
          | Some _ => w1
          | None =>
              if negb (body (document iframeWindow)) then w1
              else
                let o := {| obs_id := nextHandle iframeWindow;
                            obs_state := l; obs_reader := reader |} in
                setState l
                  {| enabled := enabled state; observer := Some o;
                     refreshTimer := refreshTimer state |}
                  (setWindow (_instanceID reader)
                     {| document := document iframeWindow;
                        prefersDark := prefersDark iframeWindow;
                        timers := timers iframeWindow;
                        observing := observing iframeWindow ++ [o];
                        nextHandle := Pos.succ (nextHandle iframeWindow) |} w1)
          end
      end
  end.

Definition updateButtonState (en : bool) (button : Button) : Button :=
  {| aria_pressed := if en then "true" else "false";
     fontWeight := if en then "600" else "400";
     opacity := if en then "1" else "0.7";
     click_state := click_state button;
     click_reader := click_reader button |}.

(** The click listener of the toolbar button of reader [rid]. *)
Definition clickHandler (rid : string) (w : World) : World :=
  match buttons w !! rid with
  | None => w
  | Some button =>
      match heap w !! click_state button with
      | None => w
      | Some state =>
          let state' := {| enabled := negb (enabled state); observer := observer state;
                           refreshTimer := refreshTimer state |} in
          refreshReader (click_reader button)
            (setButton rid (updateButtonState (enabled state') button)
               (setState (click_state button) state' w))
      end
  end.

Definition toolbarHandler (reader : Reader) (w : World) : World :=
  if bool_decide (type reader ≠ "pdf") then w
  else
    let '(w1, l) := ensureReaderState reader w in
    match heap w1 !! l with
    | None => w1
    | Some state =>
        let w2 :=
          match buttons w1 !! _instanceID reader with
          | Some _ => w1
          | None =>
              setButton (_instanceID reader)
                (updateButtonState (enabled state)
                   {| aria_pressed := ""; fontWeight := ""; opacity := "";
                      click_state := l; click_reader := reader |}) w1
          end in
        refreshReader reader (observeReaderTextLayer reader w2)
    end.

Definition start (w : World) : World :=
  {| stateByReader := stateByReader w; heap := heap w; windows := windows w;
     buttons := buttons w; now := now w; listening := true |}.

Definition clearReader (reader : Reader) (w : World) : World :=
  match stateByReader w !! _instanceID reader with
  | None => w
  | Some l =>
      match heap w !! l with
      | None => w
      | Some state =>
          let w1 :=
            match refreshTimer state, windows w !! _instanceID reader with
            | Some id, Some iframeWindow =>
                setWindow (_instanceID reader) (clearTimeout id iframeWindow) w
            | _, _ => w
            end in
          let w2 :=
            match observer state with
            | Some o => disconnect o w1
            | None => w1
            end in
          match windows w2 !! _instanceID reader with
          | Some iframeWindow =>
              setWindow (_instanceID reader)
                (setSpans (restoreSpan <$> textSpans (document iframeWindow)) iframeWindow) w2
          | None => w2
          end
      end
  end.

(** [stop], given the host's list [Zotero.Reader._readers]. *)
Definition stop (readers : list Reader) (w : World) : World :=
  let w1 := foldl (fun acc reader => clearReader reader acc)
              {| stateByReader := stateByReader w; heap := heap w; windows := windows w;
                 buttons := buttons w; now := now w; listening := false |} readers in
  {| stateByReader := ∅; heap := heap w1; windows := windows w1;
     buttons := buttons w1; now := now w1; listening := listening w1 |}.

End Service.

(** ** The event loop

    What happens to a world between [start] and [stop]: the host makes an
    iframe window available or changes its page, time passes, the host
    raises [renderToolbar], the user clicks the toggle, a connected observer
    receives a batch of mutation records, a due timer fires. *)

Inductive Event :=
| Start
| HostWindow (rid : string) (doc : Document) (dark : option bool)
| HostDocument (rid : string) (doc : Document) (dark : option bool)
| Elapse (dt : Z)
| RenderToolbar (reader : Reader)
| Click (rid : string)
| Mutations (rid : string) (oid : positive) (mutations : list MutationRecord)
| TimerFires (rid : string) (tid : positive).

Definition setNow (t : Z) (w : World) : World :=
  {| stateByReader := stateByReader w; heap := heap w; windows := windows w;
     buttons := buttons w; now := t; listening := listening w |}.

Section EventLoop.
Context {num : Type} `{JSNumber num}.

(** A pending timer of the window of [rid] fires: it leaves the pending
    timers and its callback runs. *)
Definition fireTimer (rid : string) (tm : Timer) (w : World) : World :=
  match windows w !! rid with
  | Some win => timerCallback tm (setWindow rid (clearTimeout (timer_id tm) win) w)
  | None => w
  end.

Definition step (ev : Event) (w : World) : World :=
  match ev with
  | Start => start w
  | HostWindow rid doc dark =>
      match windows w !! rid with
      | None =>
          setWindow rid {| document := doc; prefersDark := dark; timers := [];
                           observing := []; nextHandle := 1%positive |} w
      | Some _ => w
      end
  | HostDocument rid doc dark =>
      match windows w !! rid with
      | Some win =>
          setWindow rid {| document := doc; prefersDark := dark; timers := timers win;
                           observing := observing win; nextHandle := nextHandle win |} w
      | None => w
      end
  | Elapse dt => if 0 <=? dt then setNow (now w + dt) w else w
  | RenderToolbar reader => if listening w then toolbarHandler reader w else w
  | Click rid => clickHandler rid w
  | Mutations rid oid mutations =>
      match windows w !! rid with
      | Some win =>
          match head (filter (fun o => obs_id o = oid) (observing win)) with
          | Some o => observerCallback o mutations w
          | None => w
          end
      | None => w
      end
  | TimerFires rid tid =>
      match windows w !! rid with
      | Some win =>
          match head (filter (fun tm => timer_id tm = tid) (timers win)) with
          | Some tm => if timer_due tm <=? now w then fireTimer rid tm w else w
          | None => w
          end
      | None => w
      end
  end.

Definition run (evs : list Event) (w : World) : World :=
  foldl (fun acc ev => step ev acc) w evs.

(** The clock of the window of [rid] reaches [t]: its pending timers that
    are due by then fire, in the order they were set.  The second component
    counts the timer callbacks that ran. *)
Definition advanceTo (rid : string) (t : Z) (w : World) : World * nat :=
  let due :=
    match windows w !! rid with
    | Some win => filter (fun tm => timer_due tm ≤ t) (timers win)
    | None => []
    end in
  (setNow (Z.max (now w) t) (foldl (fun acc tm => fireTimer rid tm acc) w due),
   length due).

(** Observer [o] of the window of [rid] receives the batches of [batches],
    each at its time.  The second component counts the timer callbacks that
    ran meanwhile. *)
Fixpoint deliverBatches (rid : string) (o : Observer)
  (batches : list (Z * list MutationRecord)) (w : World) : World * nat :=
  match batches with
  | [] => (w, 0%nat)
  | (t, mutations) :: rest =>
      let '(w1, n1) := advanceTo rid t w in
      let '(w2, n2) := deliverBatches rid o rest (observerCallback o mutations w1) in
      (w2, (n1 + n2)%nat)
  end.

End EventLoop.

(** ** Notions of the specification *)

(** The per-channel linear blend from [a] to [b] at parameter [p]. *)
Definition blend (a b : Z) (p : Q) : Q :=
  Qplus (inject_Z a) (Qmult (Qminus (inject_Z b) (inject_Z a)) p).

(** [c] is an integer nearest to [x]. *)
Definition nearestInteger (c : Z) (x : Q) : Prop :=
  Qle (Qabs (Qminus (inject_Z c) x)) (Qmake 1 2).

Definition isChannel (c : Z) : Prop := 0 <= c <= 255.

(** The text a colorization pass works from: what [getSourceText] returns. *)
Definition sourceOf (span : Span) : jsstring := (getSourceText span).2.

(** The characters of a sequence of spans, as the colorizer counts them:
    the code points of each span's source text, in order. *)
Definition logicalChars (spans : list Span) : list jsstring :=
  concat ((fun span => Array_from (sourceOf span)) <$> spans).

(** The character nodes a pass has generated, in document order. *)
Definition generatedNodes (spans : list Span) : list Node :=
  concat ((fun span => if truthy (sourceOf span) then children span else []) <$> spans).

(** The three channels of [sampleColor t endColor], before they are
    printed. *)
Definition sampleChannels {num : Type} `{JSNumber num} (t : num) (e : Color) : Z * Z * Z :=
  if num_lt t num_half
  then (channel BLUE RED (num_mul t (num_of_Z 2)) 0,
        channel BLUE RED (num_mul t (num_of_Z 2)) 1,
        channel BLUE RED (num_mul t (num_of_Z 2)) 2)
  else (channel RED e (num_mul (num_sub t num_half) (num_of_Z 2)) 0,
        channel RED e (num_mul (num_sub t num_half) (num_of_Z 2)) 1,
        channel RED e (num_mul (num_sub t num_half) (num_of_Z 2)) 2).

(** What the specification asks of the channels [(r, g, b)] returned at
    cycle position [t] for the end colour [e]. *)
Definition gradientAt (t : Q) (e : Color) (rgb : Z * Z * Z) : Prop :=
  let '(r, g, b) := rgb in
  isChannel r /\ isChannel g /\ isChannel b /\
  (Qlt t (Qmake 1 2) ->
     nearestInteger r (blend 26 220 (Qmult t 2)) /\
     nearestInteger g (blend 115 38 (Qmult t 2)) /\
     nearestInteger b (blend 232 38 (Qmult t 2))) /\
  (Qle (Qmake 1 2) t ->
     nearestInteger r (blend 220 (at_index e 0) (Qmult (Qminus t (Qmake 1 2)) 2)) /\
     nearestInteger g (blend 38 (at_index e 1) (Qmult (Qminus t (Qmake 1 2)) 2)) /\
     nearestInteger b (blend 38 (at_index e 2) (Qmult (Qminus t (Qmake 1 2)) 2))).

Definition nearestIntegerb (c : Z) (x : Q) : bool :=
  Qle_bool (Qabs (Qminus (inject_Z c) x)) (Qmake 1 2).

Definition isChannelb (c : Z) : bool := (0 <=? c) && (c <=? 255).

Definition gradientAtb (t : Q) (e : Color) (rgb : Z * Z * Z) : bool :=
  let '(r, g, b) := rgb in
  isChannelb r && isChannelb g && isChannelb b &&
  (if Qle_bool (Qmake 1 2) t
   then nearestIntegerb r (blend 220 (at_index e 0) (Qmult (Qminus t (Qmake 1 2)) 2)) &&
        nearestIntegerb g (blend 38 (at_index e 1) (Qmult (Qminus t (Qmake 1 2)) 2)) &&
        nearestIntegerb b (blend 38 (at_index e 2) (Qmult (Qminus t (Qmake 1 2)) 2))
   else nearestIntegerb r (blend 26 220 (Qmult t 2)) &&
        nearestIntegerb g (blend 115 38 (Qmult t 2)) &&
        nearestIntegerb b (blend 232 38 (Qmult t 2))).

(** What one pass of [refreshReader] does to the spans of a page: it
    colorizes them from offset 0 with an end colour, or restores them. *)
Inductive Pass :=
| ApplyPass (e : Color)
| RestorePass.

(** What a pass does to one span: a colorization at some running offset, or
    a restore. *)
Inductive SpanPass :=
| Colorized (e : Color) (off : Z)
| Restored.

Section Passes.
Context {num : Type} `{JSNumber num}.

Definition pagePass (spans : list Span) (p : Pass) : list Span :=
  match p with
  | ApplyPass e => (colorizeSpans e 0 spans).1
  | RestorePass => restoreSpan <$> spans
  end.

Definition spanPass (span : Span) (p : SpanPass) : Span :=
  match p with
  | Colorized e off => (colorizeSpan e off span).1
  | Restored => restoreSpan span
  end.

End Passes.

(** A span the service has not touched yet. *)
Definition fresh_span (span : Span) : Prop :=
  beelineOriginal span = None /\ beelineApplied span = None.

(** The state of a span whose text was [T] when the service first met it:
    it still reads [T], what is stored as its original text is [T], and if
    it is marked colorized then [T] is not empty. *)
Definition keepsOriginal (T : jsstring) (span : Span) : Prop :=
  textContent span = T /\
  (beelineOriginal span = None \/ beelineOriginal span = Some T) /\
  (isColorized span -> T <> [] /\ beelineOriginal span = Some T).

(** White space and line terminators of ECMAScript, as code units. *)
Definition isWhiteSpace (c : N) : bool :=
  bool_decide (c ∈ [0x09; 0x0A; 0x0B; 0x0C; 0x0D; 0x20; 0xA0; 0x1680; 0x2028; 0x2029;
                    0x202F; 0x205F; 0x3000; 0xFEFF]%N)
  || ((0x2000 <=? c) && (c <=? 0x200A))%N.

(** Empty, or white space only. *)
Definition blank (s : jsstring) : bool := forallb isWhiteSpace s.

(** ** Worlds the service keeps

    What holds of every world reached from [initialWorld] by the events of
    the event loop: registry entries point to live state objects, one per
    reader; an observer connected to a reader's window is the one held by
    that reader's state and is alone there; a timer pending in a reader's
    window is the one whose handle that reader's state holds and is alone
    there; a toolbar button toggles the state of its own reader. *)
Record wf (w : World) : Prop := {
  wf_heap : forall rid l, stateByReader w !! rid = Some l -> is_Some (heap w !! l);
  wf_inj : forall r1 r2 l,
    stateByReader w !! r1 = Some l -> stateByReader w !! r2 = Some l -> r1 = r2;
  wf_observing : forall rid win o,
    windows w !! rid = Some win -> o ∈ observing win ->
    observing win = [o] /\ _instanceID (obs_reader o) = rid /\
    stateByReader w !! rid = Some (obs_state o) /\
    exists st, heap w !! obs_state o = Some st /\ observer st = Some o;
  wf_owner : forall rid l st o,
    stateByReader w !! rid = Some l -> heap w !! l = Some st -> observer st = Some o ->
    _instanceID (obs_reader o) = rid;
  wf_timers : forall rid win tm,
    windows w !! rid = Some win -> tm ∈ timers win ->
    timers win = [tm] /\ _instanceID (timer_reader tm) = rid /\
    stateByReader w !! rid = Some (timer_state tm) /\
    exists st, heap w !! timer_state tm = Some st /\ refreshTimer st = Some (timer_id tm);
  wf_buttons : forall rid b,
    buttons w !! rid = Some b ->
    _instanceID (click_reader b) = rid /\ stateByReader w !! rid = Some (click_state b)
}.

(** The window of observer [o] once its callback has armed the debounce
    timer at time [t]: that timer alone is pending. *)
Definition armed (o : Observer) (t : Z) (win : Window) : Window :=
  {| document := document win; prefersDark := prefersDark win;
     timers := [{| timer_id := nextHandle win; timer_due := t + 120;
                   timer_state := obs_state o; timer_reader := obs_reader o |}];
     observing := observing win; nextHandle := Pos.succ (nextHandle win) |}.

(** Batches that qualify and arrive one after the other, each less than
    120 after the one before, the first of them after [prev]. *)
Fixpoint withinWindow (prev : Z) (batches : list (Z * list MutationRecord)) : Prop :=
  match batches with
  | [] => True
  | (t, mutations) :: rest =>
      prev <= t < prev + 120 /\ qualifying mutations = true /\ withinWindow t rest
  end.

(** The time of the last batch, [t] if there is none. *)
Definition lastTime (t : Z) (batches : list (Z * list MutationRecord)) : Z :=
  default t (last (t :: batches.*1)).

(** The state object of a reader, through the registry. *)
Definition stateOf (rid : string) (w : World) : option ReaderState :=
  stateByReader w !! rid ≫= fun l => heap w !! l.

(** A colour nearer to white than to black, and one nearer to black. *)
Definition brightness (c : Color) : Z := at_index c 0 + at_index c 1 + at_index c 2.
Definition isLight (c : Color) : Prop := 2 * brightness c > 3 * 255.
Definition isDark (c : Color) : Prop := 2 * brightness c < 3 * 255.

(** The pass [refreshReader] makes for reader [rid] is a colorization: its
    state is enabled, or is yet to be created (and is created enabled). *)
Definition colorizes (rid : string) (w : World) : Prop :=
  match stateByReader w !! rid with
  | Some l => exists st, heap w !! l = Some st /\ enabled st = true
  | None => True
  end.

(** The end colour as the specification words it: light in light mode, dark
    in dark mode. *)
Definition lightInLightMode (doc : Document) (win : Window) : Prop :=
  (isDarkTheme doc win = false -> isLight (endColor doc win)) /\
  (isDarkTheme doc win = true -> isDark (endColor doc win)).

(** A span whose source text is blank is passed over, as the specification
    words it: it is not colorized and the running offset stays. *)
Definition skipsBlank {num : Type} `{JSNumber num} (e : Color) (off : Z) (span : Span) : Prop :=
  blank (sourceOf span) = true ->
  (colorizeSpan e off span).2 = off /\ ~ isColorized (colorizeSpan e off span).1.

(** A stored original text is never written again, as the specification
    words it. *)
Definition neverRecaptured (span : Span) : Prop :=
  forall s, beelineOriginal span = Some s -> beelineOriginal (getSourceText span).1 = Some s.

(** ** A small page

    The scenario of the specification: a light-mode viewer whose text layer
    holds the spans "Hello " and "world". *)

Definition textSpan (text : jsstring) : Span :=
  {| children := [TextNode text]; beelineOriginal := None; beelineApplied := None |}.

Definition exampleReader : Reader := {| _instanceID := "reader-1"; type := "pdf" |}.

Definition exampleDocument : Document :=
  {| body := true; documentElement := Some ["theme-light"];
     textSpans := [textSpan (js "Hello "); textSpan (js "world")] |}.

Definition exampleWindow : Window :=
  {| document := exampleDocument; prefersDark := Some false; timers := [];
     observing := []; nextHandle := 1%positive |}.

Definition exampleWorld : World := setWindow "reader-1" exampleWindow initialWorld.

(** A span holding one space. *)
Definition spaceSpan : Span := textSpan (js " ").

(** A span that was empty on a first pass, so that the empty string was
    stored, and into which the renderer has put text since. *)
Definition filledSpan : Span :=
  {| children := [TextNode (js "abc")]; beelineOriginal := Some [];
     beelineApplied := None |}.

(** At time [t] observer [o] of the window of [rid] has armed the debounce
    timer: the world is well formed, and that window has one pending timer,
    due at [t + 120]. *)
Definition pendingAt (rid : string) (o : Observer) (t : Z) (w : World) : Prop :=
  wf w /\ now w = t /\
  exists win tm, windows w !! rid = Some win /\ o ∈ observing win /\
                 timers win = [tm] /\ timer_due tm = t + 120.

(** The small page once the service has started, the window has come and
    the toolbar has been rendered: the watcher is installed and the spans
    are colorized. *)
Definition watchedWorld : World :=
  run (num := float)
    [Start; HostWindow "reader-1" exampleDocument (Some false); RenderToolbar exampleReader]
    initialWorld.

Definition watchedWindow : Window :=
  default exampleWindow (windows watchedWorld !! "reader-1").

Definition exampleObserver : Observer :=
  {| obs_id := 1; obs_state := 1; obs_reader := exampleReader |}.

(** A batch that adds a text layer. *)
Definition textLayerBatch : list MutationRecord :=
  [{| addedNodes := [{| isHTMLElement := true; matchesTextLayer := true;
                        containsTextLayer := false |}] |}].

(** The watched small page when a batch adding a text layer has armed the
    debounce timer. *)
Definition pendingWorld : World :=
  run (num := float) [Elapse 10; Mutations "reader-1" 1 textLayerBatch] watchedWorld.

(** The window of the small page after a click on the toggle in
    [pendingWorld]. *)
Definition toggledWindow : Window :=
  default exampleWindow
    (windows (clickHandler (num := float) "reader-1" pendingWorld) !! "reader-1").

(** A click on the toggle cancels the pending timer, as the specification
    words it: after the click no timer is pending in the reader's window. *)
Definition toggleCancelsTimer {num : Type} `{JSNumber num} (rid : string) (w : World) : Prop :=
  forall win, windows (clickHandler rid w) !! rid = Some win -> timers win = [].

Definition pendingWindow : Window :=
  default exampleWindow (windows pendingWorld !! "reader-1").

Definition pendingState : ReaderState :=
  default {| enabled := true; observer := None; refreshTimer := None |}
    (stateOf "reader-1" pendingWorld).

Definition pendingButton : Button :=
  default {| aria_pressed := ""; fontWeight := ""; opacity := "";
             click_state := 1; click_reader := exampleReader |}
    (buttons pendingWorld !! "reader-1").

(** ** Teardown *)

(** [win'] is [win] with some of its handles released and its spans
    possibly restored. *)
Definition cleaner (win win' : Window) : Prop :=
  (timers win' = timers win \/ timers win' = []) /\
  (observing win' = observing win \/ observing win' = []) /\
  (textSpans (document win') = textSpans (document win) \/
   textSpans (document win') = restoreSpan <$> textSpans (document win)).

(** [win'] is [win] torn down: no timer pending, no observer connected, the
    spans restored. *)
Definition clean (win win' : Window) : Prop :=
  timers win' = [] /\ observing win' = [] /\
  textSpans (document win') = restoreSpan <$> textSpans (document win).

(** [w'] is [w] with some windows made cleaner and the rest as it was. *)
Definition tidied (w w' : World) : Prop :=
  stateByReader w' = stateByReader w /\ heap w' = heap w /\ buttons w' = buttons w /\
  forall rid,
    match windows w !! rid, windows w' !! rid with
    | Some win, Some win' => cleaner win win'
    | None, None => True
    | _, _ => False
    end.

(** ** Beyond the passes

    The renderer writes new children into a span; the dataset stays. *)
Definition hostWrites (newChildren : list Node) (span : Span) : Span :=
  {| children := newChildren; beelineOriginal := beelineOriginal span;
     beelineApplied := beelineApplied span |}.

(** One element of [Array.from(s)]: one code unit, or a high surrogate
    followed by a low one. *)
Definition isCodePoint (c : jsstring) : Prop :=
  (exists u, c = [u]) \/
  (exists h l, c = [h; l] /\ isHighSurrogate h = true /\ isLowSurrogate l = true).

(** Handles and what they stand for: the observer a reader's state holds is
    connected, alone, to that reader's window; the timer handle a reader's
    state holds is that of the one timer pending in that reader's window; a
    toolbar button shows the [enabled] flag of the state its listener
    toggles. *)
Record settled (w : World) : Prop := {
  settled_observer : forall rid l st o,
    stateByReader w !! rid = Some l -> heap w !! l = Some st -> observer st = Some o ->
    exists win, windows w !! rid = Some win /\ observing win = [o];
  settled_timer : forall rid l st id,
    stateByReader w !! rid = Some l -> heap w !! l = Some st -> refreshTimer st = Some id ->
    exists win tm, windows w !! rid = Some win /\ timers win = [tm] /\ timer_id tm = id;
  settled_button : forall rid b,
    buttons w !! rid = Some b ->
    exists st, heap w !! click_state b = Some st /\ b = updateButtonState (enabled st) b
}.

(** A window torn down: no timer pending, no observer connected, every span
    restored, and the rest of it as it was. *)
Definition tornDown (win : Window) : Window :=
  {| document := {| body := body (document win);
                    documentElement := documentElement (document win);
                    textSpans := restoreSpan <$> textSpans (document win) |};
     prefersDark := prefersDark win; timers := []; observing := [];
     nextHandle := nextHandle win |}.

(** The page of [win'] is the page of [win] as the host made it: the same
    body and theme, as many spans, and each span with the source text it
    had. *)
Definition samePage (win win' : Window) : Prop :=
  body (document win') = body (document win) /\
  documentElement (document win') = documentElement (document win) /\
  prefersDark win' = prefersDark win /\
  sourceOf <$> textSpans (document win') = sourceOf <$> textSpans (document win).

(** [w'] has the windows of [w], and each with the page it had. *)
Definition pagesKept (w w' : World) : Prop :=
  forall rid,
    match windows w !! rid, windows w' !! rid with
    | Some win, Some win' => samePage win win'
    | None, None => True
    | _, _ => False
    end.

(** The events by which the host makes or changes a page. *)
Definition hostEvent (ev : Event) : bool :=
  match ev with
  | HostWindow _ _ _ | HostDocument _ _ _ => true
  | _ => false
  end.

(** The events that lead to [pendingWorld]. *)
Definition pendingEvents : list Event :=
  [Start; HostWindow "reader-1" exampleDocument (Some false); RenderToolbar exampleReader;
   Elapse 10; Mutations "reader-1" 1 textLayerBatch].

(** Channel [i] of the colour sampled, on binary64 numbers, at position [k]
    of the cycle. *)
Definition sampledChannel (e : Color) (k : Z) (i : nat) : Z :=
  at_index (sampleChannels (cyclePosition (num := float) k) e) i.

(** The shape of the gradient between two positions of one cycle, decided:
    before the middle red does not fall and green and blue do not rise; from
    the middle on no channel moves away from that channel of the end
    colour. *)
Definition shapeBetween (e : Color) (k1 k2 : Z) : bool :=
  if k2 <? 24 then
    (sampledChannel e k1 0 <=? sampledChannel e k2 0) &&
    (sampledChannel e k2 1 <=? sampledChannel e k1 1) &&
    (sampledChannel e k2 2 <=? sampledChannel e k1 2)
  else if 24 <=? k1 then
    forallb (fun i =>
      implb (at_index RED i <=? at_index e i)
            (sampledChannel e k1 i <=? sampledChannel e k2 i) &&
      implb (at_index e i <=? at_index RED i)
            (sampledChannel e k2 i <=? sampledChannel e k1 i)) [0%nat; 1%nat; 2%nat]
  else true.

(** Teardown as the specification words it: after [stop], every reader the
    registry tracked and whose window is there has no observer connected, no
    timer pending and no span marked colorized. *)
Definition stopReleasesTracked (readers : list Reader) (w : World) : Prop :=
  forall rid win,
    is_Some (stateByReader w !! rid) -> windows w !! rid = Some win ->
    exists win',
      windows (stop readers w) !! rid = Some win' /\
      observing win' = [] /\ timers win' = [] /\
      Forall (fun span => ~ isColorized span) (textSpans (document win')).

(** Another reader, the only one the host still lists. *)
Definition otherReader : Reader := {| _instanceID := "reader-2"; type := "pdf" |}.

(** * Properties *)

(** ** Strings *)

Lemma truthy_nil (s : jsstring) : truthy s = false <-> s = [].
Proof. destruct s; simpl; split; congruence. Qed.

Lemma truthy_cons (s : jsstring) : truthy s = true <-> s <> [].
Proof. destruct s; simpl; split; congruence. Qed.

Lemma js_or_nil_r (s : jsstring) : js_or s [] = s.
Proof. by destruct s. Qed.

Lemma Array_from_concat_aux (s : jsstring) :
  concat (Array_from s) = s /\ forall h, concat (Array_from (h :: s)) = h :: s.
Proof.
  induction s as [|l tl [IH1 IH2]]; [by split|].
  split; [apply IH2|].
  intros h. change (Array_from (h :: l :: tl)) with
    (if isHighSurrogate h && isLowSurrogate l
     then [h; l] :: Array_from tl else [h] :: Array_from (l :: tl)).
  destruct (isHighSurrogate h && isLowSurrogate l); simpl.
  - by rewrite IH1.
  - f_equal. apply IH2.
Qed.

(** Splitting a string into code points loses nothing. *)
Lemma Array_from_concat (s : jsstring) : concat (Array_from s) = s.
Proof. apply Array_from_concat_aux. Qed.

Lemma Array_from_nil_inv (s : jsstring) : Array_from s = [] -> s = [].
Proof. intros E. rewrite <- (Array_from_concat s), E. done. Qed.

Example Array_from_pair :
  Array_from [0x48; 0xD83D; 0xDE00; 0x21]%N = [[0x48]; [0xD83D; 0xDE00]; [0x21]]%N.
Proof. reflexivity. Qed.

(** ** The colour gradient *)

Lemma sampleColor_channels {num : Type} `{JSNumber num} (t : num) (e : Color) :
  sampleColor t e =
  rgb_string (sampleChannels t e).1.1 (sampleChannels t e).1.2 (sampleChannels t e).2.
Proof. unfold sampleColor, sampleChannels, interpolate. by destruct (num_lt t num_half). Qed.

Lemma gradientAtb_sound (t : Q) (e : Color) (rgb : Z * Z * Z) :
  gradientAtb t e rgb = true -> gradientAt t e rgb.
Proof.
  destruct rgb as [[r g] b]. unfold gradientAtb, gradientAt, isChannelb, isChannel.
  rewrite !andb_true_iff, !Z.leb_le. intros [[[Hr Hg] Hb] Hn].
  do 3 (split; [lia|]).
  destruct (Qle_bool (Qmake 1 2) t) eqn:Ht.
  - apply Qle_bool_iff in Ht. rewrite !andb_true_iff in Hn.
    unfold nearestIntegerb in Hn. rewrite !Qle_bool_iff in Hn.
    split; [intros; lra|]. intros _. unfold nearestInteger. tauto.
  - assert (Qlt t (Qmake 1 2)) as Hlt.
    { apply Qnot_le_lt. intros Hle. apply Qle_bool_iff in Hle. congruence. }
    rewrite !andb_true_iff in Hn.
    unfold nearestIntegerb in Hn. rewrite !Qle_bool_iff in Hn.
    split; [|intros; lra]. intros _. unfold nearestInteger. tauto.
Qed.

(** The 48 cycle positions and the two end colours, computed on binary64
    numbers and compared with the exact blend. *)
Lemma binary64_checked :
  forallb (fun j =>
    let t : float := cyclePosition j in
    Qle_bool (Qabs (Qminus (float_value t) (Qmake j 48))) (Qmake 1 (2 ^ 54)) &&
    Bool.eqb (PrimFloat.ltb t 0.5) (j <? 24) &&
    gradientAtb (Qmake j 48) BLACK (sampleChannels t BLACK) &&
    gradientAtb (Qmake j 48) WHITE (sampleChannels t WHITE))
    (seqZ 0 48) = true.
Proof. vm_compute. reflexivity. Qed.

Lemma cyclePosition_rem {num : Type} `{JSNumber num} (k : Z) :
  cyclePosition (num := num) k = cyclePosition (Z.rem k CHARACTERS_PER_CYCLE).
Proof.
  unfold cyclePosition. f_equal. f_equal.
  unfold CHARACTERS_PER_CYCLE. by rewrite Z.rem_rem.
Qed.

(** C7, amended: on the binary64 numbers the program runs on, at every cycle
    position the colorizer samples, [t = (k % 48) / 48], and for either end
    colour it passes, [sampleColor t endColor] is the string
    [rgb(r, g, b)] where [t] is the binary64 number next to the fraction
    [(k % 48) / 48], the first branch is taken exactly when the position is
    before the middle of the cycle, and each of [r], [g], [b] is an integer
    of [0..255] nearest to the linear blend at that fraction: from
    (26,115,232) to (220,38,38) at parameter [t*2] before the middle, from
    (220,38,38) to [endColor] at parameter [(t-0.5)*2] from the middle on.
    Where the blend lies halfway between two integers either of them is
    nearest.  The function is total and deterministic, being a function. *)
Theorem sampleColor_positions (k : Z) (e : Color) :
  0 <= k -> e = BLACK \/ e = WHITE ->
  let j := Z.rem k CHARACTERS_PER_CYCLE in
  let t : float := cyclePosition k in
  Qle (Qabs (Qminus (float_value t) (Qmake j 48))) (Qmake 1 (2 ^ 54)) /\
  (PrimFloat.ltb t 0.5 = true <-> j < 24) /\
  exists r g b : Z,
    sampleColor t e = "rgb(" +:+ pretty r +:+ ", " +:+ pretty g +:+ ", " +:+ pretty b +:+ ")" /\
    isChannel r /\ isChannel g /\ isChannel b /\
    (Qlt (Qmake j 48) (Qmake 1 2) ->
       nearestInteger r (blend 26 220 (Qmult (Qmake j 48) 2)) /\
       nearestInteger g (blend 115 38 (Qmult (Qmake j 48) 2)) /\
       nearestInteger b (blend 232 38 (Qmult (Qmake j 48) 2))) /\
    (Qle (Qmake 1 2) (Qmake j 48) ->
       nearestInteger r
         (blend 220 (at_index e 0) (Qmult (Qminus (Qmake j 48) (Qmake 1 2)) 2)) /\
       nearestInteger g
         (blend 38 (at_index e 1) (Qmult (Qminus (Qmake j 48) (Qmake 1 2)) 2)) /\
       nearestInteger b
         (blend 38 (at_index e 2) (Qmult (Qminus (Qmake j 48) (Qmake 1 2)) 2))).
Proof.
  intros Hk He j t.
  pose proof (Z.rem_bound_pos k 48 Hk ltac:(lia)) as Hj. fold CHARACTERS_PER_CYCLE j in Hj.
  assert (t = cyclePosition j) as Ht by apply cyclePosition_rem.
  pose proof binary64_checked as Hall. rewrite forallb_forall in Hall.
  specialize (Hall j). cbv zeta in Hall. rewrite <- Ht in Hall.
  rewrite !andb_true_iff in Hall.
  destruct Hall as [[[Hnear Hbranch] Hb] Hw].
  { apply list_elem_of_In, elem_of_seqZ. unfold CHARACTERS_PER_CYCLE in Hj. lia. }
  split; [by apply Qle_bool_iff|]. split.
  { apply Bool.eqb_prop in Hbranch. rewrite Hbranch. apply Z.ltb_lt. }
  assert (gradientAt (Qmake j 48) e (sampleChannels t e)) as G
    by (destruct He as [-> | ->]; by apply gradientAtb_sound).
  rewrite sampleColor_channels. destruct (sampleChannels t e) as [[r g] b].
  exists r, g, b. split; [reflexivity|]. exact G.
Qed.

Lemma sampleColor_positions_witness :
  exists r g b : Z,
    sampleColor (cyclePosition (num := float) 92) WHITE
      = "rgb(" +:+ pretty r +:+ ", " +:+ pretty g +:+ ", " +:+ pretty b +:+ ")" /\
    isChannel r /\ isChannel g /\ isChannel b /\
    (Qlt (Qmake 44 48) (Qmake 1 2) ->
       nearestInteger r (blend 26 220 (Qmult (Qmake 44 48) 2)) /\
       nearestInteger g (blend 115 38 (Qmult (Qmake 44 48) 2)) /\
       nearestInteger b (blend 232 38 (Qmult (Qmake 44 48) 2))) /\
    (Qle (Qmake 1 2) (Qmake 44 48) ->
       nearestInteger r (blend 220 241 (Qmult (Qminus (Qmake 44 48) (Qmake 1 2)) 2)) /\
       nearestInteger g (blend 38 245 (Qmult (Qminus (Qmake 44 48) (Qmake 1 2)) 2)) /\
       nearestInteger b (blend 38 249 (Qmult (Qminus (Qmake 44 48) (Qmake 1 2)) 2))).
Proof.
  destruct (sampleColor_positions 92 WHITE ltac:(lia) (or_intror eq_refl)) as (_ & _ & G).
  exact G.
Defined.

(** C7 as worded fails on binary64 numbers.  At position 44 of the cycle with
    the end colour (241,245,249), which the colorizer reaches in dark mode,
    the result is rgb(238, 210, 214).  The blend of red at [t] as the program
    holds it lies below 237.5, so 237 and not 238 is its nearest integer;
    and the blend of green at the exact fraction 44/48 is 210.5, which
    [Math.round] sends to 211 and not to 210.  And at the binary64 number
    just below 1/8, a [t] of [0,1) that the colorizer does not pass, red
    comes out as 75 where the blend lies below 74.5. *)
Lemma sampleColor_rounding_counterexample :
  sampleColor (cyclePosition (num := float) 44) WHITE = "rgb(238, 210, 214)" /\
  Qle 0 (float_value (cyclePosition 44)) /\ Qlt (float_value (cyclePosition 44)) 1 /\
  Qle (Qmake 1 2) (float_value (cyclePosition 44)) /\
  ~ nearestInteger 238
      (blend 220 241 (Qmult (Qminus (float_value (cyclePosition 44)) (Qmake 1 2)) 2)) /\
  Qeq (blend 38 245 (Qmult (Qminus (Qmake 44 48) (Qmake 1 2)) 2)) (Qmake 421 2) /\
  Qfloor (Qplus (Qmake 421 2) (Qmake 1 2)) = 211 /\
  sampleColor (0.125 - 0x1p-56)%float BLACK = "rgb(75, 96, 184)" /\
  Qle 0 (float_value (0.125 - 0x1p-56)%float) /\
  Qlt (float_value (0.125 - 0x1p-56)%float) (Qmake 1 2) /\
  ~ nearestInteger 75 (blend 26 220 (Qmult (float_value (0.125 - 0x1p-56)%float) 2)).
Proof.
  split; [vm_compute; reflexivity|].
  split; [apply Qle_bool_iff; vm_compute; reflexivity|].
  split; [vm_compute; reflexivity|].
  split; [apply Qle_bool_iff; vm_compute; reflexivity|].
  split; [unfold nearestInteger; rewrite <- Qle_bool_iff; vm_compute; discriminate|].
  split; [vm_compute; reflexivity|].
  split; [vm_compute; reflexivity|].
  split; [vm_compute; reflexivity|].
  split; [apply Qle_bool_iff; vm_compute; reflexivity|].
  split; [vm_compute; reflexivity|].
  unfold nearestInteger. rewrite <- Qle_bool_iff. vm_compute. discriminate.
Qed.

(** ** The colorizer, span by span *)

Lemma getSourceText_fst_children (span : Span) :
  children (getSourceText span).1 = children span.
Proof.
  unfold getSourceText. destruct (beelineOriginal span) as [o|]; [|done].
  by destruct (truthy o).
Qed.

Lemma getSourceText_fst_applied (span : Span) :
  beelineApplied (getSourceText span).1 = beelineApplied span.
Proof.
  unfold getSourceText. destruct (beelineOriginal span) as [o|]; [|done].
  by destruct (truthy o).
Qed.

Lemma getSourceText_fst_original (span : Span) :
  beelineOriginal (getSourceText span).1 = Some (sourceOf span).
Proof.
  unfold sourceOf, getSourceText. destruct (beelineOriginal span) as [o|] eqn:E; [|done].
  by destruct (truthy o).
Qed.

(** A stored, non-empty original text is what [getSourceText] answers, and
    the span is left as it is. *)
Lemma getSourceText_stored (span : Span) (s : jsstring) :
  beelineOriginal span = Some s -> truthy s = true -> getSourceText span = (span, s).
Proof. intros E T. unfold getSourceText. by rewrite E, T. Qed.

(** Without a stored text, the current text is captured. *)
Lemma getSourceText_capture (span : Span) :
  beelineOriginal span = None ->
  getSourceText span =
    ({| children := children span; beelineOriginal := Some (textContent span);
        beelineApplied := beelineApplied span |}, textContent span).
Proof. intros E. unfold getSourceText. by rewrite E, js_or_nil_r. Qed.

Lemma textContent_charNodes {num : Type} `{JSNumber num} (e : Color) (off : Z)
  (chars : list jsstring) :
  concat (nodeText <$> charNodes e off chars) = concat chars.
Proof.
  unfold charNodes. revert off. induction chars as [|c cs IH]; intros off; [done|].
  rewrite imap_cons. cbn [fmap list_fmap nodeText concat]. f_equal.
  rewrite <- (IH (off + 1)). f_equal. f_equal. apply imap_ext.
  intros i x _. simpl. do 3 f_equal. lia.
Qed.

Lemma colorizeSpan_skip {num : Type} `{JSNumber num} (e : Color) (off : Z) (span : Span) :
  sourceOf span = [] ->
  colorizeSpan e off span = ((getSourceText span).1, off).
Proof.
  intros E. unfold colorizeSpan, sourceOf in *.
  destruct (getSourceText span) as [el s]. simpl in E. by subst s.
Qed.

Lemma colorizeSpan_paint {num : Type} `{JSNumber num} (e : Color) (off : Z) (span : Span) :
  sourceOf span <> [] ->
  colorizeSpan e off span =
    ({| children := charNodes e off (Array_from (sourceOf span));
        beelineOriginal := Some (sourceOf span);
        beelineApplied := Some (js "1") |},
     off + Z.of_nat (length (Array_from (sourceOf span)))).
Proof.
  intros E. pose proof (getSourceText_fst_original span) as Ho.
  unfold colorizeSpan, sourceOf in *.
  destruct (getSourceText span) as [el s]. simpl in *.
  apply truthy_cons in E. by rewrite E, Ho.
Qed.

Lemma sourceOf_unfold (span : Span) :
  sourceOf span =
    match beelineOriginal span with
    | Some o => if truthy o then o else textContent span
    | None => textContent span
    end.
Proof.
  unfold sourceOf, getSourceText. destruct (beelineOriginal span) as [o|].
  - destruct (truthy o); [done|]. simpl. apply js_or_nil_r.
  - simpl. apply js_or_nil_r.
Qed.

Lemma sourceOf_nil_text (span : Span) : sourceOf span = [] -> textContent span = [].
Proof.
  rewrite sourceOf_unfold. destruct (beelineOriginal span) as [o|]; [|done].
  destruct (truthy o) eqn:T; [|done]. intros ->. done.
Qed.

(** A pass leaves the source text of a span as it was. *)
Lemma sourceOf_colorizeSpan {num : Type} `{JSNumber num} (e : Color) (off : Z) (span : Span) :
  sourceOf (colorizeSpan e off span).1 = sourceOf span.
Proof.
  destruct (decide (sourceOf span = [])) as [E|E].
  - rewrite colorizeSpan_skip by done. cbn [fst].
    rewrite (sourceOf_unfold (getSourceText span).1).
    rewrite getSourceText_fst_original, E. cbn [truthy].
    unfold textContent. rewrite getSourceText_fst_children.
    apply (sourceOf_nil_text span E).
  - rewrite colorizeSpan_paint by done. cbn [fst].
    rewrite sourceOf_unfold. cbn [beelineOriginal].
    apply truthy_cons in E. by rewrite E.
Qed.

(** ** The colorizer, over the spans of a page *)

Section ColorizerFacts.
Context {num : Type} `{JSNumber num}.

Lemma charNodes_app (e : Color) (off : Z) (a b : list jsstring) :
  charNodes e off (a ++ b)
  = charNodes e off a ++ charNodes e (off + Z.of_nat (length a)) b.
Proof.
  unfold charNodes. rewrite imap_app. f_equal.
  apply imap_ext. intros i x _. simpl. do 3 f_equal. lia.
Qed.

Lemma length_charNodes (e : Color) (off : Z) (chars : list jsstring) :
  length (charNodes e off chars) = length chars.
Proof. unfold charNodes. apply length_imap. Qed.

Lemma lookup_charNodes (e : Color) (off : Z) (chars : list jsstring) (k : nat) (c : jsstring) :
  chars !! k = Some c ->
  charNodes e off chars !! k
  = Some (CharNode (sampleColor (cyclePosition (off + Z.of_nat k)) e) c).
Proof. intros E. unfold charNodes. by rewrite list_lookup_imap, E. Qed.

Lemma logicalChars_cons (span : Span) (rest : list Span) :
  logicalChars (span :: rest) = Array_from (sourceOf span) ++ logicalChars rest.
Proof. done. Qed.

Lemma logicalChars_app (a b : list Span) :
  logicalChars (a ++ b) = logicalChars a ++ logicalChars b.
Proof.
  induction a as [|x a IH]; [done|].
  change ((x :: a) ++ b) with (x :: (a ++ b)).
  rewrite !logicalChars_cons, IH. apply app_assoc.
Qed.

Lemma colorizeSpans_cons (e : Color) (off : Z) (span : Span) (rest : list Span) :
  colorizeSpans e off (span :: rest)
  = ((colorizeSpan e off span).1 :: (colorizeSpans e (colorizeSpan e off span).2 rest).1,
     (colorizeSpans e (colorizeSpan e off span).2 rest).2).
Proof.
  change (colorizeSpans e off (span :: rest)) with
    (let '(span', off') := colorizeSpan e off span in
     let '(rest', final) := colorizeSpans e off' rest in (span' :: rest', final)).
  destruct (colorizeSpan e off span) as [sp' off']. cbn [fst snd].
  by destruct (colorizeSpans e off' rest).
Qed.

(** The offset after a span is the offset before it plus the number of
    code points of its source text. *)
Lemma colorizeSpan_offset (e : Color) (off : Z) (span : Span) :
  (colorizeSpan e off span).2 = off + Z.of_nat (length (Array_from (sourceOf span))).
Proof.
  destruct (decide (sourceOf span = [])) as [E|E].
  - rewrite colorizeSpan_skip by done. rewrite E. simpl. lia.
  - by rewrite colorizeSpan_paint.
Qed.

Lemma colorizeSpan_generated (e : Color) (off : Z) (span : Span) :
  (if truthy (sourceOf (colorizeSpan e off span).1)
   then children (colorizeSpan e off span).1 else [])
  = charNodes e off (Array_from (sourceOf span)).
Proof.
  rewrite sourceOf_colorizeSpan.
  destruct (decide (sourceOf span = [])) as [E|E].
  - by rewrite E.
  - rewrite colorizeSpan_paint by done. apply truthy_cons in E. by rewrite E.
Qed.

(** The nodes a pass generates are the characters of the page painted by
    one offset that runs through all spans; the offset it ends with is
    their number. *)
Lemma colorizeSpans_generated (e : Color) (spans : list Span) (off : Z) :
  generatedNodes (colorizeSpans e off spans).1 = charNodes e off (logicalChars spans)
  /\ (colorizeSpans e off spans).2 = off + Z.of_nat (length (logicalChars spans)).
Proof.
  revert off. induction spans as [|span rest IH]; intros off.
  - split; simpl; [done|lia].
  - rewrite colorizeSpans_cons. cbn [fst snd].
    destruct (IH (colorizeSpan e off span).2) as [IH1 IH2].
    rewrite logicalChars_cons, charNodes_app, length_app.
    pose proof (colorizeSpan_offset e off span) as Hoff.
    split.
    + unfold generatedNodes in *. cbn [fmap list_fmap concat].
      by rewrite colorizeSpan_generated, IH1, Hoff.
    + rewrite IH2. lia.
Qed.

(** Each span is painted from the number of code points before it. *)
Lemma colorizeSpans_lookup (e : Color) (spans : list Span) (off : Z) (j : nat) (span : Span) :
  spans !! j = Some span ->
  (colorizeSpans e off spans).1 !! j
  = Some (colorizeSpan e (off + Z.of_nat (length (logicalChars (take j spans)))) span).1.
Proof.
  revert off j. induction spans as [|sp rest IH]; intros off j E; [done|].
  rewrite colorizeSpans_cons. cbn [fst]. destruct j as [|j].
  - simpl in E. injection E as ->. simpl. do 3 f_equal. lia.
  - simpl in E. cbn [lookup list_lookup take]. rewrite (IH _ _ E).
    rewrite logicalChars_cons, length_app, colorizeSpan_offset.
    do 3 f_equal. lia.
Qed.

Lemma length_colorizeSpans (e : Color) (spans : list Span) (off : Z) :
  length (colorizeSpans e off spans).1 = length spans.
Proof.
  revert off. induction spans as [|sp rest IH]; intros off; [done|].
  rewrite colorizeSpans_cons. simpl. by rewrite IH.
Qed.

End ColorizerFacts.

(** ** Restoring *)

Lemma restoreSpan_unmarked (span : Span) : ~ isColorized span -> restoreSpan span = span.
Proof. intros N. unfold restoreSpan. by rewrite bool_decide_eq_false_2. Qed.

Lemma restoreSpan_marked (span : Span) (s : jsstring) :
  isColorized span -> beelineOriginal span = Some s -> s <> [] ->
  restoreSpan span =
    {| children := [TextNode s]; beelineOriginal := Some s; beelineApplied := None |}.
Proof.
  intros M E N. unfold restoreSpan. rewrite bool_decide_eq_true_2 by done.
  rewrite E. by destruct s.
Qed.

Lemma restoreSpan_not_colorized (span : Span) : ~ isColorized (restoreSpan span).
Proof.
  unfold restoreSpan. case_bool_decide as M; [|done]. unfold isColorized. simpl. congruence.
Qed.

Lemma restoreSpan_original (span : Span) :
  beelineOriginal (restoreSpan span) = beelineOriginal span.
Proof. unfold restoreSpan. by case_bool_decide. Qed.

Lemma restoreSpan_idem (span : Span) : restoreSpan (restoreSpan span) = restoreSpan span.
Proof. apply restoreSpan_unmarked, restoreSpan_not_colorized. Qed.

(** The text of a text node or of no node at all. *)
Lemma textContent_set (text : jsstring) (span : Span) :
  textContent (set_textContent text span) = text.
Proof.
  unfold textContent, set_textContent. destruct text as [|c cs]; [done|].
  simpl. by rewrite app_nil_r.
Qed.

Lemma keepsOriginal_restoreSpan (T : jsstring) (span : Span) :
  keepsOriginal T span -> keepsOriginal T (restoreSpan span).
Proof.
  intros (Ht & Ho & Hc). destruct (decide (isColorized span)) as [M|M].
  - destruct (Hc M) as [N E]. rewrite (restoreSpan_marked _ T) by done.
    split; [|split].
    + unfold textContent. simpl. by rewrite app_nil_r.
    + by right.
    + unfold isColorized. simpl. congruence.
  - by rewrite restoreSpan_unmarked.
Qed.

Lemma keepsOriginal_restored_text (spans0 spans : list Span) :
  Forall2 (fun s0 s => keepsOriginal (textContent s0) s) spans0 spans ->
  textContent <$> (restoreSpan <$> spans) = textContent <$> spans0.
Proof.
  induction 1 as [|s0 s l0 l K1 K2 IH]; [done|].
  cbn [fmap list_fmap]. f_equal; [|done].
  by destruct (keepsOriginal_restoreSpan _ _ K1) as [E _].
Qed.

Section PassFacts.
Context {num : Type} `{JSNumber num}.

(** Colorizing and then restoring a span leaves one text node holding the
    source text. *)
Lemma restore_after_colorize (e : Color) (off : Z) (span : Span) :
  sourceOf span <> [] ->
  restoreSpan (colorizeSpan e off span).1 =
    {| children := [TextNode (sourceOf span)];
       beelineOriginal := Some (sourceOf span); beelineApplied := None |}.
Proof.
  intros N. rewrite colorizeSpan_paint by done. cbn [fst].
  by apply restoreSpan_marked.
Qed.

Lemma keepsOriginal_fresh (span : Span) :
  fresh_span span -> keepsOriginal (textContent span) span.
Proof.
  intros [Ho Ha]. split; [done|]. split; [by left|].
  unfold isColorized. rewrite Ha. congruence.
Qed.

Lemma keepsOriginal_source (T : jsstring) (span : Span) :
  keepsOriginal T span -> sourceOf span = T.
Proof.
  intros (Ht & Ho & _). rewrite sourceOf_unfold.
  destruct Ho as [-> | ->]; [done|]. by destruct (truthy T).
Qed.

Lemma keepsOriginal_spanPass (T : jsstring) (span : Span) (p : SpanPass) :
  keepsOriginal T span -> keepsOriginal T (spanPass span p).
Proof.
  intros K. pose proof (keepsOriginal_source _ _ K) as Hs.
  destruct K as (Ht & Ho & Hc). destruct p as [e off|]; cbn [spanPass].
  - destruct (decide (T = [])) as [E|E].
    + rewrite colorizeSpan_skip by congruence. cbn [fst]. split; [|split].
      * unfold textContent. by rewrite getSourceText_fst_children.
      * right. by rewrite getSourceText_fst_original, Hs.
      * unfold isColorized. rewrite getSourceText_fst_applied. intros M.
        by destruct (Hc M).
    + rewrite colorizeSpan_paint by congruence. cbn [fst]. rewrite Hs. split; [|split].
      * unfold textContent. cbn [children].
        by rewrite textContent_charNodes, Array_from_concat.
      * by right.
      * done.
  - by apply keepsOriginal_restoreSpan.
Qed.

Lemma keepsOriginal_spanPasses (T : jsstring) (span : Span) (ps : list SpanPass) :
  keepsOriginal T span -> keepsOriginal T (foldl spanPass span ps).
Proof.
  revert span. induction ps as [|p ps IH]; intros span K; [done|].
  simpl. by apply IH, keepsOriginal_spanPass.
Qed.

(** A pass over a page is a pass over each of its spans. *)
Lemma pagePass_spanPass (spans : list Span) (p : Pass) :
  Forall2 (fun span span' => exists q, span' = spanPass span q) spans (pagePass spans p).
Proof.
  destruct p as [e|]; cbn [pagePass].
  - generalize 0 as off. induction spans as [|sp rest IH]; intros off; [constructor|].
    rewrite colorizeSpans_cons. cbn [fst]. constructor; [|apply IH].
    by exists (Colorized e off).
  - induction spans as [|sp rest IH]; [constructor|].
    constructor; [by exists Restored | done].
Qed.

Lemma keepsOriginal_pagePass (spans0 spans : list Span) (p : Pass) :
  Forall2 (fun s0 s => keepsOriginal (textContent s0) s) spans0 spans ->
  Forall2 (fun s0 s => keepsOriginal (textContent s0) s) spans0 (pagePass spans p).
Proof.
  intros K. pose proof (pagePass_spanPass spans p) as P.
  revert spans0 K. induction P as [|s s' l l' [q ->] P IH]; intros spans0 K.
  - by inversion K.
  - inversion K as [|s0 ? l0 ? K1 K2]; subst. constructor; [|by apply IH].
    by apply keepsOriginal_spanPass.
Qed.

Lemma keepsOriginal_pagePasses (spans0 spans : list Span) (ps : list Pass) :
  Forall2 (fun s0 s => keepsOriginal (textContent s0) s) spans0 spans ->
  Forall2 (fun s0 s => keepsOriginal (textContent s0) s) spans0 (foldl pagePass spans ps).
Proof.
  revert spans. induction ps as [|p ps IH]; intros spans K; [done|].
  simpl. by apply IH, keepsOriginal_pagePass.
Qed.

Lemma keepsOriginal_fresh_page (spans : list Span) :
  Forall fresh_span spans ->
  Forall2 (fun s0 s => keepsOriginal (textContent s0) s) spans spans.
Proof.
  induction 1 as [|s l F _ IH]; constructor; [by apply keepsOriginal_fresh | done].
Qed.

End PassFacts.

(** ** The registry *)

Lemma ensureReaderState_known (reader : Reader) (w : World) (l : loc) :
  stateByReader w !! _instanceID reader = Some l -> ensureReaderState reader w = (w, l).
Proof. intros E. unfold ensureReaderState. by rewrite E. Qed.

Lemma ensureReaderState_windows (reader : Reader) (w : World) :
  windows (ensureReaderState reader w).1 = windows w.
Proof. unfold ensureReaderState. by destruct (stateByReader w !! _instanceID reader). Qed.

Lemma ensureReaderState_buttons (reader : Reader) (w : World) :
  buttons (ensureReaderState reader w).1 = buttons w.
Proof. unfold ensureReaderState. by destruct (stateByReader w !! _instanceID reader). Qed.

Lemma ensureReaderState_now (reader : Reader) (w : World) :
  now (ensureReaderState reader w).1 = now w.
Proof. unfold ensureReaderState. by destruct (stateByReader w !! _instanceID reader). Qed.

Lemma ensureReaderState_listening (reader : Reader) (w : World) :
  listening (ensureReaderState reader w).1 = listening w.
Proof. unfold ensureReaderState. by destruct (stateByReader w !! _instanceID reader). Qed.

Lemma ensureReaderState_lookup (reader : Reader) (w : World) :
  stateByReader (ensureReaderState reader w).1 !! _instanceID reader
  = Some (ensureReaderState reader w).2.
Proof.
  unfold ensureReaderState.
  destruct (stateByReader w !! _instanceID reader) eqn:E; [done|].
  simpl. apply lookup_insert_eq.
Qed.

Lemma fresh_loc_None (w : World) : heap w !! fresh (dom (heap w)) = None.
Proof. apply not_elem_of_dom, is_fresh. Qed.

(** [ensureReaderState] leaves the state objects there are as they are. *)
Lemma ensureReaderState_heap (reader : Reader) (w : World) (l : loc) (st : ReaderState) :
  heap w !! l = Some st -> heap (ensureReaderState reader w).1 !! l = Some st.
Proof.
  intros E. unfold ensureReaderState.
  destruct (stateByReader w !! _instanceID reader); [done|].
  simpl. rewrite lookup_insert_ne; [done|].
  intros <-. by rewrite fresh_loc_None in E.
Qed.

Lemma ensureReaderState_registry (reader : Reader) (w : World) (rid : string) (l : loc) :
  stateByReader w !! rid = Some l ->
  stateByReader (ensureReaderState reader w).1 !! rid = Some l.
Proof.
  intros E. unfold ensureReaderState.
  destruct (stateByReader w !! _instanceID reader) eqn:E'; [done|].
  simpl. rewrite lookup_insert_ne; [done|]. congruence.
Qed.

Lemma wf_ensureReaderState (reader : Reader) (w : World) :
  wf w -> wf (ensureReaderState reader w).1.
Proof.
  intros W. unfold ensureReaderState.
  destruct (stateByReader w !! _instanceID reader) eqn:E; [done|].
  pose proof (fresh_loc_None w) as F. set (l := fresh (dom (heap w))) in *.
  split; cbn [stateByReader heap windows buttons fst].
  - intros rid l' H. destruct (decide (_instanceID reader = rid)) as [<-|Hne].
    + rewrite lookup_insert_eq in H. injection H as <-. by rewrite lookup_insert_eq.
    + rewrite lookup_insert_ne in H by done.
      destruct (wf_heap w W _ _ H) as [st Hst].
      exists st. rewrite lookup_insert_ne; [done|]. congruence.
  - intros r1 r2 l' H1 H2.
    destruct (decide (_instanceID reader = r1)) as [<-|N1];
      destruct (decide (_instanceID reader = r2)) as [<-|N2]; [done| | |].
    + rewrite lookup_insert_eq in H1. injection H1 as <-.
      rewrite lookup_insert_ne in H2 by done.
      destruct (wf_heap w W _ _ H2) as [st Hst]. congruence.
    + rewrite lookup_insert_eq in H2. injection H2 as <-.
      rewrite lookup_insert_ne in H1 by done.
      destruct (wf_heap w W _ _ H1) as [st Hst]. congruence.
    + rewrite lookup_insert_ne in H1, H2 by done. by eapply (wf_inj w W).
  - intros rid win o Hw Ho.
    destruct (wf_observing w W _ _ _ Hw Ho) as (A & B & C & st & D1 & D2).
    split; [done|]. split; [done|]. split.
    + rewrite lookup_insert_ne; [done|]. congruence.
    + exists st. split; [|done]. rewrite lookup_insert_ne; [done|]. congruence.
  - intros rid l' st o R Hst O.
    destruct (decide (_instanceID reader = rid)) as [<-|Hne].
    + rewrite lookup_insert_eq in R. injection R as <-.
      rewrite lookup_insert_eq in Hst. injection Hst as <-. done.
    + rewrite lookup_insert_ne in R by done.
      destruct (wf_heap w W _ _ R) as [st0 Hst0].
      rewrite lookup_insert_ne in Hst by congruence.
      exact (wf_owner w W _ _ _ _ R Hst O).
  - intros rid win tm Hw Ht.
    destruct (wf_timers w W _ _ _ Hw Ht) as (A & B & C & st & D1 & D2).
    split; [done|]. split; [done|]. split.
    + rewrite lookup_insert_ne; [done|]. congruence.
    + exists st. split; [|done]. rewrite lookup_insert_ne; [done|]. congruence.
  - intros rid b Hb. destruct (wf_buttons w W _ _ Hb) as [A B].
    split; [done|]. rewrite lookup_insert_ne; [done|]. congruence.
Qed.

Lemma wf_initialWorld : wf initialWorld.
Proof. split; simpl; intros *; by rewrite ?lookup_empty. Qed.

(** ** Keeping worlds well formed *)

(** Replacing a reader's window and its state object together. *)
Lemma wf_update (w : World) (rid : string) (l : loc) (win' : Window) (st' : ReaderState) :
  wf w -> stateByReader w !! rid = Some l ->
  (forall o, o ∈ observing win' ->
     observing win' = [o] /\ _instanceID (obs_reader o) = rid /\ obs_state o = l /\
     observer st' = Some o) ->
  (forall o, observer st' = Some o -> _instanceID (obs_reader o) = rid) ->
  (forall tm, tm ∈ timers win' ->
     timers win' = [tm] /\ _instanceID (timer_reader tm) = rid /\ timer_state tm = l /\
     refreshTimer st' = Some (timer_id tm)) ->
  wf (setState l st' (setWindow rid win' w)).
Proof.
  intros W R HO HOwn HT. split; cbn [stateByReader heap windows buttons setState setWindow].
  - intros rid' l' H. destruct (decide (l = l')) as [<-|N].
    + rewrite lookup_insert_eq. by eexists.
    + rewrite lookup_insert_ne by done. by eapply (wf_heap w W).
  - apply (wf_inj w W).
  - intros rid' win o Hw Ho. destruct (decide (rid = rid')) as [<-|N].
    + rewrite lookup_insert_eq in Hw. injection Hw as <-.
      destruct (HO o Ho) as (A & B & C & D). subst l.
      split; [done|]. split; [done|]. split; [done|].
      exists st'. by rewrite lookup_insert_eq.
    + rewrite lookup_insert_ne in Hw by done.
      destruct (wf_observing w W _ _ _ Hw Ho) as (A & B & C & st & D1 & D2).
      split; [done|]. split; [done|]. split; [done|].
      exists st. split; [|done]. rewrite lookup_insert_ne; [done|].
      intros ->. apply N. by eapply (wf_inj w W).
  - intros rid' l' st o R' E O. destruct (decide (l = l')) as [<-|N].
    + rewrite lookup_insert_eq in E. injection E as <-.
      rewrite (wf_inj w W _ _ _ R' R). by apply HOwn.
    + rewrite lookup_insert_ne in E by done. exact (wf_owner w W _ _ _ _ R' E O).
  - intros rid' win tm Hw Ht. destruct (decide (rid = rid')) as [<-|N].
    + rewrite lookup_insert_eq in Hw. injection Hw as <-.
      destruct (HT tm Ht) as (A & B & C & D). subst l.
      split; [done|]. split; [done|]. split; [done|].
      exists st'. by rewrite lookup_insert_eq.
    + rewrite lookup_insert_ne in Hw by done.
      destruct (wf_timers w W _ _ _ Hw Ht) as (A & B & C & st & D1 & D2).
      split; [done|]. split; [done|]. split; [done|].
      exists st. split; [|done]. rewrite lookup_insert_ne; [done|].
      intros ->. apply N. by eapply (wf_inj w W).
  - apply (wf_buttons w W).
Qed.

(** Replacing a reader's window by one with the same timers and observers. *)
Lemma wf_setWindow (w : World) (rid : string) (win win' : Window) :
  wf w -> windows w !! rid = Some win ->
  timers win' = timers win -> observing win' = observing win ->
  wf (setWindow rid win' w).
Proof.
  intros W Hwin HT HO. split; cbn [stateByReader heap windows buttons setWindow];
    [apply (wf_heap w W) | apply (wf_inj w W) | | apply (wf_owner w W) |
    | apply (wf_buttons w W)].
  - intros rid' win0 o Hw Ho. destruct (decide (rid = rid')) as [<-|N].
    + rewrite lookup_insert_eq in Hw. injection Hw as <-. rewrite HO in *.
      by apply (wf_observing w W).
    + rewrite lookup_insert_ne in Hw by done. by apply (wf_observing w W).
  - intros rid' win0 tm Hw Ht. destruct (decide (rid = rid')) as [<-|N].
    + rewrite lookup_insert_eq in Hw. injection Hw as <-. rewrite HT in *.
      by apply (wf_timers w W).
    + rewrite lookup_insert_ne in Hw by done. by apply (wf_timers w W).
Qed.

(** A window that comes without timers and observers. *)
Lemma wf_newWindow (w : World) (rid : string) (win' : Window) :
  wf w -> timers win' = [] -> observing win' = [] -> wf (setWindow rid win' w).
Proof.
  intros W HT HO. split; cbn [stateByReader heap windows buttons setWindow];
    [apply (wf_heap w W) | apply (wf_inj w W) | | apply (wf_owner w W) |
    | apply (wf_buttons w W)].
  - intros rid' win0 o Hw Ho. destruct (decide (rid = rid')) as [<-|N].
    + rewrite lookup_insert_eq in Hw. injection Hw as <-. rewrite HO in Ho.
      by apply not_elem_of_nil in Ho.
    + rewrite lookup_insert_ne in Hw by done. by apply (wf_observing w W).
  - intros rid' win0 tm Hw Ht. destruct (decide (rid = rid')) as [<-|N].
    + rewrite lookup_insert_eq in Hw. injection Hw as <-. rewrite HT in Ht.
      by apply not_elem_of_nil in Ht.
    + rewrite lookup_insert_ne in Hw by done. by apply (wf_timers w W).
Qed.

(** Replacing a state object by one with the same observer and timer
    handle. *)
Lemma wf_setState (w : World) (l : loc) (st st' : ReaderState) :
  wf w -> heap w !! l = Some st ->
  observer st' = observer st -> refreshTimer st' = refreshTimer st ->
  wf (setState l st' w).
Proof.
  intros W Hst HO HT. split; cbn [stateByReader heap windows buttons setState];
    [ | apply (wf_inj w W) | | | | apply (wf_buttons w W)].
  - intros rid l' H. destruct (decide (l = l')) as [<-|N].
    + rewrite lookup_insert_eq. by eexists.
    + rewrite lookup_insert_ne by done. by eapply (wf_heap w W).
  - intros rid win o Hw Ho.
    destruct (wf_observing w W _ _ _ Hw Ho) as (A & B & C & st0 & D1 & D2).
    split; [done|]. split; [done|]. split; [done|].
    destruct (decide (l = obs_state o)) as [E|N].
    + exists st'. rewrite E, lookup_insert_eq. split; [done|]. congruence.
    + exists st0. by rewrite lookup_insert_ne.
  - intros rid l' st0 o R E O. destruct (decide (l = l')) as [<-|N].
    + rewrite lookup_insert_eq in E. injection E as <-.
      rewrite HO in O. exact (wf_owner w W _ _ _ _ R Hst O).
    + rewrite lookup_insert_ne in E by done. exact (wf_owner w W _ _ _ _ R E O).
  - intros rid win tm Hw Ht.
    destruct (wf_timers w W _ _ _ Hw Ht) as (A & B & C & st0 & D1 & D2).
    split; [done|]. split; [done|]. split; [done|].
    destruct (decide (l = timer_state tm)) as [E|N].
    + exists st'. rewrite E, lookup_insert_eq. split; [done|]. congruence.
    + exists st0. by rewrite lookup_insert_ne.
Qed.

Lemma wf_setButton (w : World) (rid : string) (b : Button) :
  wf w -> _instanceID (click_reader b) = rid ->
  stateByReader w !! rid = Some (click_state b) ->
  wf (setButton rid b w).
Proof.
  intros W HR HS. split; cbn [stateByReader heap windows buttons setButton];
    [apply (wf_heap w W) | apply (wf_inj w W) | apply (wf_observing w W)
    | apply (wf_owner w W) | apply (wf_timers w W) | ].
  intros rid' b' Hb. destruct (decide (rid = rid')) as [<-|N].
  - rewrite lookup_insert_eq in Hb. by injection Hb as <-.
  - rewrite lookup_insert_ne in Hb by done. by apply (wf_buttons w W).
Qed.

Lemma wf_setNow (w : World) (t : Z) : wf w -> wf (setNow t w).
Proof. intros W. split; apply W. Qed.

Lemma wf_start (w : World) : wf w -> wf (start w).
Proof. intros W. split; apply W. Qed.

(** ** The service, operation by operation *)

Lemma setSpans_same (win : Window) : setSpans (textSpans (document win)) win = win.
Proof. by destruct win as [[] ? ? ? ?]. Qed.

Lemma stateOf_Some (rid : string) (w : World) (l : loc) (st : ReaderState) :
  stateByReader w !! rid = Some l -> heap w !! l = Some st -> stateOf rid w = Some st.
Proof. intros R E. unfold stateOf. by rewrite R. Qed.

Section ServiceFacts.
Context {num : Type} `{JSNumber num}.

Lemma refreshReader_nowindow (reader : Reader) (w : World) :
  windows w !! _instanceID reader = None -> refreshReader reader w = w.
Proof. intros E. unfold refreshReader. by rewrite E. Qed.

(** A pass of [refreshReader] for a reader the registry knows: the spans of
    its window are colorized from offset 0 if the state is enabled, and
    restored if not; nothing else changes. *)
Lemma refreshReader_known (reader : Reader) (w : World) (win : Window) (l : loc)
  (st : ReaderState) :
  windows w !! _instanceID reader = Some win ->
  stateByReader w !! _instanceID reader = Some l -> heap w !! l = Some st ->
  refreshReader reader w =
    setWindow (_instanceID reader)
      (setSpans (pagePass (textSpans (document win))
                   (if enabled st then ApplyPass (endColor (document win) win) else RestorePass))
         win) w.
Proof.
  intros Hw R E. unfold refreshReader. rewrite Hw, (ensureReaderState_known _ _ _ R), E.
  by destruct (enabled st).
Qed.

(** A pass for a reader the registry does not know yet: its state is
    created enabled, so the spans are colorized. *)
Lemma refreshReader_first (reader : Reader) (w : World) (win : Window) :
  windows w !! _instanceID reader = Some win ->
  stateByReader w !! _instanceID reader = None ->
  refreshReader reader w =
    setWindow (_instanceID reader)
      (setSpans (pagePass (textSpans (document win)) (ApplyPass (endColor (document win) win)))
         win) (ensureReaderState reader w).1.
Proof.
  intros Hw R. unfold refreshReader. rewrite Hw. unfold ensureReaderState. rewrite R.
  cbn [fst heap]. by rewrite lookup_insert_eq.
Qed.

Lemma wf_refreshReader (reader : Reader) (w : World) : wf w -> wf (refreshReader reader w).
Proof.
  intros W. unfold refreshReader.
  destruct (windows w !! _instanceID reader) as [win|] eqn:Hw; [|done].
  pose proof (wf_ensureReaderState reader w W) as W1.
  pose proof (ensureReaderState_windows reader w) as Hws.
  destruct (ensureReaderState reader w) as [w1 l]. cbn [fst] in *.
  destruct (heap w1 !! l) as [st|]; [|done].
  rewrite <- Hws in Hw.
  destruct (enabled st); cbn [negb]; by eapply wf_setWindow.
Qed.

(** A pass changes the spans of windows and nothing else of them. *)
Lemma refreshReader_window (reader : Reader) (w : World) (rid : string) (win : Window) :
  windows w !! rid = Some win ->
  exists spans, windows (refreshReader reader w) !! rid = Some (setSpans spans win).
Proof.
  intros Hw. unfold refreshReader.
  destruct (windows w !! _instanceID reader) as [win0|] eqn:Hw0;
    [|exists (textSpans (document win)); by rewrite setSpans_same].
  pose proof (ensureReaderState_windows reader w) as Hws.
  destruct (ensureReaderState reader w) as [w1 l]. cbn [fst] in *.
  assert (exists spans, windows w1 !! rid = Some (setSpans spans win)) as Hsame.
  { exists (textSpans (document win)). by rewrite setSpans_same, Hws. }
  destruct (heap w1 !! l) as [st|]; [|done].
  destruct (decide (_instanceID reader = rid)) as [E|N].
  - rewrite E in *. assert (win0 = win) as -> by congruence.
    destruct (enabled st); cbn [negb windows setWindow]; rewrite lookup_insert_eq; by eexists.
  - destruct (enabled st); cbn [negb windows setWindow];
      by rewrite lookup_insert_ne.
Qed.

Lemma refreshReader_heap (reader : Reader) (w : World) (l : loc) (st : ReaderState) :
  heap w !! l = Some st -> heap (refreshReader reader w) !! l = Some st.
Proof.
  intros E. unfold refreshReader.
  destruct (windows w !! _instanceID reader) as [win0|]; [|done].
  pose proof (ensureReaderState_heap reader w l st E) as E1.
  destruct (ensureReaderState reader w) as [w1 l1]. cbn [fst] in *.
  destruct (heap w1 !! l1) as [st1|]; [|done].
  by destruct (enabled st1).
Qed.

Lemma refreshReader_registry (reader : Reader) (w : World) (rid : string) (l : loc) :
  stateByReader w !! rid = Some l -> stateByReader (refreshReader reader w) !! rid = Some l.
Proof.
  intros E. unfold refreshReader.
  destruct (windows w !! _instanceID reader) as [win0|]; [|done].
  pose proof (ensureReaderState_registry reader w rid l E) as E1.
  destruct (ensureReaderState reader w) as [w1 l1]. cbn [fst] in *.
  destruct (heap w1 !! l1) as [st1|]; [|done].
  by destruct (enabled st1).
Qed.

Lemma refreshReader_now (reader : Reader) (w : World) : now (refreshReader reader w) = now w.
Proof.
  unfold refreshReader.
  destruct (windows w !! _instanceID reader) as [win0|]; [|done].
  pose proof (ensureReaderState_now reader w) as E1.
  destruct (ensureReaderState reader w) as [w1 l1]. cbn [fst] in *.
  destruct (heap w1 !! l1) as [st1|]; [|done].
  by destruct (enabled st1).
Qed.

End ServiceFacts.

(** ** The watcher and its timer *)

Section WatcherFacts.
Context {num : Type} `{JSNumber num}.

(** With a watcher handle in the state, installing is a no-op. *)
Lemma observeReaderTextLayer_installed (reader : Reader) (w : World) (l : loc)
  (st : ReaderState) (o : Observer) :
  stateByReader w !! _instanceID reader = Some l -> heap w !! l = Some st ->
  observer st = Some o ->
  observeReaderTextLayer reader w = w.
Proof.
  intros R E O. unfold observeReaderTextLayer.
  destruct (windows w !! _instanceID reader); [|done].
  by rewrite (ensureReaderState_known _ _ _ R), E, O.
Qed.

(** In a well-formed world, a state without a watcher handle has no
    observer connected to its reader's window. *)
Lemma wf_no_observer (w : World) (rid : string) (win : Window) (l : loc) (st : ReaderState) :
  wf w -> windows w !! rid = Some win -> stateByReader w !! rid = Some l ->
  heap w !! l = Some st -> observer st = None -> observing win = [].
Proof.
  intros W Hw R E O. destruct (observing win) as [|o os] eqn:Hobs; [done|].
  assert (o ∈ observing win) as Ho by (rewrite Hobs; left).
  destruct (wf_observing w W _ _ _ Hw Ho) as (_ & _ & C & st' & D1 & D2).
  congruence.
Qed.

(** In a well-formed world, the timers pending in a reader's window all
    carry the handle its state holds. *)
Lemma wf_timer_handle (w : World) (rid : string) (win : Window) (l : loc) (st : ReaderState)
  (tm : Timer) :
  wf w -> windows w !! rid = Some win -> stateByReader w !! rid = Some l ->
  heap w !! l = Some st -> tm ∈ timers win ->
  timers win = [tm] /\ refreshTimer st = Some (timer_id tm).
Proof.
  intros W Hw R E Ht.
  destruct (wf_timers w W _ _ _ Hw Ht) as (A & _ & C & st' & D1 & D2).
  split; [done|]. congruence.
Qed.

Lemma wf_observeReaderTextLayer (reader : Reader) (w : World) :
  wf w -> wf (observeReaderTextLayer reader w).
Proof.
  intros W. unfold observeReaderTextLayer.
  destruct (windows w !! _instanceID reader) as [win|] eqn:Hw; [|done].
  pose proof (wf_ensureReaderState reader w W) as W1.
  pose proof (ensureReaderState_windows reader w) as Hws.
  pose proof (ensureReaderState_lookup reader w) as R1.
  destruct (ensureReaderState reader w) as [w1 l]. cbn [fst snd] in *.
  destruct (heap w1 !! l) as [st|] eqn:E; [|done].
  destruct (observer st) as [o0|] eqn:O; [done|].
  destruct (body (document win)); cbn [negb]; [|done].
  rewrite <- Hws in Hw.
  pose proof (wf_no_observer w1 _ win l st W1 Hw R1 E O) as Hnone.
  apply wf_update; [done|done| | |]; cbn [observing timers observer refreshTimer].
  - rewrite Hnone. intros o Ho. apply list_elem_of_singleton in Ho. by subst o.
  - by intros o [= <-].
  - intros tm Ht.
    destruct (wf_timers w1 W1 _ _ _ Hw Ht) as (A & B & C & st' & D1 & D2).
    split; [done|]. split; [done|]. split; congruence.
Qed.

(** The observer callback on a qualifying batch, in a well-formed world:
    whatever timer was pending is gone and one new timer is pending, due 120
    after the present; the state holds its handle. *)
Lemma observerCallback_arms (o : Observer) (mutations : list MutationRecord) (w : World)
  (win : Window) (st : ReaderState) :
  wf w -> windows w !! _instanceID (obs_reader o) = Some win -> o ∈ observing win ->
  heap w !! obs_state o = Some st ->
  qualifying mutations = true ->
  observerCallback o mutations w =
    setState (obs_state o)
      {| enabled := enabled st; observer := observer st;
         refreshTimer := Some (nextHandle win) |}
      (setWindow (_instanceID (obs_reader o)) (armed o (now w) win) w).
Proof.
  intros W Hw Ho E Q. unfold observerCallback. rewrite Q, Hw, E. cbn [negb].
  destruct (wf_observing w W _ _ _ Hw Ho) as (_ & _ & R & _).
  assert (timers (match refreshTimer st with
                  | Some id => clearTimeout id win
                  | None => win
                  end) = []) as Hclear.
  { destruct (timers win) as [|tm tms] eqn:Ht.
    - destruct (refreshTimer st); [|done]. unfold clearTimeout. by rewrite Ht.
    - assert (tm ∈ timers win) as Hin by (rewrite Ht; left).
      destruct (wf_timer_handle w _ win _ st tm W Hw R E Hin) as [A B].
      rewrite B. unfold clearTimeout. rewrite A. cbn [setTimers timers].
      rewrite filter_cons_False by (intros X; by apply X). done. }
  unfold setTimeout, armed. rewrite Hclear.
  by destruct (refreshTimer st).
Qed.

Lemma wf_observerCallback (o : Observer) (mutations : list MutationRecord) (w : World)
  (win : Window) :
  wf w -> windows w !! _instanceID (obs_reader o) = Some win -> o ∈ observing win ->
  wf (observerCallback o mutations w).
Proof.
  intros W Hw Ho.
  destruct (qualifying mutations) eqn:Q; [|unfold observerCallback; by rewrite Q].
  destruct (wf_observing w W _ _ _ Hw Ho) as (A & B & R & st & E & O).
  rewrite (observerCallback_arms o mutations w win st) by done.
  apply wf_update; [done|done| | |]; cbn [armed observing timers observer refreshTimer].
  - intros o' Ho'. rewrite A in Ho' |- *. apply list_elem_of_singleton in Ho'. by subst o'.
  - intros o' O'. by eapply (wf_owner w W).
  - intros tm Ht. apply list_elem_of_singleton in Ht. by subst tm.
Qed.

(** A pending timer fires, in a well-formed world: no timer is pending any
    more, the handle is cleared, and then the spans are recomputed. *)
Lemma fireTimer_fires (rid : string) (tm : Timer) (w : World) (win : Window)
  (st : ReaderState) :
  wf w -> windows w !! rid = Some win -> tm ∈ timers win ->
  heap w !! timer_state tm = Some st ->
  fireTimer rid tm w =
    refreshReader (timer_reader tm)
      (setState (timer_state tm)
         {| enabled := enabled st; observer := observer st; refreshTimer := None |}
         (setWindow rid (setTimers [] win) w)).
Proof.
  intros W Hw Ht E. unfold fireTimer, timerCallback. rewrite Hw.
  cbn [heap setWindow]. rewrite E.
  destruct (wf_timers w W _ _ _ Hw Ht) as (A & _).
  unfold clearTimeout. rewrite A.
  rewrite filter_cons_False by (intros X; by apply X). done.
Qed.

Lemma wf_fireTimer (rid : string) (tm : Timer) (w : World) (win : Window) :
  wf w -> windows w !! rid = Some win -> tm ∈ timers win -> wf (fireTimer rid tm w).
Proof.
  intros W Hw Ht.
  destruct (wf_timers w W _ _ _ Hw Ht) as (A & B & R & st & E & T).
  rewrite (fireTimer_fires rid tm w win st) by done.
  apply wf_refreshReader.
  apply wf_update; [done|done| | |]; cbn [setTimers observing timers observer refreshTimer].
  - intros o Ho.
    destruct (wf_observing w W _ _ _ Hw Ho) as (A' & B' & R' & st' & E' & O').
    split; [done|]. split; [done|]. split; congruence.
  - intros o O. by eapply (wf_owner w W).
  - intros tm' Ht'. by apply not_elem_of_nil in Ht'.
Qed.

Lemma wf_clickHandler (rid : string) (w : World) : wf w -> wf (clickHandler rid w).
Proof.
  intros W. unfold clickHandler.
  destruct (buttons w !! rid) as [b|] eqn:Hb; [|done].
  destruct (heap w !! click_state b) as [st|] eqn:E; [|done].
  destruct (wf_buttons w W _ _ Hb) as [A R].
  apply wf_refreshReader. apply wf_setButton; [|done|done].
  by eapply wf_setState.
Qed.

Lemma wf_toolbarHandler (reader : Reader) (w : World) : wf w -> wf (toolbarHandler reader w).
Proof.
  intros W. unfold toolbarHandler. case_bool_decide; [done|].
  pose proof (wf_ensureReaderState reader w W) as W1.
  pose proof (ensureReaderState_lookup reader w) as R1.
  destruct (ensureReaderState reader w) as [w1 l]. cbn [fst snd] in *.
  destruct (heap w1 !! l) as [st|] eqn:E; [|done].
  apply wf_refreshReader, wf_observeReaderTextLayer.
  destruct (buttons w1 !! _instanceID reader); [done|].
  by apply wf_setButton.
Qed.

Lemma head_filter_elem {A} (P : A -> Prop) `{!forall x, Decision (P x)} (l : list A) (x : A) :
  head (filter P l) = Some x -> x ∈ l /\ P x.
Proof.
  intros E. assert (x ∈ filter P l) as Hin.
  { destruct (filter P l) as [|y ys]; [done|]. simpl in E. injection E as ->. left. }
  by apply list_elem_of_filter in Hin as [? ?].
Qed.

Lemma wf_step (ev : Event) (w : World) : wf w -> wf (step ev w).
Proof.
  intros W. destruct ev as [|rid doc dark|rid doc dark|dt|reader|rid|rid oid ms|rid tid];
    cbn [step].
  - by apply wf_start.
  - destruct (windows w !! rid); [done|]. by apply wf_newWindow.
  - destruct (windows w !! rid) eqn:Hw; [|done]. by eapply wf_setWindow.
  - destruct (0 <=? dt); [|done]. by apply wf_setNow.
  - destruct (listening w); [|done]. by apply wf_toolbarHandler.
  - by apply wf_clickHandler.
  - destruct (windows w !! rid) as [win|] eqn:Hw; [|done].
    destruct (head (filter (fun o => obs_id o = oid) (observing win))) as [o|] eqn:Hh; [|done].
    apply head_filter_elem in Hh as [Ho _].
    destruct (wf_observing w W _ _ _ Hw Ho) as (_ & B & _).
    eapply wf_observerCallback; [done| |done]. by rewrite B.
  - destruct (windows w !! rid) as [win|] eqn:Hw; [|done].
    destruct (head (filter (fun tm => timer_id tm = tid) (timers win))) as [tm|] eqn:Hh; [|done].
    apply head_filter_elem in Hh as [Ht _].
    destruct (timer_due tm <=? now w); [|done].
    by eapply wf_fireTimer.
Qed.

(** Every world reached from a well-formed one is well formed. *)
Lemma wf_run (evs : list Event) (w : World) : wf w -> wf (run evs w).
Proof.
  revert w. induction evs as [|ev evs IH]; intros w W; [done|].
  cbn [run foldl]. apply IH. by apply wf_step.
Qed.

End WatcherFacts.

(** ** The claims about the colorizer *)

Section ColorizerClaims.
Context {num : Type} `{JSNumber num}.

Lemma refreshReader_colorizes (reader : Reader) (w : World) (win : Window) :
  windows w !! _instanceID reader = Some win -> colorizes (_instanceID reader) w ->
  windows (refreshReader reader w) !! _instanceID reader
  = Some (setSpans (pagePass (textSpans (document win)) (ApplyPass (endColor (document win) win)))
            win).
Proof.
  intros Hw C. unfold colorizes in C.
  destruct (stateByReader w !! _instanceID reader) as [l|] eqn:R.
  - destruct C as (st & E & En).
    rewrite (refreshReader_known reader w win l st) by done. rewrite En.
    cbn [windows setWindow]. by rewrite lookup_insert_eq.
  - rewrite (refreshReader_first reader w win) by done.
    cbn [windows setWindow]. by rewrite lookup_insert_eq.
Qed.

Lemma cyclePosition_mod (k : nat) :
  cyclePosition (num := num) (0 + Z.of_nat k)
  = num_div (num_of_Z (Z.of_nat k `mod` 48)) (num_of_Z 48).
Proof.
  unfold cyclePosition, CHARACTERS_PER_CYCLE. rewrite Z.add_0_l.
  by rewrite Z.rem_mod_nonneg by lia.
Qed.

(** C1: in a colorization pass of [refreshReader] over the text-layer spans
    of a reader's window, one character offset, counted in code points, runs
    through all spans: the span at index [j] is painted from the number of
    code points of the spans before it; the character at global offset [k]
    gets the colour [sampleColor ((k mod 48) / 48) endColor]; and any other
    division into spans of the same characters generates the same nodes. *)
Theorem gradient_continuity (reader : Reader) (w : World) (win : Window) :
  windows w !! _instanceID reader = Some win -> colorizes (_instanceID reader) w ->
  let spans := textSpans (document win) in
  let e := endColor (document win) win in
  exists win',
    windows (refreshReader reader w) !! _instanceID reader = Some win' /\
    let spans' := textSpans (document win') in
    (forall j span, spans !! j = Some span -> sourceOf span <> [] ->
       exists span', spans' !! j = Some span' /\
         children span' =
           charNodes e (Z.of_nat (length (logicalChars (take j spans))))
             (Array_from (sourceOf span))) /\
    (forall k c, logicalChars spans !! k = Some c ->
       generatedNodes spans' !! k =
         Some (CharNode
                 (sampleColor (num_div (num_of_Z (Z.of_nat k `mod` 48)) (num_of_Z 48)) e) c)) /\
    length (generatedNodes spans') = length (logicalChars spans) /\
    (forall spans2, logicalChars spans2 = logicalChars spans ->
       generatedNodes (pagePass spans2 (ApplyPass e)) = generatedNodes spans').
Proof.
  intros Hw C spans e. eexists. split; [by apply refreshReader_colorizes|].
  cbn [setSpans document textSpans pagePass]. fold spans e.
  destruct (colorizeSpans_generated e spans 0) as [G _].
  split; [|split; [|split]].
  - intros j span Hj N. eexists. split.
    + by apply colorizeSpans_lookup.
    + rewrite colorizeSpan_paint by done. cbn [fst children]. by rewrite Z.add_0_l.
  - intros k c Hk. rewrite G, (lookup_charNodes _ _ _ _ _ Hk). by rewrite cyclePosition_mod.
  - by rewrite G, length_charNodes.
  - intros spans2 E. destruct (colorizeSpans_generated e spans2 0) as [G2 _].
    by rewrite G, G2, E.
Qed.

End ColorizerClaims.

Section RestoreClaims.
Context {num : Type} `{JSNumber num}.

(** C2: after any passes over a page of spans the service had not touched,
    a restore pass puts in every span marked colorized exactly the text the
    span held before its first colorization, as one text node, and leaves
    every span not marked colorized as it is; every span reads again, code
    unit by code unit, as it did at first. *)
Theorem restore_exact (spans : list Span) (passes : list Pass) :
  Forall fresh_span spans ->
  let colored := foldl pagePass spans passes in
  let restored := pagePass colored RestorePass in
  (forall j span, colored !! j = Some span -> isColorized span ->
     exists span0, spans !! j = Some span0 /\
       restored !! j =
         Some {| children := [TextNode (textContent span0)];
                 beelineOriginal := Some (textContent span0);
                 beelineApplied := None |}) /\
  (forall j span, colored !! j = Some span -> ~ isColorized span ->
     restored !! j = Some span) /\
  textContent <$> restored = textContent <$> spans.
Proof.
  intros F colored restored.
  pose proof (keepsOriginal_pagePasses spans spans passes (keepsOriginal_fresh_page spans F)) as K.
  fold colored in K. unfold restored. cbn [pagePass].
  split; [|split].
  - intros j span Hj M.
    destruct (Forall2_lookup_r _ _ _ _ _ K Hj) as (span0 & Hj0 & _ & _ & Hc).
    destruct (Hc M) as [N E].
    exists span0. split; [done|].
    rewrite list_lookup_fmap, Hj. cbn [fmap option_fmap option_map]. f_equal.
    by apply restoreSpan_marked.
  - intros j span Hj M. rewrite list_lookup_fmap, Hj. cbn [fmap option_fmap option_map].
    f_equal. by apply restoreSpan_unmarked.
  - by apply keepsOriginal_restored_text.
Qed.

Lemma original_spanPass (span : Span) (s : jsstring) (p : SpanPass) :
  beelineOriginal span = Some s -> s <> [] -> beelineOriginal (spanPass span p) = Some s.
Proof.
  intros E N. destruct p as [e off|]; cbn [spanPass].
  - assert (sourceOf span = s) as Hs.
    { rewrite sourceOf_unfold, E. apply truthy_cons in N. by rewrite N. }
    rewrite colorizeSpan_paint by congruence. cbn [fst beelineOriginal]. by rewrite Hs.
  - by rewrite restoreSpan_original.
Qed.

(** A stored empty string counts as not captured: [getSourceText] captures
    the text the span holds now, and so does a colorization. *)
Lemma getSourceText_recapture (span : Span) :
  beelineOriginal span = Some [] ->
  getSourceText span =
    ({| children := children span; beelineOriginal := Some (textContent span);
        beelineApplied := beelineApplied span |}, textContent span).
Proof. intros E. unfold getSourceText. by rewrite E, js_or_nil_r. Qed.

Lemma colorizeSpan_original (e : Color) (off : Z) (span : Span) :
  beelineOriginal (colorizeSpan e off span).1 = Some (sourceOf span).
Proof.
  destruct (decide (sourceOf span = [])) as [E|E].
  - rewrite colorizeSpan_skip by done. cbn [fst]. apply getSourceText_fst_original.
  - by rewrite colorizeSpan_paint.
Qed.

(** C6, amended: a stored original text that is not empty is what
    [getSourceText] answers, the span being left as it is, and no sequence of
    passes changes what is stored; the first capture stores the text the span
    holds; a span marked colorized has stored the text it held before the
    service touched it, never its generated content; and a stored empty
    string counts as not captured: [getSourceText] answers the text the
    span holds now and stores it, and so the next colorization works from
    that text and leaves it stored. *)
Theorem original_kept (span : Span) (s : jsstring) (passes : list SpanPass) :
  beelineOriginal span = Some s -> s <> [] ->
  getSourceText span = (span, s) /\
  beelineOriginal (foldl spanPass span passes) = Some s /\
  sourceOf (foldl spanPass span passes) = s /\
  (forall span0, beelineOriginal span0 = None ->
     beelineOriginal (getSourceText span0).1 = Some (textContent span0)) /\
  (forall span0, fresh_span span0 -> isColorized (foldl spanPass span0 passes) ->
     beelineOriginal (foldl spanPass span0 passes) = Some (textContent span0)) /\
  (forall span0 e off, beelineOriginal span0 = Some [] ->
     getSourceText span0 =
       ({| children := children span0; beelineOriginal := Some (textContent span0);
           beelineApplied := beelineApplied span0 |}, textContent span0) /\
     sourceOf span0 = textContent span0 /\
     beelineOriginal (colorizeSpan e off span0).1 = Some (textContent span0) /\
     (textContent span0 <> [] ->
        children (colorizeSpan e off span0).1
        = charNodes e off (Array_from (textContent span0)))).
Proof.
  intros E N.
  assert (beelineOriginal (foldl spanPass span passes) = Some s) as Hkept.
  { revert span E. induction passes as [|p ps IH]; intros span E; [done|].
    cbn [foldl]. by apply IH, original_spanPass. }
  split; [|split; [|split; [|split; [|split]]]].
  - apply getSourceText_stored; [done|]. by apply truthy_cons.
  - done.
  - rewrite sourceOf_unfold, Hkept. apply truthy_cons in N. by rewrite N.
  - intros span0 E0. by rewrite getSourceText_capture.
  - intros span0 F M.
    destruct (keepsOriginal_spanPasses _ _ passes (keepsOriginal_fresh span0 F)) as (_ & _ & Hc).
    by destruct (Hc M).
  - intros span0 e off E0.
    assert (sourceOf span0 = textContent span0) as Hs
      by (unfold sourceOf; by rewrite getSourceText_recapture).
    split; [by apply getSourceText_recapture|]. split; [done|].
    split; [by rewrite colorizeSpan_original, Hs|].
    intros Ht. rewrite colorizeSpan_paint by congruence. cbn [fst children]. by rewrite Hs.
Qed.

(** C4, amended: a span whose source text is empty is passed over: only its
    stored original text is set, its children and its marker stay, the
    running offset stays, and the spans after it are painted as if it were
    not there.  A span whose source text is not empty, white space included,
    is colorized and moves the offset by the number of its code points. *)
Theorem empty_span_skipped (e : Color) (off : Z) (span : Span) (before after : list Span) :
  sourceOf span = [] ->
  colorizeSpan e off span = ((getSourceText span).1, off) /\
  children (getSourceText span).1 = children span /\
  beelineApplied (getSourceText span).1 = beelineApplied span /\
  (forall j next, after !! j = Some next ->
     (colorizeSpans e off (before ++ span :: after)).1 !! (length before + S j)%nat
     = (colorizeSpans e off (before ++ after)).1 !! (length before + j)%nat) /\
  (colorizeSpans e off (before ++ span :: after)).2 = (colorizeSpans e off (before ++ after)).2 /\
  (forall other, sourceOf other <> [] ->
     isColorized (colorizeSpan e off other).1 /\
     (colorizeSpan e off other).2 = off + Z.of_nat (length (Array_from (sourceOf other)))).
Proof.
  intros E.
  assert (logicalChars [span] = []) as Hnone.
  { unfold logicalChars. simpl. by rewrite E. }
  split; [by apply colorizeSpan_skip|].
  split; [apply getSourceText_fst_children|].
  split; [apply getSourceText_fst_applied|].
  split; [|split].
  - intros j next Hj.
    rewrite (colorizeSpans_lookup e (before ++ span :: after) off _ next).
    2:{ rewrite lookup_app_r by lia.
        replace (length before + S j - length before)%nat with (S j) by lia. done. }
    rewrite (colorizeSpans_lookup e (before ++ after) off _ next).
    2:{ rewrite lookup_app_r by lia.
        replace (length before + j - length before)%nat with j by lia. done. }
    do 4 f_equal. rewrite !take_app_add.
    rewrite !logicalChars_app. cbn [take].
    change (span :: take j after) with ([span] ++ take j after).
    by rewrite logicalChars_app, Hnone.
  - destruct (colorizeSpans_generated e (before ++ span :: after) off) as [_ ->].
    destruct (colorizeSpans_generated e (before ++ after) off) as [_ ->].
    change (span :: after) with ([span] ++ after).
    by rewrite !logicalChars_app, Hnone.
  - intros other N. rewrite colorizeSpan_paint by done. by split.
Qed.

End RestoreClaims.

(** ** The end colour *)

Lemma isDarkTheme_true (doc : Document) (win : Window) :
  isDarkTheme doc win = true <->
  (exists classList, documentElement doc = Some classList /\ "theme-dark" ∈ classList)
  \/ prefersDark win = Some true.
Proof.
  unfold isDarkTheme. rewrite orb_true_iff. split.
  - intros [D|D].
    + left. destruct (documentElement doc) as [cl|]; [|done].
      exists cl. split; [done|]. by apply bool_decide_eq_true in D.
    + right. by destruct (prefersDark win) as [[]|].
  - intros [(cl & E & D)| ->]; [left|by right].
    rewrite E. by apply bool_decide_eq_true.
Qed.

Section ThemeClaims.
Context {num : Type} `{JSNumber num}.

Lemma colorizes_refreshReader (reader : Reader) (w : World) :
  colorizes (_instanceID reader) w -> colorizes (_instanceID reader) (refreshReader reader w).
Proof.
  intros C. unfold colorizes in *.
  destruct (stateByReader w !! _instanceID reader) as [l|] eqn:R.
  - destruct C as (st & E & En).
    rewrite (refreshReader_registry reader w _ l R).
    exists st. split; [|done]. by apply refreshReader_heap.
  - destruct (windows w !! _instanceID reader) as [win|] eqn:Hw.
    + rewrite (refreshReader_first reader w win) by done.
      cbn [setWindow stateByReader heap]. unfold ensureReaderState. rewrite R.
      cbn [fst stateByReader heap]. rewrite lookup_insert_eq.
      eexists. by rewrite lookup_insert_eq.
    + rewrite refreshReader_nowindow by done. by rewrite R.
Qed.

(** C3, amended: a colorization pass of [refreshReader] takes its end
    colour from the presentation mode of the window as it is at the pass:
    (17,24,39), a dark colour, in light mode, and (241,245,249), a light
    colour, in dark mode, which is the mode when the root element has the
    class [theme-dark] or the window prefers a dark colour scheme.  When the
    host changes the mode after a pass, the next pass uses the new mode. *)
Theorem endColor_by_theme (reader : Reader) (w : World) (win : Window) :
  windows w !! _instanceID reader = Some win -> colorizes (_instanceID reader) w ->
  let doc := document win in
  let e : Color := if isDarkTheme doc win then (241, 245, 249) else (17, 24, 39) in
  windows (refreshReader reader w) !! _instanceID reader
    = Some (setSpans (colorizeSpans e 0 (textSpans doc)).1 win) /\
  (isDarkTheme doc win = true <->
     (exists classList, documentElement doc = Some classList /\ "theme-dark" ∈ classList)
     \/ prefersDark win = Some true) /\
  (isDarkTheme doc win = false -> isDark e) /\
  (isDarkTheme doc win = true -> isLight e) /\
  (forall doc' dark',
     let w' := step (HostDocument (_instanceID reader) doc' dark') (refreshReader reader w) in
     let win' := {| document := doc'; prefersDark := dark'; timers := timers win;
                    observing := observing win; nextHandle := nextHandle win |} in
     let e' : Color := if isDarkTheme doc' win' then (241, 245, 249) else (17, 24, 39) in
     windows (refreshReader reader w') !! _instanceID reader
       = Some (setSpans (colorizeSpans e' 0 (textSpans doc')).1 win')).
Proof.
  intros Hw C doc e.
  pose proof (refreshReader_colorizes reader w win Hw C) as P.
  split; [exact P|]. split; [apply isDarkTheme_true|].
  split; [|split].
  - intros D. unfold e. rewrite D. unfold isDark, brightness. simpl. lia.
  - intros D. unfold e. rewrite D. unfold isLight, brightness. simpl. lia.
  - intros doc' dark' w' win' e'.
    assert (windows w' !! _instanceID reader = Some win') as Hw'.
    { unfold w'. cbn [step]. rewrite P. cbn [setWindow windows].
      by rewrite lookup_insert_eq. }
    assert (colorizes (_instanceID reader) w') as C'.
    { pose proof (colorizes_refreshReader reader w C) as C1.
      unfold w'. cbn [step]. by rewrite P. }
    exact (refreshReader_colorizes reader w' win' Hw' C').
Qed.

End ThemeClaims.

(** C3 as worded fails: in light mode the end colour is (17,24,39), which
    is not a light colour. *)
Lemma endColor_light_mode_counterexample :
  ~ lightInLightMode (document exampleWindow) exampleWindow.
Proof.
  intros [L _]. specialize (L eq_refl).
  unfold isLight, brightness in L. vm_compute in L. discriminate.
Qed.

Lemma endColor_by_theme_witness :
  windows (refreshReader (num := float) exampleReader exampleWorld) !! "reader-1"
  = Some (setSpans (colorizeSpans (num := float) (17, 24, 39) 0
                      (textSpans exampleDocument)).1 exampleWindow).
Proof.
  apply (endColor_by_theme (num := float) exampleReader exampleWorld exampleWindow).
  - reflexivity.
  - exact I.
Defined.

(** ** The colorizer on the small page *)

Lemma gradient_continuity_witness :
  exists win',
    windows (refreshReader (num := float) exampleReader exampleWorld) !! "reader-1" = Some win' /\
    generatedNodes (textSpans (document win')) !! 6%nat =
      Some (CharNode
              (sampleColor (num_div (num_of_Z (Z.of_nat 6 `mod` 48)) (num_of_Z (num := float) 48))
                 (endColor exampleDocument exampleWindow))
              (js "w")).
Proof.
  destruct (gradient_continuity (num := float) exampleReader exampleWorld exampleWindow
              eq_refl I) as (win' & Hw & _ & Hk & _).
  exists win'. split; [exact Hw|]. apply Hk. reflexivity.
Defined.

(** The scenario of the specification: "Hello " and "world" in one pass give
    eleven character nodes, 'H' in the anchor colour and 'w' at offset 6. *)
Example hello_world :
  generatedNodes (pagePass (num := float) (textSpans exampleDocument) (ApplyPass BLACK))
  = [CharNode "rgb(26, 115, 232)" (js "H"); CharNode "rgb(34, 112, 224)" (js "e");
     CharNode "rgb(42, 109, 216)" (js "l"); CharNode "rgb(50, 105, 208)" (js "l");
     CharNode "rgb(58, 102, 200)" (js "o"); CharNode "rgb(66, 99, 192)" (js " ");
     CharNode "rgb(75, 96, 184)" (js "w"); CharNode "rgb(83, 93, 175)" (js "o");
     CharNode "rgb(91, 89, 167)" (js "r"); CharNode "rgb(99, 86, 159)" (js "l");
     CharNode "rgb(107, 83, 151)" (js "d")]
  /\ (colorizeSpans (num := float) BLACK 0 (textSpans exampleDocument)).2 = 11.
Proof. split; vm_compute; reflexivity. Qed.

Lemma restore_exact_witness :
  textContent <$>
    pagePass (num := float)
      (foldl pagePass (textSpans exampleDocument) [ApplyPass BLACK; RestorePass; ApplyPass WHITE]) RestorePass
  = textContent <$> textSpans exampleDocument.
Proof.
  apply (restore_exact (num := float) (textSpans exampleDocument)
           [ApplyPass BLACK; RestorePass; ApplyPass WHITE]).
  repeat constructor.
Defined.

(** C4 as worded fails: a span holding one space is colorized and moves the
    running offset by one. *)
Lemma whitespace_span_counterexample : ~ skipsBlank (num := float) BLACK 0 spaceSpan.
Proof.
  intros S. destruct (S eq_refl) as [Hoff _]. vm_compute in Hoff. discriminate.
Qed.

Lemma empty_span_skipped_witness :
  colorizeSpan (num := float) BLACK 5 (textSpan []) = ((getSourceText (textSpan [])).1, 5) /\
  (colorizeSpans (num := float) BLACK 5 ([textSpan (js "a")] ++ textSpan [] :: [textSpan (js "b")])).2
  = (colorizeSpans (num := float) BLACK 5 ([textSpan (js "a")] ++ [textSpan (js "b")])).2.
Proof.
  destruct (empty_span_skipped (num := float) BLACK 5 (textSpan [])
              [textSpan (js "a")] [textSpan (js "b")] eq_refl) as (A & _ & _ & _ & B & _).
  split; [exact A | exact B].
Defined.

(** C6 as worded fails: where the empty string is what is stored, the next
    pass captures the current text and overwrites it. *)
Lemma recapture_counterexample : ~ neverRecaptured filledSpan.
Proof. intros N. specialize (N [] eq_refl). vm_compute in N. discriminate. Qed.

Lemma original_kept_witness :
  beelineOriginal
    (foldl (spanPass (num := float))
       {| children := [TextNode (js "x")]; beelineOriginal := Some (js "abc");
          beelineApplied := None |}
       [Colorized BLACK 0; Restored; Colorized WHITE 7])
  = Some (js "abc") /\
  beelineOriginal (colorizeSpan (num := float) BLACK 0 filledSpan).1 = Some (js "abc").
Proof.
  destruct (original_kept (num := float)
              {| children := [TextNode (js "x")]; beelineOriginal := Some (js "abc");
                 beelineApplied := None |} (js "abc")
              [Colorized BLACK 0; Restored; Colorized WHITE 7] eq_refl ltac:(discriminate))
    as (_ & A & _ & _ & _ & R).
  split; [exact A|].
  exact (proj1 (proj2 (proj2 (R filledSpan BLACK 0 eq_refl)))).
Defined.

(** ** One watcher, one timer *)

Lemma wf_one_observer (w : World) (rid : string) (win : Window) :
  wf w -> windows w !! rid = Some win -> (length (observing win) <= 1)%nat.
Proof.
  intros W Hw. destruct (observing win) as [|o os] eqn:E; [simpl; lia|].
  assert (o ∈ observing win) as Ho by (rewrite E; left).
  destruct (wf_observing w W _ _ _ Hw Ho) as (A & _). rewrite E in A.
  injection A as ->. simpl. lia.
Qed.

Lemma wf_one_timer (w : World) (rid : string) (win : Window) :
  wf w -> windows w !! rid = Some win -> (length (timers win) <= 1)%nat.
Proof.
  intros W Hw. destruct (timers win) as [|tm tms] eqn:E; [simpl; lia|].
  assert (tm ∈ timers win) as Ht by (rewrite E; left).
  destruct (wf_timers w W _ _ _ Hw Ht) as (A & _). rewrite E in A.
  injection A as ->. simpl. lia.
Qed.

Section WatcherClaims.
Context {num : Type} `{JSNumber num}.

Lemma wf_installs (reader : Reader) (n : nat) (w : World) :
  wf w -> wf (Nat.iter n (observeReaderTextLayer reader) w).
Proof.
  intros W. induction n as [|n IH]; [done|].
  cbn [Nat.iter nat_rect]. by apply wf_observeReaderTextLayer.
Qed.

(** From the start of the service on, whatever happens, every window has at
    most one pending timer and at most one connected observer. *)
Lemma run_one_timer_one_observer (evs : list Event) (rid : string) (win : Window) :
  windows (run evs initialWorld) !! rid = Some win ->
  (length (timers win) <= 1)%nat /\ (length (observing win) <= 1)%nat.
Proof.
  intros Hw. pose proof (wf_run evs initialWorld wf_initialWorld) as W.
  split; [by eapply wf_one_timer | by eapply wf_one_observer].
Qed.

(** C9: where the state of a reader holds a watcher handle,
    [observeReaderTextLayer] changes nothing; and in every world the service
    reaches from its start, however many times the watcher is installed for a
    reader, every window has at most one connected observer. *)
Theorem single_watcher (w0 : World) (evs : list Event) (reader : Reader) (n : nat) :
  (forall l st o,
     stateByReader w0 !! _instanceID reader = Some l -> heap w0 !! l = Some st ->
     observer st = Some o ->
     observeReaderTextLayer reader w0 = w0) /\
  (forall rid win,
     windows (Nat.iter n (observeReaderTextLayer reader) (run evs initialWorld)) !! rid
       = Some win ->
     (length (observing win) <= 1)%nat).
Proof.
  split.
  - intros l st o. apply observeReaderTextLayer_installed.
  - intros rid win Hw. eapply wf_one_observer; [|done].
    apply wf_installs, wf_run, wf_initialWorld.
Qed.

End WatcherClaims.

(** Two installs in a row on the small page: one observer is connected, and
    the second install changes nothing. *)
Example install_twice :
  let w1 := observeReaderTextLayer exampleReader exampleWorld in
  (observing <$> windows w1 !! "reader-1")
    = Some [{| obs_id := 1; obs_state := 1; obs_reader := exampleReader |}] /\
  observeReaderTextLayer exampleReader w1 = w1.
Proof. split; vm_compute; reflexivity. Qed.

(** ** Debouncing *)

Section DebounceClaims.
Context {num : Type} `{JSNumber num}.

(** No timer of the window is due: time passes and nothing else happens. *)
Lemma advanceTo_idle (rid : string) (t : Z) (w : World) (win : Window) :
  windows w !! rid = Some win ->
  (forall tm, tm ∈ timers win -> t < timer_due tm) ->
  advanceTo rid t w = (setNow (Z.max (now w) t) w, 0%nat).
Proof.
  intros Hw Hdue. unfold advanceTo. rewrite Hw.
  assert (filter (fun tm => timer_due tm ≤ t) (timers win) = []) as ->; [|done].
  induction (timers win) as [|tm tms IH]; [done|].
  rewrite filter_cons_False.
  - apply IH. intros tm' Hin. apply Hdue. by right.
  - specialize (Hdue tm). pose proof (Hdue ltac:(left)). lia.
Qed.

(** The one pending timer of the window is due: it fires. *)
Lemma advanceTo_due (rid : string) (t : Z) (w : World) (win : Window) (tm : Timer) :
  windows w !! rid = Some win -> timers win = [tm] -> timer_due tm <= t ->
  advanceTo rid t w = (setNow (Z.max (now w) t) (fireTimer rid tm w), 1%nat).
Proof.
  intros Hw Ht Hdue. unfold advanceTo. rewrite Hw, Ht.
  rewrite filter_cons_True by done. done.
Qed.

(** What a firing timer leaves of its window: no timer is pending, the
    observers are connected as before. *)
Lemma fireTimer_window (rid : string) (tm : Timer) (w : World) (win : Window) :
  wf w -> windows w !! rid = Some win -> tm ∈ timers win ->
  exists spans,
    windows (fireTimer rid tm w) !! rid = Some (setSpans spans (setTimers [] win)).
Proof.
  intros W Hw Ht.
  destruct (wf_timers w W _ _ _ Hw Ht) as (_ & _ & _ & st & E & _).
  rewrite (fireTimer_fires rid tm w win st) by done.
  apply refreshReader_window. cbn [setState setWindow windows].
  by rewrite lookup_insert_eq.
Qed.

Lemma wf_advanceTo (rid : string) (t : Z) (w : World) : wf w -> wf (advanceTo rid t w).1.
Proof.
  intros W. destruct (windows w !! rid) as [win|] eqn:Hw.
  - destruct (timers win) as [|tm tms] eqn:Ht.
    + rewrite (advanceTo_idle rid t w win) by (try done; rewrite Ht; by intros ? ?%not_elem_of_nil).
      by apply wf_setNow.
    + assert (tm ∈ timers win) as Hin by (rewrite Ht; left).
      destruct (wf_timers w W _ _ _ Hw Hin) as (A & _).
      destruct (decide (timer_due tm <= t)) as [D|D].
      * rewrite (advanceTo_due rid t w win tm) by done.
        apply wf_setNow. by eapply wf_fireTimer.
      * rewrite (advanceTo_idle rid t w win); [by apply wf_setNow|done|].
        rewrite A. intros tm' ->%list_elem_of_singleton. lia.
  - unfold advanceTo. rewrite Hw. by apply wf_setNow.
Qed.

(** The clock reaching a time leaves the observers of the window
    connected. *)
Lemma advanceTo_observing (rid : string) (t : Z) (w : World) (win : Window) :
  wf w -> windows w !! rid = Some win ->
  exists win', windows (advanceTo rid t w).1 !! rid = Some win' /\
               observing win' = observing win.
Proof.
  intros W Hw. destruct (timers win) as [|tm tms] eqn:Ht.
  - rewrite (advanceTo_idle rid t w win) by (try done; rewrite Ht; by intros ? ?%not_elem_of_nil).
    by exists win.
  - assert (tm ∈ timers win) as Hin by (rewrite Ht; left).
    destruct (wf_timers w W _ _ _ Hw Hin) as (A & _).
    destruct (decide (timer_due tm <= t)) as [D|D].
    + rewrite (advanceTo_due rid t w win tm) by done.
      destruct (fireTimer_window rid tm w win W Hw Hin) as [spans E].
      eexists. split; [exact E|done].
    + rewrite (advanceTo_idle rid t w win); [by exists win|done|].
      rewrite A. intros tm' ->%list_elem_of_singleton. lia.
Qed.

(** What the observer callback leaves of its window on a qualifying
    batch. *)
Lemma observerCallback_window (o : Observer) (mutations : list MutationRecord) (w : World)
  (win : Window) :
  wf w -> windows w !! _instanceID (obs_reader o) = Some win -> o ∈ observing win ->
  qualifying mutations = true ->
  windows (observerCallback o mutations w) !! _instanceID (obs_reader o)
    = Some (armed o (now w) win) /\
  stateOf (_instanceID (obs_reader o)) (observerCallback o mutations w)
    = (fun st => {| enabled := enabled st; observer := observer st;
                    refreshTimer := Some (nextHandle win) |})
      <$> stateOf (_instanceID (obs_reader o)) w.
Proof.
  intros W Hw Ho Q.
  destruct (wf_observing w W _ _ _ Hw Ho) as (_ & _ & R & st & E & _).
  rewrite (observerCallback_arms o mutations w win st) by done.
  unfold stateOf. cbn [setState setWindow windows stateByReader heap].
  rewrite R. cbn [mbind option_bind]. rewrite E. by rewrite !lookup_insert_eq.
Qed.

Lemma wf_deliverBatches (rid : string) (o : Observer)
  (batches : list (Z * list MutationRecord)) (w : World) (win : Window) :
  wf w -> windows w !! rid = Some win -> o ∈ observing win ->
  wf (deliverBatches rid o batches w).1.
Proof.
  revert w win. induction batches as [|[t ms] rest IH]; intros w win W Hw Ho; [done|].
  cbn [deliverBatches].
  pose proof (wf_advanceTo rid t w W) as W1.
  destruct (advanceTo_observing rid t w win W Hw) as (win1 & Hw1 & O1).
  destruct (advanceTo rid t w) as [w1 n1]. cbn [fst] in *.
  rewrite <- O1 in Ho.
  destruct (wf_observing w1 W1 _ _ _ Hw1 Ho) as (_ & B & _).
  assert (windows w1 !! _instanceID (obs_reader o) = Some win1) as Hw1' by by rewrite B.
  pose proof (wf_observerCallback o ms w1 win1 W1 Hw1' Ho) as W2.
  assert (exists win2, windows (observerCallback o ms w1) !! rid = Some win2 /\
                       o ∈ observing win2) as (win2 & Hw2 & Ho2).
  { destruct (qualifying ms) eqn:Q.
    - destruct (observerCallback_window o ms w1 win1 W1 Hw1' Ho Q) as [E _].
      rewrite B in E. eexists. split; [exact E|done].
    - unfold observerCallback. rewrite Q. by exists win1. }
  specialize (IH _ _ W2 Hw2 Ho2).
  by destruct (deliverBatches rid o rest (observerCallback o ms w1)).
Qed.

End DebounceClaims.

Section Coalescing.
Context {num : Type} `{JSNumber num}.

Lemma lastTime_cons (t t2 : Z) (ms : list MutationRecord)
  (rest : list (Z * list MutationRecord)) :
  lastTime t ((t2, ms) :: rest) = lastTime t2 rest.
Proof.
  unfold lastTime. cbn [fmap list_fmap fst].
  change (last (t :: t2 :: rest.*1)) with (last (t2 :: rest.*1)).
  destruct (last (t2 :: rest.*1)) eqn:E; [done|].
  by apply last_None in E.
Qed.

(** A qualifying batch at time [t], with no timer due by then, arms the
    timer for [t + 120] and runs no callback. *)
Lemma deliver_one (rid : string) (o : Observer) (t : Z) (ms : list MutationRecord)
  (w : World) (win : Window) :
  wf w -> windows w !! rid = Some win -> o ∈ observing win ->
  (forall tm, tm ∈ timers win -> t < timer_due tm) -> now w <= t ->
  qualifying ms = true ->
  (advanceTo rid t w).2 = 0%nat /\
  pendingAt rid o t (observerCallback o ms (advanceTo rid t w).1).
Proof.
  intros W Hw Ho Hdue Hnow Q.
  rewrite (advanceTo_idle rid t w win Hw Hdue). cbn [fst snd]. split; [done|].
  rewrite Z.max_r by lia.
  pose proof (wf_setNow w t W) as W1.
  assert (windows (setNow t w) !! rid = Some win) as Hw1 by done.
  destruct (wf_observing _ W1 _ _ _ Hw1 Ho) as (_ & B & _ & st & Hst & _).
  rewrite <- B in Hw1.
  split; [by eapply wf_observerCallback|].
  rewrite (observerCallback_arms o ms (setNow t w) win st) by done.
  split; [done|]. eexists (armed o t win), _.
  split; [cbn [setState setWindow windows]; by rewrite B, lookup_insert_eq|].
  split; [done|]. split; reflexivity.
Qed.

(** Further qualifying batches, each less than 120 after the one before:
    no callback runs, and the timer is armed for 120 after the last. *)
Lemma deliver_rest (rid : string) (o : Observer) (rest : list (Z * list MutationRecord))
  (t : Z) (w : World) :
  pendingAt rid o t w -> withinWindow t rest ->
  (deliverBatches rid o rest w).2 = 0%nat /\
  pendingAt rid o (lastTime t rest) (deliverBatches rid o rest w).1.
Proof.
  revert t w. induction rest as [|[t2 ms] rest IH]; intros t w P Hwin; [done|].
  destruct P as (W & Hnow & win & tm & Hw & Ho & Ht & Hdue).
  destruct Hwin as (Hgap & Q & Hwin).
  cbn [deliverBatches]. rewrite lastTime_cons.
  destruct (deliver_one rid o t2 ms w win W Hw Ho) as [N0 P2]; [|lia|done|].
  { rewrite Ht. intros tm' ->%list_elem_of_singleton. lia. }
  destruct (advanceTo rid t2 w) as [w1 n1]. cbn [fst snd] in *. subst n1.
  destruct (IH t2 _ P2 Hwin) as [N2 P3].
  destruct (deliverBatches rid o rest (observerCallback o ms w1)) as [w2 n2].
  cbn [fst snd] in *. by subst n2.
Qed.

End Coalescing.

Section DebounceTheorem.
Context {num : Type} `{JSNumber num}.

(** C8: let qualifying batches reach the observer of a reader's window, the
    first when no timer is pending and each next one less than 120 after the
    one before.  Each batch cancels the pending timer and arms a new one for
    120 later, so that no timer callback runs while they arrive and at the
    end exactly one timer is pending, due 120 after the last batch, its
    handle held by the state.  Before that time no callback runs; from that
    time on exactly one runs: the timer is gone and the handle cleared, and
    then [refreshReader] recomputes.  At every point in between the window
    has at most one pending timer. *)
Theorem debounce_coalesces (w : World) (rid : string) (o : Observer) (win : Window)
  (t1 : Z) (ms1 : list MutationRecord) (rest : list (Z * list MutationRecord)) (T : Z) :
  wf w -> windows w !! rid = Some win -> o ∈ observing win -> timers win = [] ->
  now w <= t1 -> qualifying ms1 = true -> withinWindow t1 rest ->
  let tN := lastTime t1 rest in
  let w1 := (deliverBatches rid o ((t1, ms1) :: rest) w).1 in
  (deliverBatches rid o ((t1, ms1) :: rest) w).2 = 0%nat /\
  (exists win1 tm st,
     windows w1 !! rid = Some win1 /\ timers win1 = [tm] /\ timer_due tm = tN + 120 /\
     stateOf rid w1 = Some st /\ refreshTimer st = Some (timer_id tm)) /\
  (T < tN + 120 -> (advanceTo rid T w1).2 = 0%nat) /\
  (tN + 120 <= T ->
     (advanceTo rid T w1).2 = 1%nat /\
     exists reader wc winc stc,
       _instanceID reader = rid /\
       (advanceTo rid T w1).1 = setNow (Z.max (now w1) T) (refreshReader reader wc) /\
       windows wc !! rid = Some winc /\ timers winc = [] /\
       stateOf rid wc = Some stc /\ refreshTimer stc = None) /\
  (forall k wink,
     windows (deliverBatches rid o (take k ((t1, ms1) :: rest)) w).1 !! rid = Some wink ->
     (length (timers wink) <= 1)%nat).
Proof.
  intros W Hw Ho Ht Hnow Q Hwin tN w1.
  destruct (deliver_one rid o t1 ms1 w win W Hw Ho) as [N0 P1]; [|done|done|].
  { rewrite Ht. by intros ? ?%not_elem_of_nil. }
  destruct (deliver_rest rid o rest t1 _ P1 Hwin) as [N1 P2].
  assert ((deliverBatches rid o ((t1, ms1) :: rest) w).2 = 0%nat /\
          pendingAt rid o tN w1) as [N P].
  { unfold w1, tN. cbn [deliverBatches].
    destruct (advanceTo rid t1 w) as [wa na]. cbn [fst snd] in *. subst na.
    destruct (deliverBatches rid o rest (observerCallback o ms1 wa)) as [wb nb].
    cbn [fst snd] in *. by subst nb. }
  clearbody w1 tN.
  destruct P as (W1 & Hnow1 & win1 & tm & Hw1 & Ho1 & Ht1 & Hdue).
  assert (tm ∈ timers win1) as Hin by (rewrite Ht1; left).
  destruct (wf_timers w1 W1 _ _ _ Hw1 Hin) as (_ & B & R & st & E & Hh).
  split; [done|]. split; [|split; [|split]].
  - exists win1, tm, st. repeat (split; [done|]). split; [|done].
    by apply (stateOf_Some rid w1 (timer_state tm)).
  - intros HT. rewrite (advanceTo_idle rid T w1 win1); [done|done|].
    rewrite Ht1. intros tm' ->%list_elem_of_singleton. lia.
  - intros HT. rewrite (advanceTo_due rid T w1 win1 tm) by (try done; lia).
    cbn [fst snd]. split; [done|].
    rewrite (fireTimer_fires rid tm w1 win1 st) by done.
    eexists (timer_reader tm), _, (setTimers [] win1), _.
    split; [done|]. split; [reflexivity|].
    split; [cbn [setState setWindow windows]; by rewrite lookup_insert_eq|].
    split; [done|]. split.
    + unfold stateOf. cbn [setState setWindow stateByReader heap]. rewrite R.
      cbn [mbind option_bind]. by rewrite lookup_insert_eq.
    + reflexivity.
  - intros k wink Hk. eapply wf_one_timer; [|exact Hk].
    by eapply wf_deliverBatches.
Qed.

End DebounceTheorem.

Lemma wf_watchedWorld : wf watchedWorld.
Proof. apply wf_run, wf_initialWorld. Qed.

Lemma debounce_coalesces_witness :
  let w1 := (deliverBatches (num := float) "reader-1" exampleObserver
               [(10, textLayerBatch); (50, textLayerBatch); (100, textLayerBatch)]
               watchedWorld).1 in
  (deliverBatches (num := float) "reader-1" exampleObserver
     [(10, textLayerBatch); (50, textLayerBatch); (100, textLayerBatch)] watchedWorld).2
    = 0%nat /\
  ((fun win => timer_due <$> timers win) <$> windows w1 !! "reader-1") = Some [220] /\
  (advanceTo (num := float) "reader-1" 219 w1).2 = 0%nat /\
  (advanceTo (num := float) "reader-1" 220 w1).2 = 1%nat.
Proof.
  intros w1.
  assert (windows watchedWorld !! "reader-1" = Some watchedWindow) as Hw
    by (vm_compute; reflexivity).
  assert (exampleObserver ∈ observing watchedWindow) as Ho by (vm_compute; left).
  assert (withinWindow 10 [(50, textLayerBatch); (100, textLayerBatch)]) as Hwin
    by (simpl; repeat split; lia).
  destruct (debounce_coalesces (num := float) watchedWorld "reader-1" exampleObserver
              watchedWindow 10 textLayerBatch
              [(50, textLayerBatch); (100, textLayerBatch)] 219
              wf_watchedWorld Hw Ho eq_refl ltac:(vm_compute; discriminate) eq_refl Hwin)
    as (N & _ & Hidle & _).
  split; [exact N|]. split; [vm_compute; reflexivity|].
  split; [apply Hidle; vm_compute; reflexivity|vm_compute; reflexivity].
Defined.

(** ** Toggling *)

Section ToggleClaims.
Context {num : Type} `{JSNumber num}.

(** C5, amended: a click on the toggle of a reader flips [enabled] and makes
    the pass at once, leaving the pending debounce timer, the timer handle of
    the state and the connected observers as they are.  When that timer
    fires after a click that disabled the reader, its callback makes a
    restore pass: the spans stay as the click restored them, none of them
    colorized, and no timer is pending any more. *)
Theorem toggle_keeps_timer (rid : string) (w : World) (b : Button) (win : Window)
  (st : ReaderState) :
  wf w -> buttons w !! rid = Some b -> windows w !! rid = Some win ->
  stateOf rid w = Some st ->
  let w1 := clickHandler rid w in
  exists win1 st1,
    windows w1 !! rid = Some win1 /\ stateOf rid w1 = Some st1 /\
    timers win1 = timers win /\ observing win1 = observing win /\
    enabled st1 = negb (enabled st) /\ refreshTimer st1 = refreshTimer st /\
    textSpans (document win1)
      = pagePass (textSpans (document win))
          (if enabled st1 then ApplyPass (endColor (document win) win) else RestorePass) /\
    (forall tm, tm ∈ timers win -> enabled st1 = false ->
       exists win2,
         windows (fireTimer rid tm w1) !! rid = Some win2 /\
         timers win2 = [] /\
         textSpans (document win2) = textSpans (document win1) /\
         Forall (fun span => ~ isColorized span) (textSpans (document win2))).
Proof.
  intros W Hb Hw Hst w1.
  destruct (wf_buttons w W _ _ Hb) as [Bid R].
  assert (heap w !! click_state b = Some st) as E.
  { unfold stateOf in Hst. by rewrite R in Hst. }
  pose proof (wf_clickHandler rid w W) as W1. fold w1 in W1.
  set (st1 := {| enabled := negb (enabled st); observer := observer st;
                 refreshTimer := refreshTimer st |}).
  set (win1 := setSpans (pagePass (textSpans (document win))
                 (if enabled st1 then ApplyPass (endColor (document win) win) else RestorePass)) win).
  assert (w1 = setWindow rid win1
                 (setButton rid (updateButtonState (enabled st1) b)
                    (setState (click_state b) st1 w))) as Hw1.
  { unfold w1, clickHandler. rewrite Hb, E. fold st1.
    rewrite (refreshReader_known (click_reader b) _ win (click_state b) st1);
      rewrite ?Bid; try done.
    cbn [setButton setState heap]. by rewrite lookup_insert_eq. }
  assert (windows w1 !! rid = Some win1) as Hwin1.
  { rewrite Hw1. cbn [setWindow windows]. by rewrite lookup_insert_eq. }
  assert (stateByReader w1 !! rid = Some (click_state b)) as R1 by by rewrite Hw1.
  assert (heap w1 !! click_state b = Some st1) as E1.
  { rewrite Hw1. cbn [setWindow setButton setState heap]. by rewrite lookup_insert_eq. }
  exists win1, st1. split; [done|]. split; [by apply (stateOf_Some rid w1 (click_state b))|].
  do 5 (split; [done|]).
  intros tm Ht Hoff.
  assert (tm ∈ timers win1) as Ht1 by done.
  destruct (wf_timers w1 W1 _ _ _ Hwin1 Ht1) as (_ & B & Rt & _).
  assert (timer_state tm = click_state b) as Hl by congruence.
  rewrite (fireTimer_fires rid tm w1 win1 st1) by (try done; by rewrite Hl).
  rewrite Hl.
  set (st2 := {| enabled := enabled st1; observer := observer st1; refreshTimer := None |}).
  rewrite (refreshReader_known (timer_reader tm) _ (setTimers [] win1) (click_state b) st2);
    rewrite ?B; try done.
  2:{ cbn [setState setWindow windows]. by rewrite lookup_insert_eq. }
  2:{ cbn [setState setWindow heap]. by rewrite lookup_insert_eq. }
  eexists. split; [cbn [setWindow windows]; by rewrite lookup_insert_eq|].
  split; [done|].
  assert (textSpans (document win1) = restoreSpan <$> textSpans (document win)) as Hs.
  { unfold win1. cbn [setSpans document textSpans]. by rewrite Hoff. }
  cbn [st2 enabled]. rewrite Hoff.
  cbn [setSpans setTimers document textSpans pagePass]. rewrite Hs. split.
  - rewrite <- list_fmap_compose. apply list_fmap_ext. intros i span _.
    apply restoreSpan_idem.
  - apply Forall_fmap, Forall_fmap, Forall_true. intros span. apply restoreSpan_not_colorized.
Qed.

End ToggleClaims.

(** C5 as worded fails: a click on the toggle leaves the pending timer
    pending. *)
Lemma toggle_counterexample : ~ toggleCancelsTimer (num := float) "reader-1" pendingWorld.
Proof.
  intros C.
  assert (windows (clickHandler (num := float) "reader-1" pendingWorld) !! "reader-1"
          = Some toggledWindow) as Hw by (vm_compute; reflexivity).
  pose proof (C toggledWindow Hw) as X. vm_compute in X. discriminate.
Qed.

Lemma wf_pendingWorld : wf pendingWorld.
Proof. apply wf_run, wf_watchedWorld. Qed.

Lemma toggle_keeps_timer_witness :
  exists win1 st1,
    windows (clickHandler (num := float) "reader-1" pendingWorld) !! "reader-1" = Some win1 /\
    stateOf "reader-1" (clickHandler (num := float) "reader-1" pendingWorld) = Some st1 /\
    timers win1 = timers pendingWindow /\ observing win1 = observing pendingWindow /\
    enabled st1 = negb (enabled pendingState) /\
    refreshTimer st1 = refreshTimer pendingState.
Proof.
  destruct (toggle_keeps_timer (num := float) "reader-1" pendingWorld pendingButton
              pendingWindow pendingState wf_pendingWorld
              ltac:(vm_compute; reflexivity) ltac:(vm_compute; reflexivity)
              ltac:(vm_compute; reflexivity))
    as (win1 & st1 & A & B & C & D & E & F & _).
  exists win1, st1. repeat (split; [assumption|]). assumption.
Defined.

(** ** Teardown *)

Lemma cleaner_refl (win : Window) : cleaner win win.
Proof. repeat split; by left. Qed.

Lemma cleaner_clean (a b c : Window) : cleaner a b -> clean b c -> clean a c.
Proof.
  intros (_ & _ & S) (T & O & S'). split; [done|]. split; [done|].
  rewrite S'. destruct S as [-> | ->]; [done|].
  rewrite <- list_fmap_compose. apply list_fmap_ext. intros i span _. apply restoreSpan_idem.
Qed.

Lemma clean_cleaner (a b c : Window) : clean a b -> cleaner b c -> clean a c.
Proof.
  intros (T & O & S) (T' & O' & S'). split; [|split].
  - destruct T' as [-> | ->]; done.
  - destruct O' as [-> | ->]; done.
  - destruct S' as [-> | ->]; [done|]. rewrite S.
    rewrite <- list_fmap_compose. apply list_fmap_ext. intros i span _. apply restoreSpan_idem.
Qed.

Lemma clean_is_cleaner (a b : Window) : clean a b -> cleaner a b.
Proof. intros (T & O & S). repeat split; by right. Qed.

Lemma cleaner_trans (a b c : Window) : cleaner a b -> cleaner b c -> cleaner a c.
Proof.
  intros (T & O & S) (T' & O' & S'). split; [|split].
  - destruct T' as [-> | ->]; [done|by right].
  - destruct O' as [-> | ->]; [done|by right].
  - destruct S' as [-> | ->]; [done|]. right. destruct S as [-> | ->]; [done|].
    rewrite <- list_fmap_compose. apply list_fmap_ext. intros i span _. apply restoreSpan_idem.
Qed.

Lemma tidied_refl (w : World) : tidied w w.
Proof.
  repeat split. intros rid. destruct (windows w !! rid); [apply cleaner_refl|done].
Qed.

Lemma tidied_trans (a b c : World) : tidied a b -> tidied b c -> tidied a c.
Proof.
  intros (R & E & B & Wn) (R' & E' & B' & Wn').
  split; [congruence|]. split; [congruence|]. split; [congruence|].
  intros rid. specialize (Wn rid). specialize (Wn' rid).
  destruct (windows a !! rid), (windows b !! rid), (windows c !! rid); try done.
  by eapply cleaner_trans.
Qed.

(** Tidying keeps a world well formed. *)
Lemma wf_tidied (w w' : World) : wf w -> tidied w w' -> wf w'.
Proof.
  intros W (R & E & B & Wn). split; rewrite ?R, ?E, ?B;
    [apply (wf_heap w W) | apply (wf_inj w W) | | apply (wf_owner w W) |
    | apply (wf_buttons w W)].
  - intros rid win' o Hw' Ho. specialize (Wn rid). rewrite Hw' in Wn.
    destruct (windows w !! rid) as [win|] eqn:Hw; [|done].
    destruct Wn as (_ & [O|O] & _); rewrite O in *; [|by apply not_elem_of_nil in Ho].
    by apply (wf_observing w W).
  - intros rid win' tm Hw' Ht. specialize (Wn rid). rewrite Hw' in Wn.
    destruct (windows w !! rid) as [win|] eqn:Hw; [|done].
    destruct Wn as ([T|T] & _); rewrite T in *; [|by apply not_elem_of_nil in Ht].
    by apply (wf_timers w W).
Qed.

(** Replacing one window by a cleaner one tidies the world. *)
Lemma tidied_setWindow (w : World) (rid : string) (win win' : Window) :
  windows w !! rid = Some win -> cleaner win win' -> tidied w (setWindow rid win' w).
Proof.
  intros Hw C. repeat split. intros rid'. cbn [setWindow windows].
  destruct (decide (rid = rid')) as [<-|N].
  - by rewrite lookup_insert_eq, Hw.
  - rewrite lookup_insert_ne by done. destruct (windows w !! rid'); [apply cleaner_refl|done].
Qed.

Lemma wf_clear_timers (w : World) (rid : string) (l : loc) (st : ReaderState) (win : Window) :
  wf w -> stateByReader w !! rid = Some l -> heap w !! l = Some st ->
  windows w !! rid = Some win ->
  match refreshTimer st with
  | Some id => timers (clearTimeout id win) = []
  | None => timers win = []
  end.
Proof.
  intros W R E Hw. destruct (timers win) as [|tm tms] eqn:Ht.
  - destruct (refreshTimer st); [|done]. unfold clearTimeout. by rewrite Ht.
  - assert (tm ∈ timers win) as Hin by (rewrite Ht; left).
    destruct (wf_timer_handle w _ win _ st tm W Hw R E Hin) as [A B].
    rewrite B. unfold clearTimeout. rewrite A. cbn [setTimers timers].
    by rewrite filter_cons_False by (intros X; by apply X).
Qed.

Lemma wf_clear_observers (w : World) (rid : string) (l : loc) (st : ReaderState)
  (win : Window) :
  wf w -> stateByReader w !! rid = Some l -> heap w !! l = Some st ->
  windows w !! rid = Some win ->
  match observer st with
  | Some o => filter (fun o' => obs_id o' ≠ obs_id o) (observing win) = []
  | None => observing win = []
  end.
Proof.
  intros W R E Hw. destruct (observing win) as [|o' os] eqn:Ho.
  - by destruct (observer st).
  - assert (o' ∈ observing win) as Hin by (rewrite Ho; left).
    destruct (wf_observing w W _ _ _ Hw Hin) as (A & _ & R' & st' & E' & O').
    assert (st' = st) as -> by congruence. rewrite O'.
    rewrite Ho in A. rewrite A.
    by rewrite filter_cons_False by (intros X; by apply X).
Qed.

(** [clearReader] on a reader the registry knows and whose window is
    there: the window is torn down, and nothing else changes. *)
Lemma clearReader_known (reader : Reader) (w : World) (l : loc) (win : Window) :
  wf w -> stateByReader w !! _instanceID reader = Some l ->
  windows w !! _instanceID reader = Some win ->
  exists win',
    clearReader reader w = setWindow (_instanceID reader) win' w /\ clean win win'.
Proof.
  intros W R Hw. destruct (wf_heap w W _ _ R) as [st E].
  unfold clearReader. rewrite R, E, Hw.
  pose proof (wf_clear_timers w _ l st win W R E Hw) as HT.
  pose proof (wf_clear_observers w _ l st win W R E Hw) as HO.
  set (w1 := match refreshTimer st with
             | Some id => setWindow (_instanceID reader) (clearTimeout id win) w
             | None => w
             end).
  set (win1 := match refreshTimer st with
               | Some id => clearTimeout id win
               | None => win
               end).
  assert (windows w1 = <[_instanceID reader := win1]> (windows w)) as Hw1.
  { unfold w1, win1. destruct (refreshTimer st); [done|]. by rewrite insert_id. }
  assert (timers win1 = [] /\ observing win1 = observing win /\
          document win1 = document win) as (T1 & O1 & D1).
  { unfold win1. by destruct (refreshTimer st). }
  set (w2 := match observer st with
             | Some o => disconnect o w1
             | None => w1
             end).
  set (win2 := match observer st with
               | Some o => setObserving (filter (fun o' => obs_id o' ≠ obs_id o) (observing win1)) win1
               | None => win1
               end).
  assert (windows w2 = <[_instanceID reader := win2]> (windows w)) as Hw2.
  { unfold w2, win2. destruct (observer st) as [o|] eqn:O.
    - pose proof (wf_owner w W _ _ _ _ R E O) as Own.
      unfold disconnect. rewrite Own, Hw1, lookup_insert_eq.
      cbn [setWindow windows]. by rewrite Hw1, insert_insert_eq.
    - done. }
  assert (timers win2 = [] /\ observing win2 = [] /\ document win2 = document win)
    as (T2 & O2 & D2).
  { unfold win2. rewrite O1. destruct (observer st); [|by rewrite <- O1 in HO].
    cbn [setObserving timers observing document]. by rewrite HO. }
  rewrite Hw2, lookup_insert_eq.
  exists (setSpans (restoreSpan <$> textSpans (document win2)) win2). split.
  - assert (heap w2 = heap w /\ stateByReader w2 = stateByReader w /\ buttons w2 = buttons w
            /\ now w2 = now w /\ listening w2 = listening w) as (E2 & R2 & B2 & N2 & L2).
    { unfold w2, w1, disconnect.
      destruct (observer st) as [o|]; destruct (refreshTimer st);
        cbn [setWindow windows]; rewrite ?lookup_insert_eq;
        repeat match goal with
               | |- context [match ?m !! ?k with _ => _ end] => destruct (m !! k)
               end; done. }
    unfold setWindow. rewrite E2, R2, B2, N2, L2, Hw2. by rewrite insert_insert_eq.
  - split; [done|]. split; [done|]. cbn [setSpans document textSpans]. by rewrite D2.
Qed.

Lemma clearReader_absent (reader : Reader) (w : World) :
  wf w ->
  stateByReader w !! _instanceID reader = None \/ windows w !! _instanceID reader = None ->
  clearReader reader w = w.
Proof.
  intros W [R|Hw]; unfold clearReader.
  - by rewrite R.
  - destruct (stateByReader w !! _instanceID reader) as [l|] eqn:R; [|done].
    destruct (heap w !! l) as [st|] eqn:E; [|done].
    rewrite Hw.
    destruct (observer st) as [o|] eqn:O.
    + pose proof (wf_owner w W _ _ _ _ R E O) as Own.
      unfold disconnect. destruct (refreshTimer st); by rewrite Own, Hw, ?Hw.
    + destruct (refreshTimer st); by rewrite Hw.
Qed.

Lemma clearReader_tidied (reader : Reader) (w : World) :
  wf w -> tidied w (clearReader reader w).
Proof.
  intros W.
  destruct (stateByReader w !! _instanceID reader) as [l|] eqn:R;
    [|rewrite clearReader_absent by auto; apply tidied_refl].
  destruct (windows w !! _instanceID reader) as [win|] eqn:Hw;
    [|rewrite clearReader_absent by auto; apply tidied_refl].
  destruct (clearReader_known reader w l win W R Hw) as (win' & -> & C).
  apply (tidied_setWindow w _ win); [done|]. by apply clean_is_cleaner.
Qed.

(** The loop of [stop]: every reader of the list that the registry knows
    and whose window is there has its window torn down, and the world is
    otherwise as it was. *)
Lemma stop_loop (readers : list Reader) (w : World) :
  wf w ->
  let w' := foldl (fun acc reader => clearReader reader acc) w readers in
  tidied w w' /\
  forall reader win,
    reader ∈ readers -> is_Some (stateByReader w !! _instanceID reader) ->
    windows w !! _instanceID reader = Some win ->
    exists win', windows w' !! _instanceID reader = Some win' /\ clean win win'.
Proof.
  revert w. induction readers as [|r rs IH]; intros w W w'.
  - split; [apply tidied_refl|]. by intros ? ? ?%not_elem_of_nil.
  - unfold w'. cbn [foldl].
    pose proof (clearReader_tidied r w W) as T1.
    pose proof (wf_tidied _ _ W T1) as W1.
    destruct (IH _ W1) as [T2 Hrs]. split; [by eapply tidied_trans|].
    intros reader win Hin [l R] Hw.
    destruct T1 as (R1 & E1 & B1 & Wn1). destruct T2 as (R2 & E2 & B2 & Wn2).
    apply elem_of_cons in Hin as [->|Hin].
    + destruct (clearReader_known r w l win W R Hw) as (win1 & Eq & C).
      specialize (Wn2 (_instanceID r)).
      rewrite Eq in Wn2. cbn [setWindow windows] in Wn2. rewrite lookup_insert_eq in Wn2.
      rewrite Eq.
      destruct (windows _ !! _instanceID r) as [win2|]; [|done].
      exists win2. split; [done|]. by eapply clean_cleaner.
    + specialize (Wn1 (_instanceID reader)). rewrite Hw in Wn1.
      destruct (windows (clearReader r w) !! _instanceID reader) as [win1|] eqn:Hw1; [|done].
      destruct (Hrs reader win1 Hin) as (win2 & Hw2 & C); [by rewrite R1, R|done|].
      exists win2. split; [done|]. by eapply cleaner_clean.
Qed.

Lemma tornDown_idem (win : Window) : tornDown (tornDown win) = tornDown win.
Proof.
  unfold tornDown. cbn. do 2 f_equal.
  rewrite <- list_fmap_compose. apply list_fmap_ext. intros i span _. apply restoreSpan_idem.
Qed.

(** [clearReader], exactly: for a reader the registry knows and whose window
    is there, that window is torn down; otherwise nothing happens. *)
Lemma clearReader_exact (reader : Reader) (w : World) :
  wf w ->
  (clearReader reader w = w /\
   (stateByReader w !! _instanceID reader = None \/ windows w !! _instanceID reader = None)) \/
  (exists l win,
     stateByReader w !! _instanceID reader = Some l /\
     windows w !! _instanceID reader = Some win /\
     clearReader reader w = setWindow (_instanceID reader) (tornDown win) w).
Proof.
  intros W.
  destruct (stateByReader w !! _instanceID reader) as [l|] eqn:R;
    [|left; split; [apply clearReader_absent|]; auto].
  destruct (windows w !! _instanceID reader) as [win|] eqn:Hw;
    [|left; split; [apply clearReader_absent|]; auto].
  right. exists l, win. split; [done|]. split; [done|].
  destruct (wf_heap w W _ _ R) as [st E].
  pose proof (wf_clear_timers w _ l st win W R E Hw) as HT.
  pose proof (wf_clear_observers w _ l st win W R E Hw) as HO.
  unfold clearReader. rewrite R, E, Hw.
  destruct (refreshTimer st) as [id|] eqn:T; destruct (observer st) as [o|] eqn:O.
  - pose proof (wf_owner w W _ _ _ _ R E O) as Own.
    unfold disconnect. rewrite Own. cbn [setWindow windows]. rewrite lookup_insert_eq.
    cbn [setWindow windows]. rewrite lookup_insert_eq.
    unfold setWindow. cbn [stateByReader heap windows buttons now listening].
    rewrite !insert_insert_eq. do 2 f_equal.
    unfold tornDown, setSpans, setObserving. cbn.
    unfold clearTimeout in HT. cbn [setTimers timers] in HT. by rewrite HT, HO.
  - cbn [setWindow windows]. rewrite lookup_insert_eq.
    unfold setWindow. cbn [stateByReader heap windows buttons now listening].
    rewrite !insert_insert_eq. do 2 f_equal.
    unfold tornDown, setSpans. cbn.
    unfold clearTimeout in HT. cbn [setTimers timers] in HT. by rewrite HT, HO.
  - pose proof (wf_owner w W _ _ _ _ R E O) as Own.
    unfold disconnect. rewrite Own, Hw. cbn [setWindow windows]. rewrite lookup_insert_eq.
    unfold setWindow. cbn [stateByReader heap windows buttons now listening].
    rewrite !insert_insert_eq. do 2 f_equal.
    unfold tornDown, setSpans, setObserving. cbn. by rewrite HT, HO.
  - rewrite Hw. do 2 f_equal. unfold tornDown, setSpans. by rewrite HT, HO.
Qed.

(** The loop of [stop], exactly. *)
Lemma stop_loop_exact (readers : list Reader) (w : World) :
  wf w ->
  let w' := foldl (fun acc reader => clearReader reader acc) w readers in
  stateByReader w' = stateByReader w /\ heap w' = heap w /\ buttons w' = buttons w /\
  now w' = now w /\ listening w' = listening w /\
  forall rid,
    (rid ∈ _instanceID <$> readers -> is_Some (stateByReader w !! rid) ->
     windows w' !! rid = tornDown <$> windows w !! rid) /\
    (rid ∉ _instanceID <$> readers \/ stateByReader w !! rid = None ->
     windows w' !! rid = windows w !! rid).
Proof.
  revert w. induction readers as [|r rs IH]; intros w W w'.
  { repeat (split; [done|]). intros rid. split; [|done]. by intros ?%not_elem_of_nil. }
  unfold w'. cbn [foldl].
  pose proof (wf_tidied _ _ W (clearReader_tidied r w W)) as W1.
  destruct (IH _ W1) as (R2 & E2 & B2 & N2 & L2 & Wn).
  destruct (clearReader_exact r w W) as [[Eq Abs]|(l & win & R & Hw & Eq)].
  - rewrite Eq in *. repeat (split; [done|]). intros rid.
    destruct (Wn rid) as [In Out]. split.
    + intros Hin Known. cbn [fmap list_fmap] in Hin.
      destruct (decide (rid ∈ _instanceID <$> rs)) as [Hrs|Hrs]; [by apply In|].
      apply elem_of_cons in Hin as [->|Hin]; [|done].
      rewrite Out by by left.
      destruct Abs as [Abs|Abs]; [rewrite Abs in Known; by destruct Known|by rewrite Abs].
    + intros [Hout|Unknown]; apply Out; [|by right].
      left. cbn [fmap list_fmap] in Hout. by apply not_elem_of_cons in Hout as [_ ?].
  - rewrite Eq in *. cbn [setWindow stateByReader heap buttons now listening windows] in *.
    repeat (split; [done|]). intros rid.
    destruct (Wn rid) as [In Out]. split.
    + intros Hin Known. cbn [fmap list_fmap] in Hin.
      destruct (decide (rid = _instanceID r)) as [->|Ne].
      * rewrite Hw. cbn [fmap option_fmap option_map].
        destruct (decide (_instanceID r ∈ _instanceID <$> rs)) as [Hrs|Hrs].
        -- rewrite In by done. rewrite lookup_insert_eq. cbn. by rewrite tornDown_idem.
        -- rewrite Out by by left. by rewrite lookup_insert_eq.
      * apply elem_of_cons in Hin as [->|Hin]; [done|].
        rewrite In by done. by rewrite lookup_insert_ne.
    + intros Hout.
      assert (rid <> _instanceID r) as Ne.
      { destruct Hout as [Hout|Unknown]; [|congruence].
        cbn [fmap list_fmap] in Hout. by apply not_elem_of_cons in Hout as [? _]. }
      rewrite Out; [by rewrite lookup_insert_ne|].
      destruct Hout as [Hout|Unknown]; [left|by right].
      cbn [fmap list_fmap] in Hout. by apply not_elem_of_cons in Hout as [_ ?].
Qed.

(** What [restoreSpan] leaves of a span marked colorized: one text node
    holding the source text, or no child where that text is empty. *)
Lemma restoreSpan_colorized (span : Span) :
  isColorized span ->
  restoreSpan span =
    {| children := if truthy (sourceOf span) then [TextNode (sourceOf span)] else [];
       beelineOriginal := beelineOriginal span; beelineApplied := None |}.
Proof.
  intros M. unfold restoreSpan. rewrite bool_decide_eq_true_2 by done.
  rewrite sourceOf_unfold. cbn [set_textContent children]. unfold js_or.
  destruct (beelineOriginal span) as [o|]; [|done]. by destruct (truthy o).
Qed.

(** C10, amended: [stop], in a world the service keeps and given the host's
    list of readers, unregisters the listener and empties the registry.
    Every reader of the list that the registry knew and whose window is
    there is left with no observer connected and no timer pending in its
    window and with every span of its text layer restored: a span that was
    marked colorized holds its source text as one text node and is not
    marked any more, and a span that was not marked is as it was.  A reader
    without a window has none afterwards either.  The window of a reader the
    host does not list is as it was, whether the registry knew the reader
    or not. *)
Theorem stop_restores (w : World) (readers : list Reader) :
  wf w ->
  let w' := stop readers w in
  stateByReader w' = ∅ /\ listening w' = false /\
  (forall reader win,
     reader ∈ readers -> is_Some (stateByReader w !! _instanceID reader) ->
     windows w !! _instanceID reader = Some win ->
     exists win',
       windows w' !! _instanceID reader = Some win' /\
       observing win' = [] /\ timers win' = [] /\
       textSpans (document win') = restoreSpan <$> textSpans (document win) /\
       Forall (fun span => ~ isColorized span) (textSpans (document win')) /\
       (forall i span, textSpans (document win) !! i = Some span ->
          (isColorized span ->
             textSpans (document win') !! i =
               Some {| children := if truthy (sourceOf span)
                                   then [TextNode (sourceOf span)] else [];
                       beelineOriginal := beelineOriginal span;
                       beelineApplied := None |}) /\
          (~ isColorized span -> textSpans (document win') !! i = Some span))) /\
  (forall reader,
     windows w !! _instanceID reader = None -> windows w' !! _instanceID reader = None) /\
  (forall rid, rid ∉ _instanceID <$> readers -> windows w' !! rid = windows w !! rid).
Proof.
  intros W w'.
  set (w0 := {| stateByReader := stateByReader w; heap := heap w; windows := windows w;
                buttons := buttons w; now := now w; listening := false |}).
  assert (wf w0) as W0 by (split; apply W).
  destruct (stop_loop_exact readers w0 W0) as (_ & _ & _ & _ & L & Wn).
  split; [done|]. split; [exact L|]. split; [|split].
  - intros reader win Hin R Hw.
    destruct (Wn (_instanceID reader)) as [In _].
    assert (_instanceID reader ∈ _instanceID <$> readers) as Hid
      by (apply list_elem_of_fmap; by exists reader).
    specialize (In Hid R). change (windows w0) with (windows w) in In. rewrite Hw in In.
    exists (tornDown win). split; [exact In|]. split; [done|]. split; [done|].
    split; [done|]. split.
    + cbn [tornDown document textSpans]. apply Forall_fmap, Forall_true.
      intros span. apply restoreSpan_not_colorized.
    + intros i span Hi. cbn [tornDown document textSpans].
      rewrite list_lookup_fmap, Hi. cbn [fmap option_fmap option_map]. split; intros M.
      * by rewrite restoreSpan_colorized.
      * by rewrite restoreSpan_unmarked.
  - intros reader Hw. destruct (Wn (_instanceID reader)) as [In Out].
    change (windows w0) with (windows w) in In, Out.
    destruct (decide (_instanceID reader ∈ _instanceID <$> readers)) as [Hid|Hid].
    + destruct (stateByReader w !! _instanceID reader) as [l|] eqn:R.
      * unfold w', stop. fold w0. cbn [windows]. rewrite In; [by rewrite Hw|done|].
        change (stateByReader w0) with (stateByReader w). by rewrite R.
      * unfold w', stop. fold w0. cbn [windows]. rewrite Out; [done|by right].
    + unfold w', stop. fold w0. cbn [windows]. rewrite Out; [done|by left].
  - intros rid Hid. destruct (Wn rid) as [_ Out]. apply Out. by left.
Qed.

Lemma stop_restores_witness :
  let w' := stop [exampleReader] pendingWorld in
  stateByReader w' = ∅ /\ listening w' = false /\
  exists win',
    windows w' !! "reader-1" = Some win' /\
    observing win' = [] /\ timers win' = [] /\
    textSpans (document win') = restoreSpan <$> textSpans (document pendingWindow) /\
    Forall (fun span => ~ isColorized span) (textSpans (document win')).
Proof.
  intros w'.
  destruct (stop_restores pendingWorld [exampleReader] wf_pendingWorld) as (A & B & C & _).
  split; [exact A|]. split; [exact B|].
  destruct (C exampleReader pendingWindow) as (win' & H1 & H2 & H3 & H4 & H5 & _).
  - left.
  - vm_compute. eexists. reflexivity.
  - vm_compute. reflexivity.
  - exists win'. split; [exact H1|]. split; [exact H2|]. split; [exact H3|].
    split; [exact H4|exact H5].
Defined.

(** C10 as worded fails: where the host lists only another reader, [stop]
    empties the registry and leaves the tracked reader of the small page with
    its observer connected, its timer pending and its spans colorized. *)
Lemma stop_unlisted_counterexample :
  ~ stopReleasesTracked [otherReader] pendingWorld /\
  stateByReader (stop [otherReader] pendingWorld) = ∅ /\
  windows (stop [otherReader] pendingWorld) !! "reader-1" = Some pendingWindow /\
  length (observing pendingWindow) = 1%nat /\ length (timers pendingWindow) = 1%nat /\
  Forall isColorized (textSpans (document pendingWindow)).
Proof.
  assert (windows (stop [otherReader] pendingWorld) !! "reader-1" = Some pendingWindow) as Hw
    by (vm_compute; reflexivity).
  split; [|split; [done|split; [exact Hw|]]].
  - intros Hrel. destruct (Hrel "reader-1" pendingWindow) as (win' & Hw' & O & _).
    + vm_compute. eexists. reflexivity.
    + vm_compute. reflexivity.
    + rewrite Hw in Hw'. injection Hw' as <-. vm_compute in O. discriminate.
  - split; [vm_compute; reflexivity|]. split; [vm_compute; reflexivity|].
    vm_compute. repeat constructor.
Qed.

(** After teardown on the small page the spans read "Hello " and "world"
    again, each as one text node. *)
Example stop_small_page :
  (fun win => children <$> textSpans (document win))
    <$> windows (stop [exampleReader] pendingWorld) !! "reader-1"
  = Some [[TextNode (js "Hello ")]; [TextNode (js "world")]].
Proof. vm_compute. reflexivity. Qed.

(** Before teardown both spans of the small page were colorized, and a timer
    was pending. *)
Example pending_small_page :
  Forall isColorized (textSpans (document pendingWindow)) /\
  length (timers pendingWindow) = 1%nat /\ length (observing pendingWindow) = 1%nat.
Proof. split; [|split]; vm_compute; [repeat constructor|reflexivity|reflexivity]. Qed.

(** * Further properties *)

(** ** Code points *)

Lemma Array_from_shape_aux (s : jsstring) :
  (Forall isCodePoint (Array_from s) /\ (length (Array_from s) <= length s)%nat) /\
  forall h, Forall isCodePoint (Array_from (h :: s)) /\
            (length (Array_from (h :: s)) <= S (length s))%nat.
Proof.
  induction s as [|l tl [[IH1 IL1] IH2]].
  - split; [split; [constructor|done]|]. intros h. split; [|done].
    constructor; [|constructor]. left. by exists h.
  - split; [apply IH2|]. intros h.
    change (Array_from (h :: l :: tl)) with
      (if isHighSurrogate h && isLowSurrogate l
       then [h; l] :: Array_from tl else [h] :: Array_from (l :: tl)).
    destruct (isHighSurrogate h && isLowSurrogate l) eqn:E.
    + apply andb_true_iff in E as [Eh El]. split.
      * constructor; [|done]. right. by exists h, l.
      * cbn [length] in *. lia.
    + destruct (IH2 l) as [F L]. split.
      * constructor; [|done]. left. by exists h.
      * cbn [length] in *. lia.
Qed.

Lemma Array_from_nonempty (s : jsstring) : s <> [] -> Array_from s <> [].
Proof. intros N E. by apply N, Array_from_nil_inv. Qed.

(** ** Passes, once more *)

Lemma getSourceText_fst_eq (span : Span) :
  (getSourceText span).1 =
    {| children := children span; beelineOriginal := Some (sourceOf span);
       beelineApplied := beelineApplied span |}.
Proof.
  unfold sourceOf, getSourceText. destruct span as [c [o|] a]; cbn; [|done].
  by destruct (truthy o).
Qed.

Lemma getSourceText_twice (span : Span) :
  (getSourceText (getSourceText span).1).1 = (getSourceText span).1.
Proof.
  rewrite (getSourceText_fst_eq (getSourceText span).1).
  rewrite getSourceText_fst_children, getSourceText_fst_applied.
  rewrite (getSourceText_fst_eq span). f_equal. f_equal.
  set (src := sourceOf span).
  rewrite sourceOf_unfold. cbn [beelineOriginal textContent children].
  destruct (truthy src) eqn:T; [done|].
  apply truthy_nil in T. rewrite T. by apply (sourceOf_nil_text span).
Qed.

Lemma textContent_restoreSpan (span : Span) :
  textContent (restoreSpan span)
  = if bool_decide (isColorized span) then sourceOf span else textContent span.
Proof.
  unfold restoreSpan, isColorized. case_bool_decide as M; [|done].
  rewrite sourceOf_unfold.
  change (textContent {| children := children (set_textContent ?t span);
                         beelineOriginal := _; beelineApplied := _ |})
    with (textContent (set_textContent t span)).
  rewrite textContent_set. destruct (beelineOriginal span) as [o|]; [|done].
  unfold js_or. by destruct (truthy o).
Qed.

Lemma sourceOf_restoreSpan (span : Span) : sourceOf (restoreSpan span) = sourceOf span.
Proof.
  rewrite (sourceOf_unfold (restoreSpan span)), restoreSpan_original, textContent_restoreSpan.
  case_bool_decide; [|by rewrite sourceOf_unfold].
  rewrite sourceOf_unfold. destruct (beelineOriginal span) as [o|]; [|done].
  by destruct (truthy o).
Qed.

Lemma logicalChars_restore (spans : list Span) :
  logicalChars (restoreSpan <$> spans) = logicalChars spans.
Proof.
  induction spans as [|span rest IH]; [done|].
  cbn [fmap list_fmap]. by rewrite !logicalChars_cons, sourceOf_restoreSpan, IH.
Qed.

Section PassesAgain.
Context {num : Type} `{JSNumber num}.

Lemma colorizeSpan_idem (e : Color) (off : Z) (span : Span) :
  colorizeSpan e off (colorizeSpan e off span).1 = colorizeSpan e off span.
Proof.
  pose proof (sourceOf_colorizeSpan e off span) as Hs.
  destruct (decide (sourceOf span = [])) as [E|E].
  - rewrite (colorizeSpan_skip e off ((colorizeSpan e off span).1)) by congruence.
    rewrite (colorizeSpan_skip e off span E). cbn [fst].
    by rewrite getSourceText_twice.
  - rewrite (colorizeSpan_paint e off ((colorizeSpan e off span).1)) by congruence.
    by rewrite Hs, (colorizeSpan_paint e off span E).
Qed.

Lemma colorizeSpans_idem (e : Color) (spans : list Span) (off : Z) :
  colorizeSpans e off (colorizeSpans e off spans).1 = colorizeSpans e off spans.
Proof.
  revert off. induction spans as [|span rest IH]; intros off; [done|].
  rewrite (colorizeSpans_cons e off span rest). cbn [fst].
  rewrite colorizeSpans_cons, colorizeSpan_idem, IH. done.
Qed.

Lemma pagePass_idem (spans : list Span) (p : Pass) :
  pagePass (pagePass spans p) p = pagePass spans p.
Proof.
  destruct p as [e|]; cbn [pagePass].
  - by rewrite colorizeSpans_idem.
  - rewrite <- list_fmap_compose. apply list_fmap_ext. intros i span _. apply restoreSpan_idem.
Qed.

Lemma restore_colorizeSpan_text (e : Color) (off : Z) (span : Span) :
  textContent (restoreSpan (colorizeSpan e off span).1) = sourceOf span.
Proof.
  rewrite textContent_restoreSpan, sourceOf_colorizeSpan.
  case_bool_decide as M; [done|].
  destruct (decide (sourceOf span = [])) as [E|E].
  - rewrite colorizeSpan_skip by done. cbn [fst]. unfold textContent.
    rewrite getSourceText_fst_children, E. by apply sourceOf_nil_text.
  - rewrite colorizeSpan_paint in M by done. by destruct M.
Qed.

Lemma restore_colorizeSpans_text (e : Color) (spans : list Span) (off : Z) :
  textContent <$> (restoreSpan <$> (colorizeSpans e off spans).1) = sourceOf <$> spans.
Proof.
  revert off. induction spans as [|span rest IH]; intros off; [done|].
  rewrite colorizeSpans_cons. cbn [fst fmap list_fmap]. f_equal.
  - apply restore_colorizeSpan_text.
  - apply IH.
Qed.

(** X1: applying the same pass twice gives what applying it once gives, for
    a colorization as for a restore; colorizing a page that was restored
    generates the nodes that colorizing it directly would; and restoring a
    page that was colorized leaves each span reading its source text. *)
Theorem pass_symmetry (e : Color) (spans : list Span) :
  pagePass (pagePass spans (ApplyPass e)) (ApplyPass e) = pagePass spans (ApplyPass e) /\
  pagePass (pagePass spans RestorePass) RestorePass = pagePass spans RestorePass /\
  generatedNodes (pagePass (pagePass spans RestorePass) (ApplyPass e))
    = generatedNodes (pagePass spans (ApplyPass e)) /\
  textContent <$> pagePass (pagePass spans (ApplyPass e)) RestorePass = sourceOf <$> spans.
Proof.
  split; [apply pagePass_idem|]. split; [apply pagePass_idem|]. split.
  - cbn [pagePass].
    destruct (colorizeSpans_generated e (restoreSpan <$> spans) 0) as [-> _].
    destruct (colorizeSpans_generated e spans 0) as [-> _].
    by rewrite logicalChars_restore.
  - apply restore_colorizeSpans_text.
Qed.

End PassesAgain.

Section SpanShape.
Context {num : Type} `{JSNumber num}.

Lemma charNodes_shape (e : Color) (off : Z) (chars : list jsstring) :
  Forall isCodePoint chars ->
  Forall (fun node => exists color text, node = CharNode color text /\ isCodePoint text)
    (charNodes e off chars).
Proof.
  unfold charNodes. revert off. induction chars as [|c cs IH]; intros off F; [constructor|].
  inversion F as [|? ? Fc Fcs]; subst. rewrite imap_cons. constructor.
  - by eexists _, _.
  - specialize (IH (off + 1) Fcs).
    erewrite imap_ext; [exact IH|]. intros i x _. simpl. do 3 f_equal. lia.
Qed.

(** X2: a span with a source text that is not empty is left by a
    colorization with one character node per code point of that text, each
    holding one code unit or one whole surrogate pair; there are at least one
    and at most as many nodes as code units; and the span still reads its
    source text. *)
Theorem colorized_span_shape (e : Color) (off : Z) (span : Span) :
  sourceOf span <> [] ->
  let span' := (colorizeSpan e off span).1 in
  textContent span' = sourceOf span /\
  length (children span') = length (Array_from (sourceOf span)) /\
  (1 <= length (children span') <= length (sourceOf span))%nat /\
  Forall (fun node => exists color text, node = CharNode color text /\ isCodePoint text)
    (children span') /\
  (colorizeSpan e off span).2 = off + Z.of_nat (length (children span')).
Proof.
  intros N span'. unfold span'. rewrite colorizeSpan_paint by done. cbn [fst snd children].
  destruct (Array_from_shape_aux (sourceOf span)) as [[F L] _].
  pose proof (Array_from_nonempty _ N) as NE.
  rewrite length_charNodes. split; [|split; [done|split; [|split; [|done]]]].
  - unfold textContent. cbn [children]. by rewrite textContent_charNodes, Array_from_concat.
  - split; [|done]. destruct (Array_from (sourceOf span)); [done|]. simpl. lia.
  - by apply charNodes_shape.
Qed.

(** X3: once a span has been colorized and restored, whatever the renderer
    writes into it since, the next colorization paints the text captured at
    first and the span reads that text again, not what the renderer wrote;
    a restore after it puts the captured text back. *)
Theorem captured_text_wins (e e2 : Color) (off off2 : Z) (span : Span)
  (newChildren : list Node) :
  sourceOf span <> [] ->
  let edited := hostWrites newChildren (restoreSpan (colorizeSpan e off span).1) in
  sourceOf edited = sourceOf span /\
  textContent (colorizeSpan e2 off2 edited).1 = sourceOf span /\
  children (colorizeSpan e2 off2 edited).1 = charNodes e2 off2 (Array_from (sourceOf span)) /\
  textContent (restoreSpan (colorizeSpan e2 off2 edited).1) = sourceOf span.
Proof.
  intros N edited.
  assert (sourceOf edited = sourceOf span) as Hs.
  { unfold edited. rewrite restore_after_colorize by done.
    rewrite sourceOf_unfold. cbn [hostWrites beelineOriginal].
    apply truthy_cons in N. by rewrite N. }
  split; [done|]. split; [|split].
  - rewrite colorizeSpan_paint by congruence. unfold textContent. cbn [fst children].
    by rewrite textContent_charNodes, Array_from_concat.
  - rewrite colorizeSpan_paint by congruence. cbn [fst children]. by rewrite Hs.
  - by rewrite restore_colorizeSpan_text.
Qed.

Lemma cyclePosition_period (k : Z) (n : nat) :
  0 <= k ->
  cyclePosition (num := num) (k + CHARACTERS_PER_CYCLE * Z.of_nat n) = cyclePosition k.
Proof.
  intros Hk. unfold cyclePosition, CHARACTERS_PER_CYCLE. do 2 f_equal.
  rewrite !Z.rem_mod_nonneg by lia.
  rewrite Z.mul_comm. apply Z_mod_plus_full.
Qed.

Lemma charNodes_period (e : Color) (off : Z) (n : nat) (chars : list jsstring) :
  0 <= off ->
  charNodes e (off + CHARACTERS_PER_CYCLE * Z.of_nat n) chars = charNodes e off chars.
Proof.
  intros Hoff. unfold charNodes. apply imap_ext. intros i c _. cbn beta.
  replace (off + CHARACTERS_PER_CYCLE * Z.of_nat n + Z.of_nat i)
    with (off + Z.of_nat i + CHARACTERS_PER_CYCLE * Z.of_nat n) by lia.
  by rewrite cyclePosition_period by lia.
Qed.

Lemma colorizeSpan_period (e : Color) (off : Z) (n : nat) (span : Span) :
  0 <= off ->
  colorizeSpan e (off + CHARACTERS_PER_CYCLE * Z.of_nat n) span
  = ((colorizeSpan e off span).1,
     (colorizeSpan e off span).2 + CHARACTERS_PER_CYCLE * Z.of_nat n).
Proof.
  intros Hoff. destruct (decide (sourceOf span = [])) as [E|E].
  - by rewrite !colorizeSpan_skip by done.
  - rewrite !colorizeSpan_paint by done. cbn [fst snd].
    rewrite charNodes_period by done. f_equal. lia.
Qed.

(** X4: the gradient repeats every 48 characters: a pass that starts from a
    running offset moved by a multiple of 48 leaves every span exactly as
    the pass from the offset itself does. *)
Theorem gradient_period (e : Color) (spans : list Span) (off : Z) (n : nat) :
  0 <= off ->
  (colorizeSpans e (off + CHARACTERS_PER_CYCLE * Z.of_nat n) spans).1
  = (colorizeSpans e off spans).1.
Proof.
  revert off. induction spans as [|span rest IH]; intros off Hoff; [done|].
  rewrite !colorizeSpans_cons. cbn [fst].
  rewrite colorizeSpan_period by done. cbn [fst snd]. f_equal.
  apply IH. rewrite colorizeSpan_offset. lia.
Qed.

End SpanShape.

Lemma colorized_span_shape_witness :
  let span' := (colorizeSpan (num := float) BLACK 0
                  (textSpan [0x48; 0xD83D; 0xDE00; 0x21]%N)).1 in
  textContent span' = [0x48; 0xD83D; 0xDE00; 0x21]%N /\ length (children span') = 3%nat.
Proof.
  destruct (colorized_span_shape (num := float) BLACK 0
              (textSpan [0x48; 0xD83D; 0xDE00; 0x21]%N) ltac:(discriminate))
    as (A & B & _).
  split; [exact A|exact B].
Defined.

Lemma captured_text_wins_witness :
  textContent
    (colorizeSpan (num := float) WHITE 3
       (hostWrites [TextNode (js "changed")]
          (restoreSpan (colorizeSpan (num := float) BLACK 0 (textSpan (js "first"))).1))).1
  = js "first".
Proof.
  apply (captured_text_wins (num := float) BLACK WHITE 0 3 (textSpan (js "first"))
           [TextNode (js "changed")]).
  discriminate.
Defined.

Lemma gradient_period_witness :
  (colorizeSpans (num := float) BLACK (5 + CHARACTERS_PER_CYCLE * Z.of_nat 2)
     (textSpans exampleDocument)).1
  = (colorizeSpans (num := float) BLACK 5 (textSpans exampleDocument)).1.
Proof. apply (gradient_period (num := float)). lia. Defined.

(** ** The shape of the gradient *)

Lemma at_index_last (c : Color) (i : nat) : at_index c (S (S i)) = at_index c 2.
Proof. by destruct c as [[r g] b]. Qed.

Lemma shape_checked :
  forallb (fun e =>
    forallb (fun k1 =>
      forallb (fun k2 => implb (k1 <=? k2) (shapeBetween e k1 k2)) (seqZ 0 48))
      (seqZ 0 48)) [BLACK; WHITE] = true.
Proof. vm_compute. reflexivity. Qed.

Lemma shapeBetween_holds (e : Color) (k1 k2 : Z) :
  e = BLACK \/ e = WHITE -> 0 <= k1 -> k1 <= k2 -> k2 < 48 -> shapeBetween e k1 k2 = true.
Proof.
  intros He H0 H12 H48.
  pose proof shape_checked as Hall. rewrite forallb_forall in Hall.
  assert (In e [BLACK; WHITE]) as Hin by (destruct He as [-> | ->]; simpl; auto).
  specialize (Hall e Hin). rewrite forallb_forall in Hall.
  specialize (Hall k1). rewrite forallb_forall in Hall.
  assert (implb (k1 <=? k2) (shapeBetween e k1 k2) = true) as Hi.
  { apply Hall; apply list_elem_of_In, elem_of_seqZ; lia. }
  by rewrite (proj2 (Z.leb_le k1 k2) H12) in Hi.
Qed.

(** X5: on the binary64 numbers the program runs on, over the 48 positions
    of a cycle and for either end colour the colorizer passes, the gradient
    starts at (26,115,232) and is exactly (220,38,38) at the middle of the
    cycle; through the first half red does not fall while green and blue do
    not rise; and through the second half no channel moves away from that
    channel of the end colour. *)
Theorem gradient_shape (k1 k2 : Z) (e : Color) (i : nat) :
  e = BLACK \/ e = WHITE ->
  sampleChannels (cyclePosition (num := float) 0) e = BLUE /\
  sampleChannels (cyclePosition (num := float) 24) e = RED /\
  (0 <= k1 -> k1 <= k2 -> k2 < 24 ->
     sampledChannel e k1 0 <= sampledChannel e k2 0 /\
     sampledChannel e k2 1 <= sampledChannel e k1 1 /\
     sampledChannel e k2 2 <= sampledChannel e k1 2) /\
  (24 <= k1 -> k1 <= k2 -> k2 < 48 ->
     (at_index RED i <= at_index e i -> sampledChannel e k1 i <= sampledChannel e k2 i) /\
     (at_index e i <= at_index RED i -> sampledChannel e k2 i <= sampledChannel e k1 i)).
Proof.
  intros He. split; [destruct He as [-> | ->]; vm_compute; reflexivity|].
  split; [destruct He as [-> | ->]; vm_compute; reflexivity|]. split.
  - intros H0 H12 H24.
    pose proof (shapeBetween_holds e k1 k2 He H0 H12 ltac:(lia)) as Hs.
    unfold shapeBetween in Hs. rewrite (proj2 (Z.ltb_lt k2 24) H24) in Hs.
    rewrite !andb_true_iff, !Z.leb_le in Hs. tauto.
  - intros H24 H12 H48.
    pose proof (shapeBetween_holds e k1 k2 He ltac:(lia) H12 H48) as Hs.
    unfold shapeBetween in Hs.
    rewrite (proj2 (Z.ltb_ge k2 24) ltac:(lia)), (proj2 (Z.leb_le 24 k1) H24) in Hs.
    rewrite forallb_forall in Hs.
    assert (forall n, In n [0%nat; 1%nat; 2%nat] ->
              (at_index RED n <= at_index e n -> sampledChannel e k1 n <= sampledChannel e k2 n) /\
              (at_index e n <= at_index RED n -> sampledChannel e k2 n <= sampledChannel e k1 n))
      as Hn.
    { intros n Hin. specialize (Hs n Hin). rewrite andb_true_iff in Hs. destruct Hs as [Hu Hd].
      split; intros Hc; apply Z.leb_le in Hc.
      - rewrite Hc in Hu. by apply Z.leb_le.
      - rewrite Hc in Hd. by apply Z.leb_le. }
    destruct i as [|[|i]]; [apply Hn; simpl; auto..|].
    unfold sampledChannel. rewrite !at_index_last. apply (Hn 2%nat). simpl. auto.
Qed.

Lemma gradient_shape_witness :
  sampleChannels (cyclePosition (num := float) 0) WHITE = BLUE /\
  sampleChannels (cyclePosition (num := float) 24) WHITE = RED /\
  sampledChannel WHITE 30 1 <= sampledChannel WHITE 44 1.
Proof.
  destruct (gradient_shape 30 44 WHITE 1 (or_intror eq_refl)) as (A & B & _ & C).
  split; [exact A|]. split; [exact B|].
  apply C; [lia|lia|lia|]. vm_compute. discriminate.
Defined.

(** ** The registry, once more *)

(** X6: [ensureReaderState] gets or creates: afterwards the registry maps the
    reader to the location returned; a reader that was known gets its state
    back and nothing changes; a reader that was not gets a new state object,
    enabled and without handles, at a location no state object had; asking
    again changes nothing more; and no other reader's entry and no state
    object there was is touched. *)
Theorem ensureReaderState_get_or_create (reader : Reader) (w : World) :
  let w1 := (ensureReaderState reader w).1 in
  let l := (ensureReaderState reader w).2 in
  stateByReader w1 !! _instanceID reader = Some l /\
  (forall l0, stateByReader w !! _instanceID reader = Some l0 -> w1 = w /\ l = l0) /\
  (stateByReader w !! _instanceID reader = None ->
     heap w !! l = None /\
     heap w1 !! l = Some {| enabled := true; observer := None; refreshTimer := None |}) /\
  ensureReaderState reader w1 = (w1, l) /\
  (forall rid, rid <> _instanceID reader ->
     stateByReader w1 !! rid = stateByReader w !! rid) /\
  (forall l' st, heap w !! l' = Some st -> heap w1 !! l' = Some st) /\
  windows w1 = windows w /\ buttons w1 = buttons w.
Proof.
  intros w1 l.
  split; [apply ensureReaderState_lookup|].
  split; [intros l0 R; unfold w1, l; by rewrite (ensureReaderState_known _ _ _ R)|].
  split.
  { intros R. unfold w1, l, ensureReaderState. rewrite R. cbn [fst snd heap].
    split; [apply fresh_loc_None|apply lookup_insert_eq]. }
  split; [apply ensureReaderState_known, ensureReaderState_lookup|].
  split.
  { intros rid N. unfold w1, ensureReaderState.
    destruct (stateByReader w !! _instanceID reader); [done|].
    cbn [fst stateByReader]. by rewrite lookup_insert_ne. }
  split; [intros l' st; apply ensureReaderState_heap|].
  split; [apply ensureReaderState_windows|apply ensureReaderState_buttons].
Qed.

(** ** Passes over a world *)

Lemma endColor_setSpans (spans : list Span) (win : Window) :
  endColor (document (setSpans spans win)) (setSpans spans win) = endColor (document win) win.
Proof. done. Qed.

Lemma setWindow_twice (rid : string) (a b : Window) (w : World) :
  setWindow rid b (setWindow rid a w) = setWindow rid b w.
Proof. unfold setWindow. cbn. by rewrite insert_insert_eq. Qed.

Section WorldPasses.
Context {num : Type} `{JSNumber num}.

Lemma refreshReader_idem (reader : Reader) (w : World) :
  refreshReader reader (refreshReader reader w) = refreshReader reader w.
Proof.
  destruct (windows w !! _instanceID reader) as [win|] eqn:Hw;
    [|by rewrite !refreshReader_nowindow by (try done; by rewrite refreshReader_nowindow)].
  assert (forall w0 l st,
            windows w0 !! _instanceID reader = Some win ->
            stateByReader w0 !! _instanceID reader = Some l -> heap w0 !! l = Some st ->
            refreshReader reader (refreshReader reader w0) = refreshReader reader w0) as Known.
  { intros w0 l st Hw0 R E.
    rewrite (refreshReader_known reader w0 win l st) by done.
    set (p := if enabled st then ApplyPass (endColor (document win) win) else RestorePass).
    set (win1 := setSpans (pagePass (textSpans (document win)) p) win).
    rewrite (refreshReader_known reader _ win1 l st); try done.
    2:{ cbn [setWindow windows]. by rewrite lookup_insert_eq. }
    rewrite setWindow_twice. f_equal.
    change (endColor (document win1) win1) with (endColor (document win) win). fold p.
    change (textSpans (document win1)) with (pagePass (textSpans (document win)) p).
    by rewrite pagePass_idem. }
  destruct (stateByReader w !! _instanceID reader) as [l|] eqn:R.
  - destruct (heap w !! l) as [st|] eqn:E; [exact (Known w l st Hw R E)|].
    assert (refreshReader reader w = w) as Hn.
    { unfold refreshReader. by rewrite Hw, (ensureReaderState_known _ _ _ R), E. }
    by rewrite Hn.
  - pose proof (ensureReaderState_lookup reader w) as R1.
    pose proof (ensureReaderState_windows reader w) as W1.
    assert (refreshReader reader w = refreshReader reader (ensureReaderState reader w).1) as Eq.
    { unfold refreshReader.
      rewrite (ensureReaderState_known reader (ensureReaderState reader w).1 _ R1).
      rewrite W1, Hw. by destruct (ensureReaderState reader w). }
    rewrite Eq.
    assert (is_Some (heap (ensureReaderState reader w).1 !! (ensureReaderState reader w).2))
      as [st E].
    { unfold ensureReaderState. rewrite R. cbn [fst snd heap]. rewrite lookup_insert_eq.
      by eexists. }
    apply (Known _ (ensureReaderState reader w).2 st); [by rewrite W1|done|done].
Qed.

(** X7: a pass of [refreshReader] right after one changes nothing: the
    second call gives the world the first call gave. *)
Theorem refreshReader_twice (reader : Reader) (w : World) :
  refreshReader reader (refreshReader reader w) = refreshReader reader w.
Proof. apply refreshReader_idem. Qed.

(** X8: [refreshReader] touches the spans of its reader's window and
    nothing else there is: every other window, the buttons, the clock and
    the listener flag are as before; the reader's window keeps its timers,
    observers, next handle, theme and the number of its spans; every
    registry entry and state object there was is as before; and without a
    window the world is as before, no state being created. *)
Theorem refreshReader_frame (reader : Reader) (w : World) :
  let w' := refreshReader reader w in
  buttons w' = buttons w /\ now w' = now w /\ listening w' = listening w /\
  (forall rid, rid <> _instanceID reader -> windows w' !! rid = windows w !! rid) /\
  (forall win, windows w !! _instanceID reader = Some win ->
     exists win', windows w' !! _instanceID reader = Some win' /\
       timers win' = timers win /\ observing win' = observing win /\
       nextHandle win' = nextHandle win /\ prefersDark win' = prefersDark win /\
       body (document win') = body (document win) /\
       documentElement (document win') = documentElement (document win) /\
       length (textSpans (document win')) = length (textSpans (document win))) /\
  (windows w !! _instanceID reader = None -> w' = w) /\
  (forall rid l, stateByReader w !! rid = Some l -> stateByReader w' !! rid = Some l) /\
  (forall l st, heap w !! l = Some st -> heap w' !! l = Some st).
Proof.
  intros w'. unfold w'.
  assert (buttons (refreshReader reader w) = buttons w /\
          listening (refreshReader reader w) = listening w) as [B L].
  { unfold refreshReader.
    destruct (windows w !! _instanceID reader) as [win0|]; [|done].
    pose proof (ensureReaderState_buttons reader w) as E1.
    pose proof (ensureReaderState_listening reader w) as E2.
    destruct (ensureReaderState reader w) as [w1 l1]. cbn [fst] in *.
    destruct (heap w1 !! l1) as [st1|]; [|done].
    by destruct (enabled st1). }
  split; [done|]. split; [apply refreshReader_now|]. split; [done|].
  split; [|split; [|split; [|split]]].
  - intros rid N. unfold refreshReader.
    destruct (windows w !! _instanceID reader) as [win0|]; [|done].
    pose proof (ensureReaderState_windows reader w) as E1.
    destruct (ensureReaderState reader w) as [w1 l1]. cbn [fst] in *.
    destruct (heap w1 !! l1) as [st1|]; [|by rewrite E1].
    destruct (enabled st1); cbn [negb setWindow windows];
      by rewrite lookup_insert_ne, E1 by done.
  - intros win Hw. unfold refreshReader. rewrite Hw.
    pose proof (ensureReaderState_windows reader w) as E1.
    destruct (ensureReaderState reader w) as [w1 l1]. cbn [fst] in *.
    destruct (heap w1 !! l1) as [st1|].
    + destruct (enabled st1); cbn [negb setWindow windows]; rewrite lookup_insert_eq;
        eexists; (split; [done|]); cbn [setSpans timers observing nextHandle prefersDark
                                        document body documentElement textSpans];
        repeat (split; [done|]).
      * apply length_colorizeSpans.
      * apply length_fmap.
    + exists win. by rewrite E1.
  - apply refreshReader_nowindow.
  - intros rid l. apply refreshReader_registry.
  - intros l st. apply refreshReader_heap.
Qed.

End WorldPasses.

(** ** Handles that stand for something *)

Lemma settled_initialWorld : settled initialWorld.
Proof. split; simpl; intros *; by rewrite ?lookup_empty. Qed.

Lemma settled_ensureReaderState (reader : Reader) (w : World) :
  wf w -> settled w -> settled (ensureReaderState reader w).1.
Proof.
  intros W S. unfold ensureReaderState.
  destruct (stateByReader w !! _instanceID reader) eqn:R; [done|].
  pose proof (fresh_loc_None w) as F. set (lf := fresh (dom (heap w))) in *.
  assert (forall rid l st,
            <[_instanceID reader := lf]> (stateByReader w) !! rid = Some l ->
            <[lf := {| enabled := true; observer := None; refreshTimer := None |}]> (heap w) !! l
              = Some st ->
            (observer st = None /\ refreshTimer st = None) \/
            (stateByReader w !! rid = Some l /\ heap w !! l = Some st)) as Cases.
  { intros rid l st Hr Hh. destruct (decide (_instanceID reader = rid)) as [<-|N].
    - rewrite lookup_insert_eq in Hr. injection Hr as <-.
      rewrite lookup_insert_eq in Hh. injection Hh as <-. by left.
    - rewrite lookup_insert_ne in Hr by done. right. split; [done|].
      destruct (wf_heap w W _ _ Hr) as [st0 Hst0].
      rewrite lookup_insert_ne in Hh by congruence. done. }
  split; cbn [stateByReader heap windows buttons fst].
  - intros rid l st o Hr Hh O. destruct (Cases rid l st Hr Hh) as [[? ?]|[? ?]]; [congruence|].
    by eapply (settled_observer w S).
  - intros rid l st id Hr Hh T. destruct (Cases rid l st Hr Hh) as [[? ?]|[? ?]]; [congruence|].
    by eapply (settled_timer w S).
  - intros rid b Hb. destruct (settled_button w S _ _ Hb) as (st & E & B).
    exists st. split; [|done]. rewrite lookup_insert_ne; [done|]. congruence.
Qed.

Lemma settled_update (w : World) (rid : string) (l : loc) (win' : Window) (st' : ReaderState) :
  wf w -> settled w -> stateByReader w !! rid = Some l ->
  (forall o, observer st' = Some o -> observing win' = [o]) ->
  (forall id, refreshTimer st' = Some id ->
     exists tm, timers win' = [tm] /\ timer_id tm = id) ->
  (forall st, heap w !! l = Some st -> enabled st' = enabled st) ->
  settled (setState l st' (setWindow rid win' w)).
Proof.
  intros W S R HO HT HE.
  assert (forall rid0 l0 st0,
            stateByReader w !! rid0 = Some l0 -> <[l := st']> (heap w) !! l0 = Some st0 ->
            (rid0 = rid /\ st0 = st') \/ (rid0 <> rid /\ heap w !! l0 = Some st0)) as Cases.
  { intros rid0 l0 st0 Hr Hh. destruct (decide (l = l0)) as [<-|N].
    - rewrite lookup_insert_eq in Hh. injection Hh as <-. left.
      split; [by eapply (wf_inj w W)|done].
    - rewrite lookup_insert_ne in Hh by done. right. split; [|done]. intros ->. congruence. }
  split; cbn [stateByReader heap windows buttons setState setWindow].
  - intros rid0 l0 st0 o Hr Hh O.
    destruct (Cases rid0 l0 st0 Hr Hh) as [[-> ->]|[N Hh0]].
    + exists win'. by rewrite lookup_insert_eq, (HO o O).
    + rewrite lookup_insert_ne by done. by eapply (settled_observer w S).
  - intros rid0 l0 st0 id Hr Hh T.
    destruct (Cases rid0 l0 st0 Hr Hh) as [[-> ->]|[N Hh0]].
    + destruct (HT id T) as (tm & A & B). exists win', tm. by rewrite lookup_insert_eq.
    + rewrite lookup_insert_ne by done. by eapply (settled_timer w S).
  - intros rid0 b Hb. destruct (settled_button w S _ _ Hb) as (st & E & B).
    destruct (decide (l = click_state b)) as [A|N].
    + exists st'. rewrite A, lookup_insert_eq. split; [done|].
      rewrite (HE st) by by rewrite A. done.
    + exists st. by rewrite lookup_insert_ne.
Qed.

Lemma settled_setWindow (w : World) (rid : string) (win win' : Window) :
  settled w -> windows w !! rid = Some win ->
  timers win' = timers win -> observing win' = observing win ->
  settled (setWindow rid win' w).
Proof.
  intros S Hw HT HO. split; cbn [stateByReader heap windows buttons setWindow];
    [| |apply (settled_button w S)].
  - intros rid0 l st o Hr Hh O.
    destruct (settled_observer w S _ _ _ _ Hr Hh O) as (win0 & Hw0 & A).
    destruct (decide (rid = rid0)) as [<-|N].
    + exists win'. rewrite lookup_insert_eq. split; [done|]. congruence.
    + exists win0. by rewrite lookup_insert_ne.
  - intros rid0 l st id Hr Hh T.
    destruct (settled_timer w S _ _ _ _ Hr Hh T) as (win0 & tm & Hw0 & A & B).
    destruct (decide (rid = rid0)) as [<-|N].
    + exists win', tm. rewrite lookup_insert_eq. split; [done|]. split; [congruence|done].
    + exists win0, tm. by rewrite lookup_insert_ne.
Qed.

Lemma settled_newWindow (w : World) (rid : string) (win' : Window) :
  settled w -> windows w !! rid = None -> settled (setWindow rid win' w).
Proof.
  intros S Hw. split; cbn [stateByReader heap windows buttons setWindow];
    [| |apply (settled_button w S)].
  - intros rid0 l st o Hr Hh O.
    destruct (settled_observer w S _ _ _ _ Hr Hh O) as (win0 & Hw0 & A).
    destruct (decide (rid = rid0)) as [<-|N]; [congruence|].
    exists win0. by rewrite lookup_insert_ne.
  - intros rid0 l st id Hr Hh T.
    destruct (settled_timer w S _ _ _ _ Hr Hh T) as (win0 & tm & Hw0 & A & B).
    destruct (decide (rid = rid0)) as [<-|N]; [congruence|].
    exists win0, tm. by rewrite lookup_insert_ne.
Qed.

(** The toolbar button of a reader set to show the state its listener
    toggles. *)
Lemma settled_setButton (w : World) (rid : string) (b : Button) (st : ReaderState) :
  settled w -> heap w !! click_state b = Some st ->
  settled (setButton rid (updateButtonState (enabled st) b) w).
Proof.
  intros S E. split; cbn [stateByReader heap windows buttons setButton];
    [apply (settled_observer w S)|apply (settled_timer w S)|].
  intros rid0 b0 Hb. destruct (decide (rid = rid0)) as [<-|N].
  - rewrite lookup_insert_eq in Hb. injection Hb as <-. by exists st.
  - rewrite lookup_insert_ne in Hb by done. exact (settled_button w S _ _ Hb).
Qed.

Lemma settled_setNow (w : World) (t : Z) : settled w -> settled (setNow t w).
Proof. intros S. split; apply S. Qed.

Lemma settled_start (w : World) : settled w -> settled (start w).
Proof. intros S. split; apply S. Qed.

Lemma settled_toggle (w : World) (rid : string) (b : Button) (st st' : ReaderState) :
  wf w -> settled w -> buttons w !! rid = Some b -> heap w !! click_state b = Some st ->
  observer st' = observer st -> refreshTimer st' = refreshTimer st ->
  settled (setButton rid (updateButtonState (enabled st') b) (setState (click_state b) st' w)).
Proof.
  intros W S Hb E HO HT. destruct (wf_buttons w W _ _ Hb) as [_ R].
  assert (forall rid0 l0 st0,
            stateByReader w !! rid0 = Some l0 ->
            <[click_state b := st']> (heap w) !! l0 = Some st0 ->
            exists st1, heap w !! l0 = Some st1 /\ observer st0 = observer st1 /\
                        refreshTimer st0 = refreshTimer st1) as Cases.
  { intros rid0 l0 st0 Hr Hh. destruct (decide (click_state b = l0)) as [<-|N].
    - rewrite lookup_insert_eq in Hh. injection Hh as <-. by exists st.
    - rewrite lookup_insert_ne in Hh by done. by exists st0. }
  split; cbn [stateByReader heap windows buttons setButton setState].
  - intros rid0 l0 st0 o Hr Hh O. destruct (Cases _ _ _ Hr Hh) as (st1 & E1 & O1 & _).
    rewrite O1 in O. exact (settled_observer w S _ _ _ _ Hr E1 O).
  - intros rid0 l0 st0 id Hr Hh T. destruct (Cases _ _ _ Hr Hh) as (st1 & E1 & _ & T1).
    rewrite T1 in T. exact (settled_timer w S _ _ _ _ Hr E1 T).
  - intros rid0 b0 Hb0. destruct (decide (rid = rid0)) as [<-|N].
    + rewrite lookup_insert_eq in Hb0. injection Hb0 as <-.
      exists st'. cbn [updateButtonState click_state]. by rewrite lookup_insert_eq.
    + rewrite lookup_insert_ne in Hb0 by done.
      destruct (settled_button w S _ _ Hb0) as (st0 & E0 & B0).
      destruct (wf_buttons w W _ _ Hb0) as [_ R0].
      exists st0. split; [|done]. rewrite lookup_insert_ne; [done|].
      intros A. apply N. rewrite <- A in R0. exact (wf_inj w W _ _ _ R R0).
Qed.

Section SettledFacts.
Context {num : Type} `{JSNumber num}.

Lemma settled_refreshReader (reader : Reader) (w : World) :
  wf w -> settled w -> settled (refreshReader reader w).
Proof.
  intros W S. unfold refreshReader.
  destruct (windows w !! _instanceID reader) as [win|] eqn:Hw; [|done].
  pose proof (settled_ensureReaderState reader w W S) as S1.
  pose proof (ensureReaderState_windows reader w) as Hws.
  destruct (ensureReaderState reader w) as [w1 l]. cbn [fst] in *.
  destruct (heap w1 !! l) as [st|]; [|done].
  rewrite <- Hws in Hw.
  destruct (enabled st); cbn [negb]; by eapply settled_setWindow.
Qed.

Lemma settled_observeReaderTextLayer (reader : Reader) (w : World) :
  wf w -> settled w -> settled (observeReaderTextLayer reader w).
Proof.
  intros W S. unfold observeReaderTextLayer.
  destruct (windows w !! _instanceID reader) as [win|] eqn:Hw; [|done].
  pose proof (wf_ensureReaderState reader w W) as W1.
  pose proof (settled_ensureReaderState reader w W S) as S1.
  pose proof (ensureReaderState_windows reader w) as Hws.
  pose proof (ensureReaderState_lookup reader w) as R1.
  destruct (ensureReaderState reader w) as [w1 l]. cbn [fst snd] in *.
  destruct (heap w1 !! l) as [st|] eqn:E; [|done].
  destruct (observer st) as [o0|] eqn:O; [done|].
  destruct (body (document win)); cbn [negb]; [|done].
  rewrite <- Hws in Hw.
  pose proof (wf_no_observer w1 _ win l st W1 Hw R1 E O) as Hnone.
  apply settled_update; [done|done|done| | |]; cbn [observing timers observer refreshTimer enabled].
  - intros o [= <-]. by rewrite Hnone.
  - intros id T. destruct (settled_timer w1 S1 _ _ _ _ R1 E T) as (win0 & tm & Hw0 & A & B).
    exists tm. split; [congruence|done].
  - intros st0 E0. congruence.
Qed.

Lemma settled_observerCallback (o : Observer) (mutations : list MutationRecord) (w : World)
  (win : Window) :
  wf w -> settled w -> windows w !! _instanceID (obs_reader o) = Some win ->
  o ∈ observing win ->
  settled (observerCallback o mutations w).
Proof.
  intros W S Hw Ho.
  destruct (qualifying mutations) eqn:Q; [|unfold observerCallback; by rewrite Q].
  destruct (wf_observing w W _ _ _ Hw Ho) as (A & B & R & st & E & O).
  rewrite (observerCallback_arms o mutations w win st) by done.
  apply settled_update; [done|done|done| | |];
    cbn [armed observing timers observer refreshTimer enabled].
  - intros o' O'. congruence.
  - intros id [= <-]. by eexists.
  - intros st0 E0. congruence.
Qed.

Lemma settled_fireTimer (rid : string) (tm : Timer) (w : World) (win : Window) :
  wf w -> settled w -> windows w !! rid = Some win -> tm ∈ timers win ->
  settled (fireTimer rid tm w).
Proof.
  intros W S Hw Ht.
  destruct (wf_timers w W _ _ _ Hw Ht) as (A & B & R & st & E & T).
  rewrite (fireTimer_fires rid tm w win st) by done.
  apply settled_refreshReader.
  - apply wf_update; [done|done| | |]; cbn [setTimers observing timers observer refreshTimer].
    + intros o Ho.
      destruct (wf_observing w W _ _ _ Hw Ho) as (A' & B' & R' & st' & E' & O').
      split; [done|]. split; [done|]. split; congruence.
    + intros o O. exact (wf_owner w W _ _ _ _ R E O).
    + intros tm' Ht'. by apply not_elem_of_nil in Ht'.
  - apply settled_update; [done|done|done| | |];
      cbn [setTimers observing timers observer refreshTimer enabled].
    + intros o O. destruct (settled_observer w S _ _ _ _ R E O) as (win0 & Hw0 & A0).
      congruence.
    + intros id [=].
    + intros st0 E0. congruence.
Qed.

Lemma settled_clickHandler (rid : string) (w : World) :
  wf w -> settled w -> settled (clickHandler rid w).
Proof.
  intros W S. unfold clickHandler.
  destruct (buttons w !! rid) as [b|] eqn:Hb; [|done].
  destruct (heap w !! click_state b) as [st|] eqn:E; [|done].
  destruct (wf_buttons w W _ _ Hb) as [A R].
  apply settled_refreshReader.
  - apply wf_setButton; [|done|done]. by eapply wf_setState.
  - by eapply settled_toggle.
Qed.

Lemma settled_toolbarHandler (reader : Reader) (w : World) :
  wf w -> settled w -> settled (toolbarHandler reader w).
Proof.
  intros W S. unfold toolbarHandler. case_bool_decide; [done|].
  pose proof (wf_ensureReaderState reader w W) as W1.
  pose proof (settled_ensureReaderState reader w W S) as S1.
  pose proof (ensureReaderState_lookup reader w) as R1.
  destruct (ensureReaderState reader w) as [w1 l]. cbn [fst snd] in *.
  destruct (heap w1 !! l) as [st|] eqn:E; [|done].
  assert (wf (match buttons w1 !! _instanceID reader with
              | Some _ => w1
              | None =>
                  setButton (_instanceID reader)
                    (updateButtonState (enabled st)
                       {| aria_pressed := ""; fontWeight := ""; opacity := "";
                          click_state := l; click_reader := reader |}) w1
              end) /\
          settled (match buttons w1 !! _instanceID reader with
                   | Some _ => w1
                   | None =>
                       setButton (_instanceID reader)
                         (updateButtonState (enabled st)
                            {| aria_pressed := ""; fontWeight := ""; opacity := "";
                               click_state := l; click_reader := reader |}) w1
                   end)) as [W2 S2].
  { destruct (buttons w1 !! _instanceID reader); [done|]. split.
    - by apply wf_setButton.
    - by apply settled_setButton. }
  apply settled_refreshReader; [by apply wf_observeReaderTextLayer|].
  by apply settled_observeReaderTextLayer.
Qed.

Lemma settled_step (ev : Event) (w : World) : wf w -> settled w -> settled (step ev w).
Proof.
  intros W S. destruct ev as [|rid doc dark|rid doc dark|dt|reader|rid|rid oid ms|rid tid];
    cbn [step].
  - by apply settled_start.
  - destruct (windows w !! rid) eqn:Hw; [done|]. by apply settled_newWindow.
  - destruct (windows w !! rid) eqn:Hw; [|done]. by eapply settled_setWindow.
  - destruct (0 <=? dt); [|done]. by apply settled_setNow.
  - destruct (listening w); [|done]. by apply settled_toolbarHandler.
  - by apply settled_clickHandler.
  - destruct (windows w !! rid) as [win|] eqn:Hw; [|done].
    destruct (head (filter (fun o => obs_id o = oid) (observing win))) as [o|] eqn:Hh; [|done].
    apply head_filter_elem in Hh as [Ho _].
    destruct (wf_observing w W _ _ _ Hw Ho) as (_ & B & _).
    eapply settled_observerCallback; [done|done| |done]. by rewrite B.
  - destruct (windows w !! rid) as [win|] eqn:Hw; [|done].
    destruct (head (filter (fun tm => timer_id tm = tid) (timers win))) as [tm|] eqn:Hh; [|done].
    apply head_filter_elem in Hh as [Ht _].
    destruct (timer_due tm <=? now w); [|done].
    by eapply settled_fireTimer.
Qed.

Lemma settled_run (evs : list Event) (w : World) : wf w -> settled w -> settled (run evs w).
Proof.
  revert w. induction evs as [|ev evs IH]; intros w W S; [done|].
  cbn [run foldl]. apply IH; [by apply wf_step|by apply settled_step].
Qed.

End SettledFacts.

Lemma stateOf_inv (rid : string) (w : World) (st : ReaderState) :
  stateOf rid w = Some st ->
  exists l, stateByReader w !! rid = Some l /\ heap w !! l = Some st.
Proof.
  unfold stateOf. destruct (stateByReader w !! rid) as [l|]; [|done].
  intros E. by exists l.
Qed.

Section SettledClaims.
Context {num : Type} `{JSNumber num}.

(** X9: from the start of the service on, whatever the events, the handles
    in a reader's state say what its window holds: the state holds an
    observer exactly when that observer is the one connected to the reader's
    window, and a timer handle exactly when the one timer pending there has
    that handle; no handle outlives its observer or timer, and none is
    connected or pending without its handle. *)
Theorem handles_settled (evs : list Event) (rid : string) (st : ReaderState) :
  let w := run evs initialWorld in
  stateOf rid w = Some st ->
  (forall o, observer st = Some o <->
     exists win, windows w !! rid = Some win /\ observing win = [o]) /\
  (forall id, refreshTimer st = Some id <->
     exists win tm, windows w !! rid = Some win /\ timers win = [tm] /\ timer_id tm = id) /\
  (forall win, windows w !! rid = Some win ->
     (observer st = None <-> observing win = []) /\
     (refreshTimer st = None <-> timers win = [])).
Proof.
  intros w Hst.
  pose proof (wf_run evs initialWorld wf_initialWorld) as W.
  pose proof (settled_run evs initialWorld wf_initialWorld settled_initialWorld) as S.
  fold w in W, S. destruct (stateOf_inv _ _ _ Hst) as (l & R & E).
  assert (forall o, observer st = Some o <->
            exists win, windows w !! rid = Some win /\ observing win = [o]) as HO.
  { intros o. split; [apply (settled_observer w S _ _ _ _ R E)|].
    intros (win & Hw & A).
    assert (o ∈ observing win) as Ho by (rewrite A; left).
    destruct (wf_observing w W _ _ _ Hw Ho) as (_ & _ & R' & st' & E' & O'). congruence. }
  assert (forall id, refreshTimer st = Some id <->
            exists win tm, windows w !! rid = Some win /\ timers win = [tm] /\
                           timer_id tm = id) as HT.
  { intros id. split; [apply (settled_timer w S _ _ _ _ R E)|].
    intros (win & tm & Hw & A & B).
    assert (tm ∈ timers win) as Ht by (rewrite A; left).
    destruct (wf_timers w W _ _ _ Hw Ht) as (_ & _ & R' & st' & E' & T'). congruence. }
  split; [done|]. split; [done|]. intros win Hw. split; split.
  - by apply (wf_no_observer w rid win l st).
  - intros A. destruct (observer st) as [o|] eqn:O; [|done].
    destruct (proj1 (HO o) eq_refl) as (win' & Hw' & A'). congruence.
  - intros T. destruct (timers win) as [|tm tms] eqn:A; [done|].
    assert (tm ∈ timers win) as Ht by (rewrite A; left).
    destruct (wf_timer_handle w rid win l st tm W Hw R E Ht). congruence.
  - intros A. destruct (refreshTimer st) as [id|] eqn:T; [|done].
    destruct (proj1 (HT id) eq_refl) as (win' & tm & Hw' & A' & _). congruence.
Qed.

(** X10: from the start of the service on, whatever the events, the toolbar
    button of a reader shows the [enabled] flag of that reader's state:
    pressed, heavy and opaque when enabled, and not pressed, light and
    dimmed when not. *)
Theorem button_shows_state (evs : list Event) (rid : string) (b : Button) :
  let w := run evs initialWorld in
  buttons w !! rid = Some b ->
  exists st, stateOf rid w = Some st /\
    aria_pressed b = (if enabled st then "true" else "false") /\
    fontWeight b = (if enabled st then "600" else "400") /\
    opacity b = (if enabled st then "1" else "0.7").
Proof.
  intros w Hb.
  pose proof (wf_run evs initialWorld wf_initialWorld) as W.
  pose proof (settled_run evs initialWorld wf_initialWorld settled_initialWorld) as S.
  fold w in W, S. destruct (wf_buttons w W _ _ Hb) as [_ R].
  destruct (settled_button w S _ _ Hb) as (st & E & B).
  exists st. split; [by apply (stateOf_Some rid w (click_state b))|].
  rewrite B. done.
Qed.

End SettledClaims.

Lemma handles_settled_witness :
  (refreshTimer pendingState = Some 2%positive <->
   exists win tm,
     windows (run (num := float) pendingEvents initialWorld) !! "reader-1" = Some win /\
     timers win = [tm] /\ timer_id tm = 2%positive) /\
  (observer pendingState = Some exampleObserver <->
   exists win,
     windows (run (num := float) pendingEvents initialWorld) !! "reader-1" = Some win /\
     observing win = [exampleObserver]).
Proof.
  destruct (handles_settled (num := float) pendingEvents "reader-1" pendingState)
    as (O & T & _).
  - vm_compute. reflexivity.
  - split; [exact (T 2%positive)|exact (O exampleObserver)].
Defined.

Lemma button_shows_state_witness :
  let w := run (num := float)
             [Start; HostWindow "reader-1" exampleDocument (Some false);
              RenderToolbar exampleReader; Click "reader-1"] initialWorld in
  exists st, stateOf "reader-1" w = Some st /\
    aria_pressed (updateButtonState false pendingButton)
      = (if enabled st then "true" else "false") /\
    fontWeight (updateButtonState false pendingButton)
      = (if enabled st then "600" else "400") /\
    opacity (updateButtonState false pendingButton) = (if enabled st then "1" else "0.7").
Proof.
  apply (button_shows_state (num := float)
           [Start; HostWindow "reader-1" exampleDocument (Some false);
            RenderToolbar exampleReader; Click "reader-1"] "reader-1"
           (updateButtonState false pendingButton)).
  vm_compute. reflexivity.
Defined.

(** ** Installing the watcher *)

(** What [observeReaderTextLayer] leaves as it was, and what it ensures. *)
Lemma observeReaderTextLayer_post (reader : Reader) (w : World) (l : loc) (st : ReaderState) :
  stateByReader w !! _instanceID reader = Some l -> heap w !! l = Some st ->
  let w' := observeReaderTextLayer reader w in
  stateByReader w' = stateByReader w /\ buttons w' = buttons w /\
  now w' = now w /\ listening w' = listening w /\
  (exists st', heap w' !! l = Some st' /\ enabled st' = enabled st /\
     refreshTimer st' = refreshTimer st /\
     (forall win, windows w !! _instanceID reader = Some win ->
        body (document win) = true -> observer st' <> None)) /\
  (windows w !! _instanceID reader = None -> w' = w) /\
  (forall win, windows w !! _instanceID reader = Some win ->
     exists win', windows w' !! _instanceID reader = Some win' /\
       document win' = document win /\ prefersDark win' = prefersDark win /\
       timers win' = timers win).
Proof.
  intros R E w'. unfold w', observeReaderTextLayer.
  destruct (windows w !! _instanceID reader) as [win|] eqn:Hw.
  2:{ repeat (split; [done|]). split; [|done]. exists st. repeat (split; [done|]). done. }
  rewrite (ensureReaderState_known _ _ _ R), E.
  destruct (observer st) as [o|] eqn:O.
  { repeat (split; [done|]). split; [|split; [done|]].
    - exists st. repeat (split; [done|]). intros; congruence.
    - intros win0 [= <-]. by exists win. }
  destruct (body (document win)) eqn:B; cbn [negb].
  - repeat (split; [done|]). split; [|split; [done|]].
    + eexists. cbn [setState heap]. rewrite lookup_insert_eq. split; [done|].
      repeat (split; [done|]). done.
    + intros win0 [= <-]. eexists. cbn [setState setWindow windows].
      rewrite lookup_insert_eq. by split.
  - repeat (split; [done|]). split; [|split; [done|]].
    + exists st. repeat (split; [done|]). intros win0 [= <-]. congruence.
    + intros win0 [= <-]. by exists win.
Qed.

(** X11: [observeReaderTextLayer] by cases, in a world the service keeps.
    Without a window nothing happens, no state being created.  With a window
    that has no body the state is ensured and nothing is installed, so that
    a later call can install.  With a window that has a body the state holds
    an observer afterwards and the window has at most one connected; where
    the state held none before, the observer is new, made for this reader
    and its state, the only one connected, and the timers of the window are
    as before. *)
Theorem observeReaderTextLayer_cases (reader : Reader) (w : World) :
  wf w ->
  let w' := observeReaderTextLayer reader w in
  (windows w !! _instanceID reader = None -> w' = w) /\
  (forall win, windows w !! _instanceID reader = Some win ->
     (body (document win) = false -> w' = (ensureReaderState reader w).1) /\
     (body (document win) = true ->
        exists l st o win',
          stateByReader w' !! _instanceID reader = Some l /\ heap w' !! l = Some st /\
          observer st = Some o /\ windows w' !! _instanceID reader = Some win' /\
          (length (observing win') <= 1)%nat /\ timers win' = timers win /\
          ((forall st0, stateOf (_instanceID reader) w = Some st0 -> observer st0 = None) ->
             o = {| obs_id := nextHandle win; obs_state := l; obs_reader := reader |} /\
             observing win' = [o] /\ nextHandle win' = Pos.succ (nextHandle win)))).
Proof.
  intros W w'. split.
  { intros Hw. unfold w', observeReaderTextLayer. by rewrite Hw. }
  intros win Hw.
  pose proof (wf_observeReaderTextLayer reader w W) as W'. fold w' in W'.
  pose proof (wf_ensureReaderState reader w W) as W1.
  pose proof (ensureReaderState_windows reader w) as Hws.
  pose proof (ensureReaderState_lookup reader w) as R1.
  assert (forall st0, heap (ensureReaderState reader w).1 !! (ensureReaderState reader w).2
                      = Some st0 ->
          (forall st1, stateOf (_instanceID reader) w = Some st1 -> observer st1 = None) ->
          observer st0 = None) as Hnone.
  { intros st0 E0 Hno. unfold ensureReaderState in E0.
    destruct (stateByReader w !! _instanceID reader) as [l0|] eqn:R0; cbn [fst snd heap] in E0.
    - apply Hno. by apply (stateOf_Some _ w l0).
    - rewrite lookup_insert_eq in E0. by injection E0 as <-. }
  unfold w', observeReaderTextLayer. rewrite Hw.
  destruct (ensureReaderState reader w) as [w1 l]. cbn [fst snd] in *.
  destruct (wf_heap w1 W1 _ _ R1) as [st E]. rewrite E.
  rewrite <- Hws in Hw. split.
  - intros B. rewrite B. by destruct (observer st).
  - intros B. rewrite B. cbn [negb].
    destruct (observer st) as [o|] eqn:O.
    + exists l, st, o, win. repeat (split; [done|]).
      split; [by eapply wf_one_observer|]. split; [done|].
      intros Hno. specialize (Hnone st E Hno). congruence.
    + pose proof (wf_no_observer w1 _ win l st W1 Hw R1 E O) as Hempty.
      eexists l, _, _, _. cbn [setState setWindow stateByReader heap windows].
      rewrite !lookup_insert_eq. repeat (split; [done|]).
      cbn [observing timers nextHandle]. rewrite Hempty. split; [simpl; lia|]. done.
Qed.

Lemma observeReaderTextLayer_cases_witness :
  exists l st o win',
    stateByReader (observeReaderTextLayer exampleReader exampleWorld) !! "reader-1" = Some l /\
    heap (observeReaderTextLayer exampleReader exampleWorld) !! l = Some st /\
    observer st = Some o /\
    windows (observeReaderTextLayer exampleReader exampleWorld) !! "reader-1" = Some win' /\
    (length (observing win') <= 1)%nat.
Proof.
  assert (wf exampleWorld) as W by (apply wf_newWindow; [apply wf_initialWorld|done|done]).
  destruct (observeReaderTextLayer_cases exampleReader exampleWorld W) as [_ C].
  destruct (C exampleWindow eq_refl) as [_ B].
  destruct (B eq_refl) as (l & st & o & win' & H1 & H2 & H3 & H4 & H5 & _).
  by exists l, st, o, win'.
Defined.

(** ** Rendering the toolbar again *)

Section ToolbarAgain.
Context {num : Type} `{JSNumber num}.

Lemma refreshReader_buttons (reader : Reader) (w : World) :
  buttons (refreshReader reader w) = buttons w.
Proof.
  unfold refreshReader.
  destruct (windows w !! _instanceID reader) as [win0|]; [|done].
  pose proof (ensureReaderState_buttons reader w) as E1.
  destruct (ensureReaderState reader w) as [w1 l1]. cbn [fst] in *.
  destruct (heap w1 !! l1) as [st1|]; [|done].
  by destruct (enabled st1).
Qed.

(** Installing the watcher again changes nothing. *)
Lemma observeReaderTextLayer_idem (reader : Reader) (w : World) :
  observeReaderTextLayer reader (observeReaderTextLayer reader w)
  = observeReaderTextLayer reader w.
Proof.
  destruct (windows w !! _instanceID reader) as [win|] eqn:Hw.
  2:{ assert (observeReaderTextLayer reader w = w) as Hn
        by (unfold observeReaderTextLayer; by rewrite Hw).
      by rewrite !Hn. }
  pose proof (ensureReaderState_lookup reader w) as R1.
  pose proof (ensureReaderState_windows reader w) as Hws.
  assert (forall w0 l, stateByReader w0 !! _instanceID reader = Some l ->
            windows w0 !! _instanceID reader = Some win ->
            observeReaderTextLayer reader (observeReaderTextLayer reader w0)
            = observeReaderTextLayer reader w0) as Known.
  { intros w0 l R Hw0.
    destruct (heap w0 !! l) as [st|] eqn:E.
    2:{ assert (observeReaderTextLayer reader w0 = w0) as Hn
          by (unfold observeReaderTextLayer; by rewrite Hw0, (ensureReaderState_known _ _ _ R), E).
        by rewrite !Hn. }
    destruct (observer st) as [o|] eqn:O.
    { assert (observeReaderTextLayer reader w0 = w0) as Hn
        by (unfold observeReaderTextLayer;
            by rewrite Hw0, (ensureReaderState_known _ _ _ R), E, O).
      by rewrite !Hn. }
    destruct (body (document win)) eqn:B.
    2:{ assert (observeReaderTextLayer reader w0 = w0) as Hn
          by (unfold observeReaderTextLayer;
              by rewrite Hw0, (ensureReaderState_known _ _ _ R), E, O, B).
        by rewrite !Hn. }
    set (o := {| obs_id := nextHandle win; obs_state := l; obs_reader := reader |}).
    set (W' := setState l
                 {| enabled := enabled st; observer := Some o;
                    refreshTimer := refreshTimer st |}
                 (setWindow (_instanceID reader)
                    {| document := document win; prefersDark := prefersDark win;
                       timers := timers win; observing := observing win ++ [o];
                       nextHandle := Pos.succ (nextHandle win) |} w0)).
    assert (observeReaderTextLayer reader w0 = W') as Hn
      by (unfold observeReaderTextLayer;
          by rewrite Hw0, (ensureReaderState_known _ _ _ R), E, O, B).
    rewrite !Hn.
    unfold observeReaderTextLayer.
    assert (stateByReader W' !! _instanceID reader = Some l) as R' by exact R.
    rewrite (ensureReaderState_known _ _ _ R').
    unfold W' at 1 2. cbn [setState setWindow windows heap]. by rewrite !lookup_insert_eq. }
  assert (observeReaderTextLayer reader w
          = observeReaderTextLayer reader (ensureReaderState reader w).1) as Eq.
  { unfold observeReaderTextLayer.
    rewrite (ensureReaderState_known reader (ensureReaderState reader w).1 _ R1).
    rewrite Hws, Hw. by destruct (ensureReaderState reader w). }
  rewrite Eq. apply (Known _ _ R1). by rewrite Hws.
Qed.

Lemma observeReaderTextLayer_known (reader : Reader) (w : World) (win : Window) (l : loc)
  (st : ReaderState) :
  windows w !! _instanceID reader = Some win ->
  stateByReader w !! _instanceID reader = Some l -> heap w !! l = Some st ->
  observeReaderTextLayer reader w =
    match observer st with
    | Some _ => w
    | None =>
        if body (document win) then
          let o := {| obs_id := nextHandle win; obs_state := l; obs_reader := reader |} in
          setState l
            {| enabled := enabled st; observer := Some o; refreshTimer := refreshTimer st |}
            (setWindow (_instanceID reader)
               {| document := document win; prefersDark := prefersDark win;
                  timers := timers win; observing := observing win ++ [o];
                  nextHandle := Pos.succ (nextHandle win) |} w)
        else w
    end.
Proof.
  intros Hw R E. unfold observeReaderTextLayer.
  rewrite Hw, (ensureReaderState_known _ _ _ R), E.
  destruct (observer st); [done|]. by destruct (body (document win)).
Qed.

(** For a reader whose state is there, installing the watcher and running a
    pass can be done in either order. *)
Lemma observe_refresh_commute (reader : Reader) (w : World) (l : loc) (st : ReaderState) :
  stateByReader w !! _instanceID reader = Some l -> heap w !! l = Some st ->
  observeReaderTextLayer reader (refreshReader reader w)
  = refreshReader reader (observeReaderTextLayer reader w).
Proof.
  intros R E.
  destruct (windows w !! _instanceID reader) as [win|] eqn:Hw.
  2:{ assert (observeReaderTextLayer reader w = w) as Hn
        by (unfold observeReaderTextLayer; by rewrite Hw).
      by rewrite Hn, !refreshReader_nowindow, Hn. }
  rewrite (refreshReader_known reader w win l st Hw R E).
  set (p := if enabled st then ApplyPass (endColor (document win) win) else RestorePass).
  set (winA := setSpans (pagePass (textSpans (document win)) p) win).
  rewrite (observeReaderTextLayer_known reader _ winA l st);
    [|cbn [setWindow windows]; by rewrite lookup_insert_eq|done|done].
  rewrite (observeReaderTextLayer_known reader w win l st Hw R E).
  destruct (observer st) as [o|] eqn:O.
  { by rewrite (refreshReader_known reader w win l st Hw R E). }
  change (body (document winA)) with (body (document win)).
  destruct (body (document win)) eqn:B.
  2:{ by rewrite (refreshReader_known reader w win l st Hw R E). }
  cbv zeta.
  match goal with
  | |- _ = refreshReader reader (setState l ?st' (setWindow _ ?winB w)) =>
      rewrite (refreshReader_known reader _ winB l st')
  end.
  - cbn [enabled document textSpans]. fold p.
    unfold setState, setWindow. cbn. rewrite !insert_insert_eq. done.
  - cbn [setState setWindow windows]. by rewrite lookup_insert_eq.
  - done.
  - cbn [setState heap]. by rewrite lookup_insert_eq.
Qed.

Lemma toolbarHandler_idem (reader : Reader) (w : World) :
  toolbarHandler reader (toolbarHandler reader w) = toolbarHandler reader w.
Proof.
  destruct (decide (type reader ≠ "pdf")) as [T|T].
  { assert (toolbarHandler reader w = w) as Hn
      by (unfold toolbarHandler; by rewrite bool_decide_true).
    by rewrite !Hn. }
  remember (toolbarHandler reader w) as X eqn:HX.
  unfold toolbarHandler in HX. rewrite bool_decide_false in HX by done.
  pose proof (ensureReaderState_lookup reader w) as R1.
  destruct (ensureReaderState reader w) as [w1 l]. cbn [fst snd] in R1.
  destruct (heap w1 !! l) as [st|] eqn:E.
  2:{ subst X. unfold toolbarHandler. rewrite bool_decide_false by done.
      by rewrite (ensureReaderState_known _ _ _ R1), E. }
  set (w2 := match buttons w1 !! _instanceID reader with
             | Some _ => w1
             | None =>
                 setButton (_instanceID reader)
                   (updateButtonState (enabled st)
                      {| aria_pressed := EmptyString; fontWeight := EmptyString;
                         opacity := EmptyString;
                         click_state := l; click_reader := reader |}) w1
             end) in HX.
  assert (stateByReader w2 !! _instanceID reader = Some l) as R2
    by (unfold w2; by destruct (buttons w1 !! _instanceID reader)).
  assert (heap w2 !! l = Some st) as E2
    by (unfold w2; by destruct (buttons w1 !! _instanceID reader)).
  assert (is_Some (buttons w2 !! _instanceID reader)) as [b B2].
  { unfold w2. destruct (buttons w1 !! _instanceID reader) as [b|] eqn:B; [by exists b|].
    cbn [setButton buttons]. rewrite lookup_insert_eq. by eexists. }
  destruct (observeReaderTextLayer_post reader w2 l st R2 E2)
    as (RV & BV & _ & _ & (st' & EV & _) & _).
  set (V := observeReaderTextLayer reader w2) in *.
  assert (stateByReader V !! _instanceID reader = Some l) as RV' by by rewrite RV.
  assert (stateByReader X !! _instanceID reader = Some l) as RW
    by (subst X; by apply refreshReader_registry).
  assert (heap X !! l = Some st') as EW by (subst X; by apply refreshReader_heap).
  assert (buttons X !! _instanceID reader = Some b) as BW
    by (subst X; by rewrite refreshReader_buttons, BV).
  unfold toolbarHandler. rewrite bool_decide_false by done.
  rewrite (ensureReaderState_known _ _ _ RW), EW, BW.
  rewrite HX at 1.
  rewrite (observe_refresh_commute reader V l st' RV' EV).
  unfold V at 1. rewrite observeReaderTextLayer_idem. fold V.
  rewrite refreshReader_idem. by subst X.
Qed.

(** X12: [toolbarHandler] run again for the same reader changes nothing: no
    second button, no second observer, no new state, and the page as the
    first run left it.  For a reader whose type is not "pdf" the first run
    changes nothing either. *)
Theorem toolbarHandler_again (reader : Reader) (w : World) :
  toolbarHandler reader (toolbarHandler reader w) = toolbarHandler reader w /\
  (type reader <> "pdf" -> toolbarHandler reader w = w).
Proof.
  split; [apply toolbarHandler_idem|].
  intros T. unfold toolbarHandler. by rewrite bool_decide_true.
Qed.

End ToolbarAgain.

(** ** What a rendered toolbar leaves *)

Lemma endColor_same (win win' : Window) :
  document win' = document win -> prefersDark win' = prefersDark win ->
  endColor (document win') win' = endColor (document win) win.
Proof. intros D P. unfold endColor, isDarkTheme. by rewrite D, P. Qed.

Lemma ensureReaderState_fresh_enabled (reader : Reader) (w : World) (st : ReaderState) :
  stateByReader w !! _instanceID reader = None ->
  heap (ensureReaderState reader w).1 !! (ensureReaderState reader w).2 = Some st ->
  enabled st = true.
Proof.
  intros R. unfold ensureReaderState. rewrite R. cbn [fst snd heap].
  rewrite lookup_insert_eq. by intros [= <-].
Qed.

Section ToolbarPost.
Context {num : Type} `{JSNumber num}.

(** X13: from the start of the service on, whatever the events, when
    [toolbarHandler] runs for a "pdf" reader whose window is there and has a
    body, then afterwards: the reader has a state, and that state holds the
    one observer connected in the window; the reader has a toggle button,
    bound to that state and showing its flag; the timers of the window are
    as before; and the spans of the page are those of one pass over the
    spans there were, colorizing if the state is enabled and restoring if
    not.  The flag is the one the state had, and [true] for a reader seen
    for the first time. *)
Theorem toolbarHandler_post (evs : list Event) (reader : Reader) (win : Window) :
  let w := run evs initialWorld in
  type reader = "pdf" -> windows w !! _instanceID reader = Some win ->
  body (document win) = true ->
  let w' := toolbarHandler reader w in
  exists l st o b win',
    stateByReader w' !! _instanceID reader = Some l /\ heap w' !! l = Some st /\
    observer st = Some o /\
    buttons w' !! _instanceID reader = Some b /\ click_state b = l /\
    aria_pressed b = (if enabled st then "true" else "false") /\
    windows w' !! _instanceID reader = Some win' /\
    observing win' = [o] /\ timers win' = timers win /\
    textSpans (document win') =
      pagePass (textSpans (document win))
        (if enabled st then ApplyPass (endColor (document win) win) else RestorePass) /\
    (stateByReader w !! _instanceID reader = None -> enabled st = true) /\
    (forall st0, stateOf (_instanceID reader) w = Some st0 -> enabled st = enabled st0).
Proof.
  intros w T Hw B w'.
  pose proof (wf_run evs initialWorld wf_initialWorld) as W.
  pose proof (settled_run evs initialWorld wf_initialWorld settled_initialWorld) as S.
  fold w in W, S.
  pose proof (wf_toolbarHandler reader w W) as W'.
  pose proof (settled_toolbarHandler reader w W S) as S'.
  fold w' in W', S'.
  pose proof (wf_ensureReaderState reader w W) as W1.
  pose proof (ensureReaderState_lookup reader w) as R1.
  pose proof (ensureReaderState_windows reader w) as Hws.
  pose proof (fun st => ensureReaderState_fresh_enabled reader w st) as Fresh.
  assert (forall st0 st1, stateOf (_instanceID reader) w = Some st0 ->
            heap (ensureReaderState reader w).1 !! (ensureReaderState reader w).2 = Some st1 ->
            st1 = st0) as Old.
  { intros st0 st1 H0 H1. apply stateOf_inv in H0 as (l0 & R0 & E0).
    rewrite (ensureReaderState_known _ _ _ R0) in H1. cbn [fst snd] in H1. congruence. }
  remember (toolbarHandler reader w) as X eqn:HX.
  unfold toolbarHandler in HX. rewrite bool_decide_false in HX by (intros N; by apply N).
  destruct (ensureReaderState reader w) as [w1 l]. cbn [fst snd] in *.
  destruct (wf_heap w1 W1 _ _ R1) as [st E]. rewrite E in HX.
  set (w2 := match buttons w1 !! _instanceID reader with
             | Some _ => w1
             | None =>
                 setButton (_instanceID reader)
                   (updateButtonState (enabled st)
                      {| aria_pressed := EmptyString; fontWeight := EmptyString;
                         opacity := EmptyString;
                         click_state := l; click_reader := reader |}) w1
             end) in HX.
  assert (stateByReader w2 !! _instanceID reader = Some l) as R2
    by (unfold w2; by destruct (buttons w1 !! _instanceID reader)).
  assert (heap w2 !! l = Some st) as E2
    by (unfold w2; by destruct (buttons w1 !! _instanceID reader)).
  assert (windows w2 !! _instanceID reader = Some win) as Hw2
    by (unfold w2; destruct (buttons w1 !! _instanceID reader); by rewrite <- Hws in Hw).
  assert (is_Some (buttons w2 !! _instanceID reader)) as [b B2].
  { unfold w2. destruct (buttons w1 !! _instanceID reader) as [b|] eqn:Hb; [by exists b|].
    cbn [setButton buttons]. rewrite lookup_insert_eq. by eexists. }
  destruct (observeReaderTextLayer_post reader w2 l st R2 E2)
    as (RV & BV & _ & _ & (st' & EV & En & _ & Obs) & _ & WV).
  destruct (WV win Hw2) as (winV & HwV & DV & PV & TV).
  set (V := observeReaderTextLayer reader w2) in *.
  assert (stateByReader V !! _instanceID reader = Some l) as RV' by by rewrite RV.
  rewrite (refreshReader_known reader V winV l st' HwV RV' EV) in HX.
  rewrite (endColor_same win winV DV PV), DV, En in HX.
  assert (stateByReader X !! _instanceID reader = Some l) as RX by by subst X.
  assert (heap X !! l = Some st') as EX by by subst X.
  assert (buttons X !! _instanceID reader = Some b) as BX
    by (subst X; cbn [setWindow buttons]; by rewrite BV).
  destruct (observer st') as [o|] eqn:O; [|by destruct (Obs win Hw2 B)].
  destruct (settled_observer X S' _ _ _ _ RX EX O) as (winX & HwX & ObsX).
  destruct (wf_buttons X W' _ _ BX) as [_ RB].
  destruct (settled_button X S' _ _ BX) as (stb & Eb & Shows).
  assert (click_state b = l) as Cl by congruence.
  rewrite Cl in Eb. assert (stb = st') as -> by congruence.
  exists l, st', o, b, winX. repeat (split; [done|]).
  split; [by rewrite Shows|]. split; [done|]. split; [done|].
  assert (winX = setSpans (pagePass (textSpans (document win))
                             (if enabled st then ApplyPass (endColor (document win) win)
                              else RestorePass)) winV) as ->.
  { subst X. cbn [setWindow windows] in HwX. rewrite lookup_insert_eq in HwX. congruence. }
  split; [done|]. rewrite En. split; [done|]. split.
  - intros R. by apply Fresh.
  - intros st0 H0. by rewrite (Old st0 st H0 E).
Qed.

End ToolbarPost.

Lemma toolbarHandler_post_witness :
  exists l st o b win',
    stateByReader (toolbarHandler (num := float) exampleReader exampleWorld) !! "reader-1"
      = Some l /\
    heap (toolbarHandler (num := float) exampleReader exampleWorld) !! l = Some st /\
    observer st = Some o /\ enabled st = true /\
    buttons (toolbarHandler (num := float) exampleReader exampleWorld) !! "reader-1" = Some b /\
    aria_pressed b = "true" /\
    windows (toolbarHandler (num := float) exampleReader exampleWorld) !! "reader-1"
      = Some win' /\
    observing win' = [o] /\
    textSpans (document win') =
      pagePass (num := float) (textSpans exampleDocument) (ApplyPass BLACK).
Proof.
  destruct (toolbarHandler_post (num := float)
              [HostWindow "reader-1" exampleDocument (Some false)] exampleReader exampleWindow
              eq_refl eq_refl eq_refl)
    as (l & st & o & b & win' & H1 & H2 & H3 & H4 & _ & H6 & H7 & H8 & _ & H10 & H11 & _).
  assert (enabled st = true) as En by (apply H11; vm_compute; reflexivity).
  rewrite En in H6, H10.
  exists l, st, o, b, win'. repeat (split; [assumption|]). exact H10.
Defined.

(** ** Two clicks *)

Lemma toggle_twice (st : ReaderState) :
  {| enabled := negb (negb (enabled st)); observer := observer st;
     refreshTimer := refreshTimer st |} = st.
Proof. destruct st as [[] ? ?]; done. Qed.

Section TwoClicks.
Context {num : Type} `{JSNumber num}.

(** A click in a world the service keeps, for a reader with a button and a
    window: the flag of the state is flipped, the button shows the new flag,
    and a pass runs on the page. *)
Lemma clickHandler_known (rid : string) (w : World) (b : Button) (win : Window)
  (st : ReaderState) :
  wf w -> buttons w !! rid = Some b -> windows w !! rid = Some win ->
  heap w !! click_state b = Some st ->
  clickHandler rid w =
    setWindow rid
      (setSpans (pagePass (textSpans (document win))
                   (if negb (enabled st) then ApplyPass (endColor (document win) win)
                    else RestorePass)) win)
      (setButton rid (updateButtonState (negb (enabled st)) b)
         (setState (click_state b)
            {| enabled := negb (enabled st); observer := observer st;
               refreshTimer := refreshTimer st |} w)).
Proof.
  intros W Hb Hw E. destruct (wf_buttons w W _ _ Hb) as [A R].
  unfold clickHandler. rewrite Hb, E. cbn [enabled].
  rewrite (refreshReader_known (click_reader b) _ win (click_state b)
             {| enabled := negb (enabled st); observer := observer st;
                refreshTimer := refreshTimer st |}).
  - by rewrite A.
  - by rewrite A.
  - by rewrite A.
  - cbn [setButton setState heap]. by rewrite lookup_insert_eq.
Qed.

(** X14: from the start of the service on, whatever the events, two clicks
    on the toggle of a reader with a window leave its state, its button, the
    other readers' windows and the timers, observers, theme and next handle
    of its window as they were; the page has gone through the two passes,
    one of each kind.  If colorization was on, the page then holds the
    character nodes one colorization of the page before the clicks
    generates; if it was off, every span reads its source text. *)
Theorem double_click (evs : list Event) (rid : string) (b : Button) (win : Window) :
  let w := run evs initialWorld in
  buttons w !! rid = Some b -> windows w !! rid = Some win ->
  let w2 := clickHandler rid (clickHandler rid w) in
  exists st win2,
    stateOf rid w = Some st /\ stateOf rid w2 = Some st /\
    heap w2 = heap w /\ stateByReader w2 = stateByReader w /\ buttons w2 = buttons w /\
    windows w2 = <[rid := win2]> (windows w) /\
    timers win2 = timers win /\ observing win2 = observing win /\
    nextHandle win2 = nextHandle win /\ prefersDark win2 = prefersDark win /\
    body (document win2) = body (document win) /\
    documentElement (document win2) = documentElement (document win) /\
    textSpans (document win2) =
      pagePass
        (pagePass (textSpans (document win))
           (if enabled st then RestorePass else ApplyPass (endColor (document win) win)))
        (if enabled st then ApplyPass (endColor (document win) win) else RestorePass) /\
    (enabled st = true ->
       generatedNodes (textSpans (document win2))
       = generatedNodes (pagePass (textSpans (document win))
                           (ApplyPass (endColor (document win) win)))) /\
    (enabled st = false ->
       textContent <$> textSpans (document win2) = sourceOf <$> textSpans (document win)).
Proof.
  intros w Hb Hw w2.
  pose proof (wf_run evs initialWorld wf_initialWorld) as W.
  pose proof (settled_run evs initialWorld wf_initialWorld settled_initialWorld) as S.
  fold w in W, S.
  destruct (wf_buttons w W _ _ Hb) as [A R].
  destruct (settled_button w S _ _ Hb) as (st & E & Shows).
  pose proof (wf_clickHandler rid w W) as W1.
  pose proof (clickHandler_known rid w b win st W Hb Hw E) as Eq1.
  set (st1 := {| enabled := negb (enabled st); observer := observer st;
                 refreshTimer := refreshTimer st |}) in *.
  set (b1 := updateButtonState (negb (enabled st)) b) in *.
  set (p1 := if negb (enabled st) then ApplyPass (endColor (document win) win)
             else RestorePass) in *.
  set (win1 := setSpans (pagePass (textSpans (document win)) p1) win) in *.
  assert (buttons (clickHandler rid w) !! rid = Some b1) as Hb1
    by (rewrite Eq1; cbn [setWindow setButton buttons]; by rewrite lookup_insert_eq).
  assert (windows (clickHandler rid w) !! rid = Some win1) as Hw1
    by (rewrite Eq1; cbn [setWindow windows]; by rewrite lookup_insert_eq).
  assert (heap (clickHandler rid w) !! click_state b1 = Some st1) as E1
    by (rewrite Eq1; cbn [setWindow setButton setState heap]; by rewrite lookup_insert_eq).
  pose proof (clickHandler_known rid _ b1 win1 st1 W1 Hb1 Hw1 E1) as Eq2.
  fold w2 in Eq2. unfold st1 in Eq2. cbn [enabled observer refreshTimer] in Eq2.
  rewrite (toggle_twice st) in Eq2.
  change (click_state b1) with (click_state b) in Eq2.
  change (endColor (document win1) win1) with (endColor (document win) win) in Eq2.
  change (textSpans (document win1)) with (pagePass (textSpans (document win)) p1) in Eq2.
  assert (updateButtonState (negb (negb (enabled st))) b1 = b) as Hb2
    by (rewrite negb_involutive; etransitivity; [|symmetry; exact Shows]; done).
  rewrite Hb2 in Eq2.
  set (p2 := if negb (negb (enabled st)) then ApplyPass (endColor (document win) win)
             else RestorePass) in *.
  set (win2 := setSpans (pagePass (pagePass (textSpans (document win)) p1) p2) win1) in *.
  assert (heap w2 = heap w) as Hheap.
  { rewrite Eq2, Eq1. cbn [setWindow setButton setState heap].
    rewrite insert_insert_eq. by apply insert_id. }
  exists st, win2.
  split; [by apply (stateOf_Some _ _ (click_state b))|].
  split; [apply (stateOf_Some _ _ (click_state b)); [by rewrite Eq2, Eq1|by rewrite Hheap]|].
  split; [done|]. split; [by rewrite Eq2, Eq1|]. split.
  { rewrite Eq2, Eq1. cbn [setWindow setButton setState buttons].
    rewrite insert_insert_eq. by apply insert_id. }
  split.
  { rewrite Eq2, Eq1. cbn [setWindow setButton setState windows]. by rewrite insert_insert_eq. }
  repeat (split; [done|]).
  unfold win2, p1, p2. cbn [setSpans document textSpans].
  destruct (enabled st); cbn [negb].
  - split; [done|]. split; [|done]. intros _. cbn [pagePass].
    destruct (colorizeSpans_generated (endColor (document win) win)
                (restoreSpan <$> textSpans (document win)) 0) as [-> _].
    destruct (colorizeSpans_generated (endColor (document win) win)
                (textSpans (document win)) 0) as [-> _].
    by rewrite logicalChars_restore.
  - split; [done|]. split; [done|]. intros _. cbn [pagePass].
    apply restore_colorizeSpans_text.
Qed.

End TwoClicks.

Lemma double_click_witness :
  exists st win2,
    enabled st = true /\
    stateOf "reader-1" (run (num := float) pendingEvents initialWorld) = Some st /\
    stateOf "reader-1"
      (clickHandler (num := float) "reader-1"
         (clickHandler (num := float) "reader-1"
            (run (num := float) pendingEvents initialWorld))) = Some st /\
    timers win2 = timers pendingWindow /\
    generatedNodes (textSpans (document win2))
    = generatedNodes
        (pagePass (num := float) (textSpans (document pendingWindow))
           (ApplyPass (endColor (document pendingWindow) pendingWindow))).
Proof.
  destruct (double_click (num := float) pendingEvents "reader-1" pendingButton pendingWindow)
    as (st & win2 & H1 & H2 & _ & _ & _ & _ & H7 & _ & _ & _ & _ & _ & _ & H14 & _).
  - vm_compute. reflexivity.
  - vm_compute. reflexivity.
  - assert (enabled st = true) as En.
    { assert (Some st = Some pendingState) as Hs by (rewrite <- H1; vm_compute; reflexivity).
      injection Hs as ->. vm_compute. reflexivity. }
    exists st, win2. split; [exact En|]. split; [exact H1|]. split; [exact H2|].
    split; [exact H7|exact (H14 En)].
Defined.

(** ** What teardown leaves *)

(** X15: [stop], exactly, in a world the service keeps: the listener is
    unregistered and the registry emptied; the window of every reader that
    the host lists and the registry knew is torn down, keeping its body, its
    theme and its next handle; every other window is as it was, with its
    observer and timers if it had any; and the state objects, the toolbar
    buttons and the clock are as they were. *)
Theorem stop_exact (readers : list Reader) (w : World) :
  wf w ->
  let w' := stop readers w in
  stateByReader w' = ∅ /\ listening w' = false /\
  heap w' = heap w /\ buttons w' = buttons w /\ now w' = now w /\
  forall rid,
    (rid ∈ _instanceID <$> readers -> is_Some (stateByReader w !! rid) ->
     windows w' !! rid = tornDown <$> windows w !! rid) /\
    (rid ∉ _instanceID <$> readers \/ stateByReader w !! rid = None ->
     windows w' !! rid = windows w !! rid).
Proof.
  intros W w'.
  set (w0 := {| stateByReader := stateByReader w; heap := heap w; windows := windows w;
                buttons := buttons w; now := now w; listening := false |}).
  assert (wf w0) as W0 by (split; apply W).
  destruct (stop_loop_exact readers w0 W0) as (R & E & B & N & L & Wn).
  unfold w', stop. fold w0. cbn [stateByReader heap windows buttons now listening].
  repeat (split; [done|]). exact Wn.
Qed.

Lemma stop_exact_witness :
  windows (stop [exampleReader] pendingWorld) !! "reader-1" = Some (tornDown pendingWindow) /\
  windows (stop [] pendingWorld) !! "reader-1" = Some pendingWindow /\
  buttons (stop [exampleReader] pendingWorld) = buttons pendingWorld.
Proof.
  destruct (stop_exact [exampleReader] pendingWorld wf_pendingWorld)
    as (_ & _ & _ & B & _ & Wn).
  destruct (stop_exact [] pendingWorld wf_pendingWorld) as (_ & _ & _ & _ & _ & Wn').
  split; [|split; [|exact B]].
  - destruct (Wn "reader-1") as [In _]. rewrite In.
    + vm_compute. reflexivity.
    + vm_compute. left.
    + vm_compute. eexists. reflexivity.
  - destruct (Wn' "reader-1") as [_ Out]. rewrite Out.
    + vm_compute. reflexivity.
    + left. cbn. apply not_elem_of_nil.
Defined.

Lemma clearReader_listening (reader : Reader) (w : World) :
  listening (clearReader reader w) = listening w.
Proof.
  unfold clearReader, disconnect.
  repeat match goal with
         | |- context [match ?x with _ => _ end] => destruct x
         end; done.
Qed.

Lemma clearReader_loop_unknown (readers : list Reader) (w : World) :
  stateByReader w = ∅ -> foldl (fun acc reader => clearReader reader acc) w readers = w.
Proof.
  intros R. induction readers as [|r rs IH]; [done|].
  cbn [foldl]. assert (clearReader r w = w) as -> ; [|done].
  unfold clearReader. by rewrite R, lookup_empty.
Qed.

Lemma clearReader_loop_listening (readers : list Reader) (w : World) :
  listening (foldl (fun acc reader => clearReader reader acc) w readers) = listening w.
Proof.
  revert w. induction readers as [|r rs IH]; intros w; [done|].
  cbn [foldl]. by rewrite IH, clearReader_listening.
Qed.

(** X16: [stop] after [stop] changes nothing, whatever the readers the host
    lists at either call: with the registry empty, [clearReader] returns
    at once for every reader. *)
Theorem stop_again (readers readers' : list Reader) (w : World) :
  stop readers' (stop readers w) = stop readers w.
Proof.
  unfold stop at 1.
  set (S := stop readers w).
  assert (stateByReader S = ∅) as R by done.
  assert (listening S = false) as L by (unfold S, stop; cbn [listening];
                                         by rewrite clearReader_loop_listening).
  assert ({| stateByReader := stateByReader S; heap := heap S; windows := windows S;
             buttons := buttons S; now := now S; listening := false |} = S) as ->.
  { rewrite <- L. by destruct S. }
  rewrite (clearReader_loop_unknown readers' S R). rewrite <- R. by destruct S.
Qed.

Section ClickAfterStop.
Context {num : Type} `{JSNumber num}.

(** X17: from the start of the service on, whatever the events, a click on
    the toggle of a listed reader after [stop] still runs: the state object
    the button was bound to has its flag flipped and the button shows the
    flipped flag, but the pass runs on a state newly created for the reader,
    which is enabled; so the page, torn down by [stop], is colorized again
    whatever the button shows, and no observer is connected to it. *)
Theorem click_after_stop (evs : list Event) (readers : list Reader) (rid : string)
  (b : Button) (win : Window) :
  let w := run evs initialWorld in
  buttons w !! rid = Some b -> windows w !! rid = Some win ->
  rid ∈ _instanceID <$> readers ->
  let w' := clickHandler rid (stop readers w) in
  exists st l' win',
    stateOf rid w = Some st /\
    buttons w' !! rid = Some (updateButtonState (negb (enabled st)) b) /\
    heap w' !! click_state b
      = Some {| enabled := negb (enabled st); observer := observer st;
                refreshTimer := refreshTimer st |} /\
    stateByReader w' !! rid = Some l' /\ l' <> click_state b /\
    heap w' !! l' = Some {| enabled := true; observer := None; refreshTimer := None |} /\
    windows w' !! rid = Some win' /\ observing win' = [] /\ timers win' = [] /\
    textSpans (document win') =
      pagePass (restoreSpan <$> textSpans (document win))
        (ApplyPass (endColor (document win) win)).
Proof.
  intros w Hb Hw Hin w'.
  pose proof (wf_run evs initialWorld wf_initialWorld) as W.
  pose proof (settled_run evs initialWorld wf_initialWorld settled_initialWorld) as S.
  fold w in W, S.
  destruct (wf_buttons w W _ _ Hb) as [A R].
  destruct (settled_button w S _ _ Hb) as (st & E & _).
  set (w0 := {| stateByReader := stateByReader w; heap := heap w; windows := windows w;
                buttons := buttons w; now := now w; listening := false |}).
  assert (wf w0) as W0 by (split; apply W).
  destruct (stop_loop_exact readers w0 W0) as (_ & E0 & B0 & _ & _ & Wn).
  destruct (Wn rid) as [In _].
  assert (is_Some (stateByReader w0 !! rid)) as Known by (exists (click_state b); exact R).
  specialize (In Hin Known).
  change (windows w0) with (windows w) in In. rewrite Hw in In.
  set (Sw := stop readers w) in *.
  assert (stateByReader Sw = ∅) as RS by done.
  assert (heap Sw = heap w) as ES by exact E0.
  assert (buttons Sw = buttons w) as BS by exact B0.
  assert (windows Sw !! rid = Some (tornDown win)) as WS by exact In.
  set (st' := {| enabled := negb (enabled st); observer := observer st;
                 refreshTimer := refreshTimer st |}).
  set (b' := updateButtonState (negb (enabled st)) b).
  set (W1 := setButton rid b' (setState (click_state b) st' Sw)).
  assert (w' = refreshReader (click_reader b) W1) as Eq.
  { unfold w', clickHandler. by rewrite BS, Hb, ES, E. }
  rewrite (refreshReader_first (click_reader b) W1 (tornDown win)) in Eq;
    [|by rewrite A|rewrite A; unfold W1; cbn [setButton setState stateByReader];
                   by rewrite RS, lookup_empty].
  unfold ensureReaderState in Eq.
  assert (stateByReader W1 !! _instanceID (click_reader b) = None) as R1
    by (unfold W1; cbn [setButton setState stateByReader]; by rewrite RS, lookup_empty).
  rewrite R1, A in Eq. cbn [fst] in Eq.
  set (l' := fresh (dom (heap W1))) in *.
  assert (l' <> click_state b) as Ne.
  { intros El. pose proof (fresh_loc_None W1) as F. fold l' in F. rewrite El in F.
    unfold W1 in F. cbn [setButton setState heap] in F. by rewrite lookup_insert_eq in F. }
  exists st, l', (setSpans (pagePass (textSpans (document (tornDown win)))
                              (ApplyPass (endColor (document (tornDown win)) (tornDown win))))
                    (tornDown win)).
  split; [by apply (stateOf_Some _ _ (click_state b))|].
  rewrite Eq. cbn [setWindow buttons heap stateByReader windows].
  rewrite !lookup_insert_eq.
  split; [unfold W1; cbn [setButton buttons]; by rewrite lookup_insert_eq|].
  split; [rewrite lookup_insert_ne by done; unfold W1; cbn [setButton setState heap];
          by rewrite lookup_insert_eq|].
  repeat (split; [done|]). done.
Qed.

End ClickAfterStop.

Lemma click_after_stop_witness :
  exists st l' win',
    enabled st = true /\
    buttons (clickHandler (num := float) "reader-1"
               (stop [exampleReader] (run (num := float) pendingEvents initialWorld)))
      !! "reader-1" = Some (updateButtonState (negb (enabled st)) pendingButton) /\
    stateByReader (clickHandler (num := float) "reader-1"
                     (stop [exampleReader] (run (num := float) pendingEvents initialWorld)))
      !! "reader-1" = Some l' /\
    heap (clickHandler (num := float) "reader-1"
            (stop [exampleReader] (run (num := float) pendingEvents initialWorld))) !! l'
      = Some {| enabled := true; observer := None; refreshTimer := None |} /\
    windows (clickHandler (num := float) "reader-1"
               (stop [exampleReader] (run (num := float) pendingEvents initialWorld)))
      !! "reader-1" = Some win' /\
    textSpans (document win') =
      pagePass (num := float) (restoreSpan <$> textSpans (document pendingWindow))
        (ApplyPass (endColor (document pendingWindow) pendingWindow)).
Proof.
  destruct (click_after_stop (num := float) pendingEvents [exampleReader] "reader-1"
              pendingButton pendingWindow)
    as (st & l' & win' & H1 & H2 & _ & H4 & _ & H6 & H7 & _ & _ & H10).
  - vm_compute. reflexivity.
  - vm_compute. reflexivity.
  - vm_compute. left.
  - assert (enabled st = true) as En.
    { assert (Some st = Some pendingState) as Hs by (rewrite <- H1; vm_compute; reflexivity).
      injection Hs as ->. vm_compute. reflexivity. }
    exists st, l', win'. split; [exact En|]. split; [exact H2|]. split; [exact H4|].
    split; [exact H6|]. split; [exact H7|exact H10].
Defined.

(** ** What the service never touches *)

Lemma samePage_refl (win : Window) : samePage win win.
Proof. by repeat split. Qed.

Lemma samePage_trans (a b c : Window) : samePage a b -> samePage b c -> samePage a c.
Proof. intros (A1 & A2 & A3 & A4) (B1 & B2 & B3 & B4). repeat split; congruence. Qed.

Lemma pagesKept_windows (w w' : World) : windows w' = windows w -> pagesKept w w'.
Proof.
  intros E rid. rewrite E. destruct (windows w !! rid); [apply samePage_refl|done].
Qed.

Lemma pagesKept_refl (w : World) : pagesKept w w.
Proof. by apply pagesKept_windows. Qed.

Lemma pagesKept_trans (a b c : World) : pagesKept a b -> pagesKept b c -> pagesKept a c.
Proof.
  intros K1 K2 rid. specialize (K1 rid). specialize (K2 rid).
  destruct (windows a !! rid), (windows b !! rid), (windows c !! rid); try done.
  by eapply samePage_trans.
Qed.

Lemma pagesKept_setWindow (w : World) (rid : string) (win win' : Window) :
  windows w !! rid = Some win -> samePage win win' -> pagesKept w (setWindow rid win' w).
Proof.
  intros Hw P rid'. cbn [setWindow windows].
  destruct (decide (rid = rid')) as [<-|N].
  - by rewrite lookup_insert_eq, Hw.
  - rewrite lookup_insert_ne by done.
    destruct (windows w !! rid'); [apply samePage_refl|done].
Qed.

Lemma samePage_setTimers (ts : list Timer) (win : Window) : samePage win (setTimers ts win).
Proof. by repeat split. Qed.

Lemma samePage_setObserving (os : list Observer) (win : Window) :
  samePage win (setObserving os win).
Proof. by repeat split. Qed.

Lemma samePage_restore (win : Window) :
  samePage win (setSpans (restoreSpan <$> textSpans (document win)) win).
Proof.
  repeat split. cbn [setSpans document textSpans].
  rewrite <- list_fmap_compose. apply list_fmap_ext. intros i span _. apply sourceOf_restoreSpan.
Qed.

Lemma pagesKept_clearReader (reader : Reader) (w : World) : pagesKept w (clearReader reader w).
Proof.
  unfold clearReader.
  destruct (stateByReader w !! _instanceID reader) as [l|]; [|apply pagesKept_refl].
  destruct (heap w !! l) as [st|]; [|apply pagesKept_refl].
  set (w1 := match refreshTimer st, windows w !! _instanceID reader with
             | Some id, Some iframeWindow =>
                 setWindow (_instanceID reader) (clearTimeout id iframeWindow) w
             | _, _ => w
             end).
  assert (pagesKept w w1) as K1.
  { unfold w1. destruct (refreshTimer st) as [id|]; [|apply pagesKept_refl].
    destruct (windows w !! _instanceID reader) as [win|] eqn:Hw; [|apply pagesKept_refl].
    apply (pagesKept_setWindow w _ win _ Hw), samePage_setTimers. }
  set (w2 := match observer st with
             | Some o => disconnect o w1
             | None => w1
             end).
  assert (pagesKept w1 w2) as K2.
  { unfold w2. destruct (observer st) as [o|]; [|apply pagesKept_refl].
    unfold disconnect.
    destruct (windows w1 !! _instanceID (obs_reader o)) as [win|] eqn:Hw;
      [|apply pagesKept_refl].
    apply (pagesKept_setWindow w1 _ win _ Hw), samePage_setObserving. }
  apply (pagesKept_trans _ w1); [done|]. apply (pagesKept_trans _ w2); [done|].
  destruct (windows w2 !! _instanceID reader) as [win|] eqn:Hw; [|apply pagesKept_refl].
  apply (pagesKept_setWindow w2 _ win _ Hw), samePage_restore.
Qed.

Lemma pagesKept_stop (readers : list Reader) (w : World) : pagesKept w (stop readers w).
Proof.
  unfold stop.
  set (w0 := {| stateByReader := stateByReader w; heap := heap w; windows := windows w;
                buttons := buttons w; now := now w; listening := false |}).
  assert (pagesKept w w0) as K0 by by apply pagesKept_windows.
  assert (forall v, pagesKept v (foldl (fun acc reader => clearReader reader acc) v readers))
    as Loop.
  { induction readers as [|r rs IH]; intros v; [apply pagesKept_refl|].
    cbn [foldl]. eapply pagesKept_trans; [apply pagesKept_clearReader|apply IH]. }
  eapply pagesKept_trans; [exact K0|].
  eapply pagesKept_trans; [apply Loop|]. by apply pagesKept_windows.
Qed.

Lemma logicalChars_sources (a b : list Span) :
  sourceOf <$> a = sourceOf <$> b -> logicalChars a = logicalChars b.
Proof.
  revert b. induction a as [|x a IH]; intros [|y b] E; try done.
  cbn [fmap list_fmap] in E. injection E as E1 E2.
  by rewrite !logicalChars_cons, E1, (IH b E2).
Qed.

Section PagesKept.
Context {num : Type} `{JSNumber num}.

Lemma sourceOf_colorizeSpans (e : Color) (spans : list Span) (off : Z) :
  sourceOf <$> (colorizeSpans e off spans).1 = sourceOf <$> spans.
Proof.
  revert off. induction spans as [|span rest IH]; intros off; [done|].
  rewrite colorizeSpans_cons. cbn [fst fmap list_fmap].
  by rewrite sourceOf_colorizeSpan, IH.
Qed.

Lemma samePage_pagePass (p : Pass) (win : Window) :
  samePage win (setSpans (pagePass (textSpans (document win)) p) win).
Proof.
  repeat split. cbn [setSpans document textSpans]. destruct p as [e|]; cbn [pagePass].
  - apply sourceOf_colorizeSpans.
  - rewrite <- list_fmap_compose. apply list_fmap_ext. intros i span _.
    apply sourceOf_restoreSpan.
Qed.

Lemma pagesKept_refreshReader (reader : Reader) (w : World) :
  pagesKept w (refreshReader reader w).
Proof.
  unfold refreshReader.
  destruct (windows w !! _instanceID reader) as [win|] eqn:Hw; [|apply pagesKept_refl].
  pose proof (ensureReaderState_windows reader w) as Hws.
  destruct (ensureReaderState reader w) as [w1 l]. cbn [fst] in *.
  apply (pagesKept_trans _ w1); [by apply pagesKept_windows|].
  destruct (heap w1 !! l) as [st|]; [|apply pagesKept_refl].
  rewrite <- Hws in Hw.
  destruct (enabled st); cbn [negb]; apply (pagesKept_setWindow w1 _ win _ Hw).
  - apply (samePage_pagePass (ApplyPass (endColor (document win) win))).
  - apply (samePage_pagePass RestorePass).
Qed.

Lemma pagesKept_observeReaderTextLayer (reader : Reader) (w : World) :
  pagesKept w (observeReaderTextLayer reader w).
Proof.
  unfold observeReaderTextLayer.
  destruct (windows w !! _instanceID reader) as [win|] eqn:Hw; [|apply pagesKept_refl].
  pose proof (ensureReaderState_windows reader w) as Hws.
  destruct (ensureReaderState reader w) as [w1 l]. cbn [fst] in *.
  apply (pagesKept_trans _ w1); [by apply pagesKept_windows|].
  destruct (heap w1 !! l) as [st|]; [|apply pagesKept_refl].
  destruct (observer st); [apply pagesKept_refl|].
  destruct (body (document win)); cbn [negb]; [|apply pagesKept_refl].
  rewrite <- Hws in Hw.
  match goal with
  | |- pagesKept _ (setState _ _ (setWindow _ ?win' _)) =>
      apply (pagesKept_trans _ (setWindow (_instanceID reader) win' w1));
        [apply (pagesKept_setWindow w1 _ win _ Hw); by repeat split
        |by apply pagesKept_windows]
  end.
Qed.

Lemma pagesKept_clickHandler (rid : string) (w : World) : pagesKept w (clickHandler rid w).
Proof.
  unfold clickHandler.
  destruct (buttons w !! rid) as [b|]; [|apply pagesKept_refl].
  destruct (heap w !! click_state b) as [st|]; [|apply pagesKept_refl].
  eapply pagesKept_trans; [|apply pagesKept_refreshReader]. by apply pagesKept_windows.
Qed.

Lemma pagesKept_toolbarHandler (reader : Reader) (w : World) :
  pagesKept w (toolbarHandler reader w).
Proof.
  unfold toolbarHandler. case_bool_decide; [apply pagesKept_refl|].
  pose proof (ensureReaderState_windows reader w) as Hws.
  destruct (ensureReaderState reader w) as [w1 l]. cbn [fst] in *.
  apply (pagesKept_trans _ w1); [by apply pagesKept_windows|].
  destruct (heap w1 !! l) as [st|]; [|apply pagesKept_refl].
  eapply pagesKept_trans; [|apply pagesKept_refreshReader].
  eapply pagesKept_trans; [|apply pagesKept_observeReaderTextLayer].
  destruct (buttons w1 !! _instanceID reader); [apply pagesKept_refl|].
  by apply pagesKept_windows.
Qed.

Lemma pagesKept_observerCallback (o : Observer) (mutations : list MutationRecord)
  (w : World) :
  pagesKept w (observerCallback o mutations w).
Proof.
  unfold observerCallback. destruct (qualifying mutations); cbn [negb]; [|apply pagesKept_refl].
  destruct (windows w !! _instanceID (obs_reader o)) as [win|] eqn:Hw; [|apply pagesKept_refl].
  destruct (heap w !! obs_state o) as [st|]; [|apply pagesKept_refl].
  cbn [setTimeout].
  eapply pagesKept_trans; [|by apply pagesKept_windows].
  apply (pagesKept_setWindow w _ win _ Hw).
  destruct (refreshTimer st); by repeat split.
Qed.

Lemma pagesKept_fireTimer (rid : string) (tm : Timer) (w : World) :
  pagesKept w (fireTimer rid tm w).
Proof.
  unfold fireTimer.
  destruct (windows w !! rid) as [win|] eqn:Hw; [|apply pagesKept_refl].
  eapply pagesKept_trans;
    [apply (pagesKept_setWindow w _ win (clearTimeout (timer_id tm) win) Hw),
       samePage_setTimers|].
  unfold timerCallback.
  eapply pagesKept_trans; [|apply pagesKept_refreshReader].
  match goal with
  | |- context [heap ?W !! ?k] => destruct (heap W !! k)
  end; [by apply pagesKept_windows|apply pagesKept_refl].
Qed.

Lemma pagesKept_step (ev : Event) (w : World) :
  hostEvent ev = false -> pagesKept w (step ev w).
Proof.
  intros Hev. destruct ev as [| | |dt|reader|rid|rid oid ms|rid tid]; try done; cbn [step].
  - by apply pagesKept_windows.
  - destruct (0 <=? dt); [by apply pagesKept_windows|apply pagesKept_refl].
  - destruct (listening w); [apply pagesKept_toolbarHandler|apply pagesKept_refl].
  - apply pagesKept_clickHandler.
  - destruct (windows w !! rid) as [win|]; [|apply pagesKept_refl].
    destruct (head _); [apply pagesKept_observerCallback|apply pagesKept_refl].
  - destruct (windows w !! rid) as [win|]; [|apply pagesKept_refl].
    destruct (head _) as [tm|]; [|apply pagesKept_refl].
    destruct (timer_due tm <=? now w); [apply pagesKept_fireTimer|apply pagesKept_refl].
Qed.

(** X18: whatever the service does, it leaves the pages as the host made
    them.  Over any events other than the host's own, from any world, and
    then through [stop], no window appears or disappears, and every window
    keeps its body, its theme, the number of its spans and the source text
    of each span; so the text the colorizer counts is the same at every
    pass. *)
Theorem service_keeps_pages (evs : list Event) (readers : list Reader) (w : World) :
  forallb (fun ev => negb (hostEvent ev)) evs = true ->
  pagesKept w (run evs w) /\ pagesKept w (stop readers (run evs w)) /\
  forall rid win, windows w !! rid = Some win ->
    exists win', windows (run evs w) !! rid = Some win' /\
      logicalChars (textSpans (document win')) = logicalChars (textSpans (document win)) /\
      endColor (document win') win' = endColor (document win) win.
Proof.
  intros Hevs.
  assert (pagesKept w (run evs w)) as K.
  { revert w. induction evs as [|ev evs IH]; intros w; [apply pagesKept_refl|].
    cbn [forallb] in Hevs. apply andb_true_iff in Hevs as [Hev Hrest].
    cbn [run foldl]. eapply pagesKept_trans; [|apply (IH Hrest)].
    apply pagesKept_step. by destruct (hostEvent ev). }
  split; [done|]. split; [eapply pagesKept_trans; [exact K|apply pagesKept_stop]|].
  intros rid win Hw. specialize (K rid). rewrite Hw in K.
  destruct (windows (run evs w) !! rid) as [win'|]; [|done].
  destruct K as (_ & D & P & Src). exists win'. split; [done|]. split.
  - by apply logicalChars_sources.
  - unfold endColor, isDarkTheme. by rewrite D, P.
Qed.

End PagesKept.

Lemma service_keeps_pages_witness :
  exists win',
    windows (run (num := float)
               [Start; RenderToolbar exampleReader; Elapse 10;
                Mutations "reader-1" 1 textLayerBatch; Click "reader-1"; Elapse 200;
                TimerFires "reader-1" 2] exampleWorld) !! "reader-1" = Some win' /\
    logicalChars (textSpans (document win')) = logicalChars (textSpans exampleDocument) /\
    endColor (document win') win' = endColor exampleDocument exampleWindow.
Proof.
  destruct (service_keeps_pages (num := float)
              [Start; RenderToolbar exampleReader; Elapse 10;
               Mutations "reader-1" 1 textLayerBatch; Click "reader-1"; Elapse 200;
               TimerFires "reader-1" 2] [exampleReader] exampleWorld eq_refl)
    as (_ & _ & K).
  exact (K "reader-1" exampleWindow eq_refl).
Defined.
